(** * Enhanced story generator: a shallow embedding of [main.py]

    The program is a console loop that asks a language-model backend for
    children's stories.  This development embeds the whole of [main.py]:
    the genre engine, the model gateway, the character extractor, the
    generation pipeline, the feedback flow and the session loop, and proves
    properties of them.

    Modelling conventions.
    - A Python [str] is a [string].  Case mapping, whitespace and digit tests
      are those of CPython on ASCII; characters above 127 are left alone by
      case mapping and are neither whitespace nor digits.  On other text
      CPython differs: it lowers the Kelvin sign to k, raises the sharp s to
      SS, strips the no-break space and takes the digits of other scripts
      for digits, and its [int] raises [ValueError] on some of those and on
      more than 4300 digits.  Where a statement would not hold of such
      text, it carries the hypothesis that the text is ASCII
      ([ascii_only], [plain_line], [plain_reply]).  The result of genre
      detection is characterised for the lowered request whatever it is
      (see [detect_genre_from_is_max]).
    - A completion of the backend is a text; the temperature, 0.1 in every
      request, is not recorded.
    - A [dict] is an association list in insertion order, as CPython
      iterates it.
    - The console and the backend are one explicit [World]; functions that
      print, read or call the backend are written in the monad [M], which
      threads the world and carries the one exception that can escape on
      a console of plain lines, [EOFError] of [input()].
    - The [StoryMemory] object is passed in and handed back by each function
      that mutates it.  No two references to it or to its parts are ever
      shared: the history stores a fresh list of the character names. *)

From Stdlib Require Import String Ascii List Bool Arith Lia.
Import ListNotations.
Local Open Scope string_scope.
Local Open Scope nat_scope.

(** ** Python string operations *)

Module Py.

(** The code of a character. *)
Definition ord (c : ascii) : nat := nat_of_ascii c.

Definition is_upper (c : ascii) : bool := (65 <=? ord c) && (ord c <=? 90).
Definition is_lower (c : ascii) : bool := (97 <=? ord c) && (ord c <=? 122).
Definition is_alpha (c : ascii) : bool := is_upper c || is_lower c.
Definition is_digit (c : ascii) : bool := (48 <=? ord c) && (ord c <=? 57).

(** [str.isspace] on ASCII: tab, line feed, vertical tab, form feed, carriage
    return, the four separators 28..31 and the space. *)
Definition is_space (c : ascii) : bool :=
  ((9 <=? ord c) && (ord c <=? 13)) || ((28 <=? ord c) && (ord c <=? 32)).

Definition lower_char (c : ascii) : ascii :=
  if is_upper c then ascii_of_nat (ord c + 32) else c.
Definition upper_char (c : ascii) : ascii :=
  if is_lower c then ascii_of_nat (ord c - 32) else c.

(** [s.lower()] and [s.upper()]. *)
Fixpoint lower (s : string) : string :=
  match s with
  | EmptyString => EmptyString
  | String c r => String (lower_char c) (lower r)
  end.

Fixpoint upper (s : string) : string :=
  match s with
  | EmptyString => EmptyString
  | String c r => String (upper_char c) (upper r)
  end.

(** [s.title()]: the first letter of every run of letters in upper case, the
    others in lower case.  [prev] says whether the previous character was a
    letter. *)
Fixpoint title_from (prev : bool) (s : string) : string :=
  match s with
  | EmptyString => EmptyString
  | String c r =>
      String (if prev then lower_char c else upper_char c)
             (title_from (is_alpha c) r)
  end.
Definition title (s : string) : string := title_from false s.

(** [s.replace(a, b)] for one-character [a] and [b]. *)
Fixpoint replace (a b : ascii) (s : string) : string :=
  match s with
  | EmptyString => EmptyString
  | String c r => String (if Ascii.eqb c a then b else c) (replace a b r)
  end.

(** [needle in hay]: [needle] occurs in [hay] as a substring. *)
Fixpoint contains (needle hay : string) : bool :=
  if String.prefix needle hay then true
  else match hay with
       | EmptyString => false
       | String _ r => contains needle r
       end.

(** [s.split(sep)] for a one-character separator: never an empty list. *)
Fixpoint split (sep : ascii) (s : string) : list string :=
  match s with
  | EmptyString => [EmptyString]
  | String c r =>
      if Ascii.eqb c sep then EmptyString :: split sep r
      else match split sep r with
           | [] => [String c EmptyString]
           | p :: ps => String c p :: ps
           end
  end.

(** [s.lstrip()], [s.rstrip()] and [s.strip()]. *)
Fixpoint lstrip (s : string) : string :=
  match s with
  | EmptyString => EmptyString
  | String c r => if is_space c then lstrip r else s
  end.

Fixpoint rstrip (s : string) : string :=
  match s with
  | EmptyString => EmptyString
  | String c r =>
      match rstrip r with
      | EmptyString => if is_space c then EmptyString else String c EmptyString
      | r' => String c r'
      end
  end.

Definition strip (s : string) : string := rstrip (lstrip s).

(** [sep.join(l)]. *)
Fixpoint join (sep : string) (l : list string) : string :=
  match l with
  | [] => EmptyString
  | [x] => x
  | x :: xs => x ++ sep ++ join sep xs
  end.

(** [s.isdigit()]: not empty and every character a digit. *)
Fixpoint all_digits (s : string) : bool :=
  match s with
  | EmptyString => true
  | String c r => is_digit c && all_digits r
  end.
Definition isdigit (s : string) : bool :=
  match s with
  | EmptyString => false
  | _ => all_digits s
  end.

(** [int(s)] for a string of digits, most significant first. *)
Fixpoint int_from (acc : nat) (s : string) : nat :=
  match s with
  | EmptyString => acc
  | String c r => int_from (10 * acc + (ord c - 48)) r
  end.
Definition int (s : string) : nat := int_from 0 s.

(** [str(n)] for a natural number. *)
Fixpoint digits_fuel (fuel n : nat) (acc : string) : string :=
  match fuel with
  | 0 => acc
  | S f =>
      let acc' := String (ascii_of_nat (48 + n mod 10)) acc in
      if n <? 10 then acc' else digits_fuel f (n / 10) acc'
  end.
Definition str_of_nat (n : nat) : string := digits_fuel (S n) n EmptyString.

(** [s[-n:]]: the last [n] characters, the whole string when shorter.  The
    code only uses it with [n = 500]. *)
Definition last_chars (n : nat) (s : string) : string :=
  substring (String.length s - n) n s.

(** [s * n] for a string [s]. *)
Fixpoint repeat_str (s : string) (n : nat) : string :=
  match n with
  | 0 => EmptyString
  | S k => s ++ repeat_str s k
  end.

(** Truthiness of a string: [not s] is [true] exactly for the empty one. *)
Definition truthy (s : string) : bool :=
  match s with
  | EmptyString => false
  | String _ _ => true
  end.

(** Truthiness of an [Optional[str]]: [None] and the empty string are
    false. *)
Definition truthy_opt (o : option string) : bool :=
  match o with
  | None => false
  | Some s => truthy s
  end.

(** The text of an [Optional[str]] that is true, [None] for one that is
    false: [if not x: ...] is the [None] branch of a match on it. *)
Definition usable (o : option string) : option string :=
  match o with
  | Some (String c r) => Some (String c r)
  | _ => None
  end.

(** One-character strings that cannot be written inside a literal. *)
Definition nl : string := String (ascii_of_nat 10) EmptyString.
Definition dq : string := String (ascii_of_nat 34) EmptyString.

End Py.

(** ** Dictionaries in insertion order *)

Section Dict.
Context {V : Type}.

(** [d.get(k)]. *)
Fixpoint dict_get (k : string) (d : list (string * V)) : option V :=
  match d with
  | [] => None
  | (k', v) :: r => if String.eqb k' k then Some v else dict_get k r
  end.

(** [d[k] = v]: an existing key keeps its place, a new one goes last. *)
Fixpoint dict_set (k : string) (v : V) (d : list (string * V))
  : list (string * V) :=
  match d with
  | [] => [(k, v)]
  | (k', v') :: r =>
      if String.eqb k' k then (k, v) :: r else (k', v') :: dict_set k v r
  end.

Definition dict_keys (d : list (string * V)) : list string := map fst d.
Definition dict_values (d : list (string * V)) : list V := map snd d.
End Dict.

(** [max(keys, key=f)]: the first key whose value no later key exceeds;
    [None] stands for the [ValueError] on an empty sequence. *)
Fixpoint max_from (f : string -> nat) (best : string) (l : list string)
  : string :=
  match l with
  | [] => best
  | x :: r => if f best <? f x then max_from f x r else max_from f best r
  end.

Definition py_max (f : string -> nat) (l : list string) : option string :=
  match l with
  | [] => None
  | x :: r => Some (max_from f x r)
  end.

(** ** The genre engine ([GenrePromptEngine]) *)

(** The keyword table local to [detect_genre]. *)
Definition genre_keywords : list (string * list string) :=
  [ ("adventure",
      ["adventure"; "quest"; "journey"; "explore"; "brave"; "hero"]);
    ("fairy_tale",
      ["princess"; "prince"; "magic"; "fairy"; "castle"; "witch"; "dragon"]);
    ("educational",
      ["learn"; "teach"; "school"; "facts"; "science"; "math"; "educational"]);
    ("friendship",
      ["friend"; "friendship"; "together"; "help"; "kind"; "caring"]);
    ("fantasy",
      ["magical"; "wizard"; "unicorn"; "fantasy"; "mystical"; "enchanted"]) ].

(** [sum(1 for keyword in keywords if keyword in request_lower)]. *)
Definition keyword_score (keywords : list string) (request_lower : string)
  : nat :=
  length (filter (fun keyword => Py.contains keyword request_lower) keywords).

(** The dictionary [genre_scores] once the scoring loop has run. *)
Definition genre_scores (request_lower : string) : list (string * nat) :=
  map (fun '(genre, keywords) => (genre, keyword_score keywords request_lower))
      genre_keywords.

(** [genre_scores.get] as the key of [max]; every key that [max] meets is a
    key of the dictionary, so the default is never used. *)
Definition score_of (scores : list (string * nat)) (genre : string) : nat :=
  match dict_get genre scores with
  | Some n => n
  | None => 0
  end.

(** The body of [detect_genre] after the request has been lowered. *)
Definition detect_genre_from (request_lower : string) : string :=
  let scores := genre_scores request_lower in
  match py_max (score_of scores) (dict_keys scores) with
  | Some detected_genre =>
      if 0 <? score_of scores detected_genre then detected_genre
      else "adventure"
  | None => "adventure" (* not reached: the table is not empty *)
  end.

Definition detect_genre (user_request : string) : string :=
  detect_genre_from (Py.lower user_request).

(** The table [GENRE_TEMPLATES]. *)
Record Template := {
  elements : list string;
  tone : string;
  structure : string;
  vocabulary : string
}.

Definition GENRE_TEMPLATES : list (string * Template) :=
  [ ("adventure",
      {| elements := ["brave protagonist"; "exciting quest";
                      "obstacles to overcome"; "discovery"];
         tone := "exciting and energetic";
         structure := "journey with challenges and triumph";
         vocabulary :=
           "action words, vivid descriptions of places and events" |});
    ("fairy_tale",
      {| elements := ["magical elements"; "clear good vs evil";
                      "transformation"; "happy ending"];
         tone := "whimsical and magical";
         structure := "once upon a time format with magical resolution";
         vocabulary := "magical, enchanted, sparkling, mysterious" |});
    ("educational",
      {| elements := ["learning opportunity"; "problem-solving";
                      "factual information"; "practical lessons"];
         tone := "encouraging and informative";
         structure := "problem-discovery-learning-application";
         vocabulary := "clear explanations, age-appropriate facts" |});
    ("friendship",
      {| elements := ["character relationships"; "cooperation"; "empathy";
                      "shared experiences"];
         tone := "warm and heartfelt";
         structure := "relationship challenge and resolution";
         vocabulary := "emotions, caring, helping, understanding" |});
    ("fantasy",
      {| elements := ["magical creatures"; "fantastical settings";
                      "special powers"; "wonder"];
         tone := "mysterious and wondrous";
         structure := "magical world with extraordinary events";
         vocabulary := "mystical, enchanted, powerful, extraordinary" |}) ].

(** [GENRE_TEMPLATES["adventure"]], the fallback of [get_genre_prompt]. *)
Definition adventure_template : Template :=
  match dict_get "adventure" GENRE_TEMPLATES with
  | Some t => t
  | None => {| elements := []; tone := ""; structure := ""; vocabulary := "" |}
  end.

(** A text given line by line, as the triple-quoted literals are. *)
Definition text_lines (l : list string) : string := Py.join Py.nl l.

Definition get_genre_prompt (genre user_request : string) (is_episode : bool)
  : string :=
  let template :=
    match dict_get genre GENRE_TEMPLATES with
    | Some t => t
    | None => adventure_template
    end in
  let base_prompt := text_lines
    [ "Create an engaging " ++ genre
        ++ " story for children ages 5-10 based on: '" ++ user_request ++ "'";
      "";
      "GENRE-SPECIFIC REQUIREMENTS for " ++ Py.upper genre ++ ":";
      "- Include these elements: " ++ Py.join ", " (elements template);
      "- Maintain a " ++ tone template ++ " tone throughout";
      "- Follow this structure: " ++ structure template;
      "- Use " ++ vocabulary template ++ " in your language choices";
      "";
      "GENERAL REQUIREMENTS:";
      "- Be appropriate for children ages 5-10 (no scary or inappropriate content)";
      "- Be approximately 200-400 words long";
      "- Include descriptive language and dialogue";
      "- Teach a gentle lesson or moral";
      "- Have a clear beginning, middle, and satisfying end" ] in
  let base_prompt :=
    if is_episode then
      base_prompt ++ Py.nl
        ++ "- This is a continuation episode, maintain consistency with established "
        ++ genre ++ " elements from previous story"
    else base_prompt in
  base_prompt ++ Py.nl ++ Py.nl ++ "Please write the complete story now:".

(** ** The data model *)

Record Character := {
  name : string;
  description : string;
  personality : list string;
  relationships : list (string * string)
}.

(** [Character(name=.., description=.., personality=..)]: the relationships
    take their default, a fresh empty dictionary. *)
Definition new_Character (n d : string) (p : list string) : Character :=
  {| name := n; description := d; personality := p; relationships := [] |}.

(** One entry of [story_history]: the dictionary built by [add_story]. *)
Record Turn := {
  turn_story : string;
  turn_genre : string;
  turn_request : string;
  turn_quality_score : nat;
  turn_characters : list string
}.

Record StoryMemory := {
  current_story : string;
  genre : string;
  characters : list (string * Character);
  world_details : list (string * string);
  story_history : list Turn;
  user_preferences : list (string * list (string * nat))
}.

(** [StoryMemory()]. *)
Definition new_StoryMemory : StoryMemory :=
  {| current_story := ""; genre := ""; characters := []; world_details := [];
     story_history := []; user_preferences := [] |}.

Definition set_genre (g : string) (m : StoryMemory) : StoryMemory :=
  {| current_story := current_story m; genre := g;
     characters := characters m; world_details := world_details m;
     story_history := story_history m;
     user_preferences := user_preferences m |}.

Definition set_characters (c : list (string * Character)) (m : StoryMemory)
  : StoryMemory :=
  {| current_story := current_story m; genre := genre m;
     characters := c; world_details := world_details m;
     story_history := story_history m;
     user_preferences := user_preferences m |}.

Definition set_user_preferences (p : list (string * list (string * nat)))
  (m : StoryMemory) : StoryMemory :=
  {| current_story := current_story m; genre := genre m;
     characters := characters m; world_details := world_details m;
     story_history := story_history m;
     user_preferences := p |}.

(** [StoryMemory.add_story]. *)
Definition add_story (self : StoryMemory)
  (story genre_ user_request : string) (quality_score : nat) : StoryMemory :=
  {| current_story := story;
     genre := genre_;
     characters := characters self;
     world_details := world_details self;
     story_history :=
       (story_history self
        ++ [ {| turn_story := story;
                turn_genre := genre_;
                turn_request := user_request;
                turn_quality_score := quality_score;
                turn_characters := dict_keys (characters self) |} ])%list;
     user_preferences := user_preferences self |}.

(** ** The world: credential, backend and console *)

(** What [openai.ChatCompletion.create] does with one request: the text of
    the completion, or an exception with its message. *)
Inductive backend_result :=
| Content (text : string)
| Failure (e : string).

Record World := {
  (** [os.getenv('OPENAI_API_KEY')]; the program never changes it. *)
  api_key : option string;
  (** The outcome of the n-th request of the run, counted from 0. *)
  backend : nat -> backend_result;
  (** The requests sent so far: prompt and [max_tokens].  The temperature is
      0.1 in every request. *)
  calls : list (string * nat);
  (** The lines still to be read from the console. *)
  stdin : list string;
  (** What has been written to the console, piece by piece. *)
  stdout : list string
}.

Inductive exn := EOFError.

Inductive result (A : Type) :=
| Ok (a : A)
| Raise (e : exn).
Arguments Ok {A} a.
Arguments Raise {A} e.

Definition M (A : Type) : Type := World -> result A * World.

Definition ret {A} (a : A) : M A := fun w => (Ok a, w).

Definition bind {A B} (c : M A) (k : A -> M B) : M B :=
  fun w =>
    match c w with
    | (Ok a, w') => k a w'
    | (Raise e, w') => (Raise e, w')
    end.

Notation "x <- c ;; k" := (bind c (fun x => k))
  (at level 61, c at next level, right associativity).
Notation "' pat <- c ;; k" := (bind c (fun x => match x with pat => k end))
  (at level 61, pat pattern, c at next level, right associativity).
Notation "c ;; k" := (bind c (fun _ => k))
  (at level 61, right associativity).

Definition write (s : string) : M unit :=
  fun w =>
    (Ok tt,
     {| api_key := api_key w; backend := backend w; calls := calls w;
        stdin := stdin w; stdout := (stdout w ++ [s])%list |}).

(** [print(s)], [print()] and [print(s, end=" ")]. *)
Definition print (s : string) : M unit := write (s ++ Py.nl).
Definition print_blank : M unit := write Py.nl.
Definition print_end_space (s : string) : M unit := write (s ++ " ").

(** [input()] and [input(prompt)]: the next line of the console, without
    its end of line; [EOFError] when there is none. *)
Definition read_line : M string :=
  fun w =>
    match stdin w with
    | [] => (Raise EOFError, w)
    | line :: rest =>
        (Ok line,
         {| api_key := api_key w; backend := backend w; calls := calls w;
            stdin := rest; stdout := stdout w |})
    end.

Definition input (prompt : string) : M string := write prompt ;; read_line.

Definition getenv_api_key : M (option string) := fun w => (Ok (api_key w), w).

(** One request to the backend: it is recorded and answered. *)
Definition chat_completion (prompt : string) (max_tokens : nat)
  : M backend_result :=
  fun w =>
    (Ok (backend w (length (calls w))),
     {| api_key := api_key w; backend := backend w;
        calls := (calls w ++ [(prompt, max_tokens)])%list;
        stdin := stdin w; stdout := stdout w |}).

(** ** The model gateway *)

Definition call_model (prompt : string) (max_tokens : nat)
  : M (option string) :=
  key <- getenv_api_key ;;
  if negb (Py.truthy_opt key) then
    print "❌ Error: OPENAI_API_KEY environment variable not set!" ;;
    print "Please set your OpenAI API key as an environment variable:" ;;
    print "  export OPENAI_API_KEY='your-api-key-here'" ;;
    print "Or on Windows:" ;;
    print "  set OPENAI_API_KEY=your-api-key-here" ;;
    ret None
  else
    resp <- chat_completion prompt max_tokens ;;
    match resp with
    | Content text => ret (Some text)
    | Failure e =>
        print ("❌ Error calling OpenAI API: " ++ e) ;;
        print "Please check your API key and internet connection." ;;
        ret None
    end.

(** ** The character extractor *)

Definition extract_prompt (story : string) : string :=
  text_lines
    [ "Analyze this story and extract the main characters with their details:";
      "";
      story;
      "";
      "For each main character, provide:";
      "- Name";
      "- Brief description (appearance, role)";
      "- 2-3 personality traits";
      "- Relationships to other characters";
      "";
      "Format as: CHARACTER_NAME: description | personality: trait1, trait2, trait3 | relationships: name-relationship";
      "";
      "Example: Alice: young girl with curly hair, main protagonist | personality: curious, brave, kind | relationships: Bob-best friend" ].

(** The inner loop [for part in parts] of the parser.  [None] stands for an
    exception ([IndexError] of [part.split(':')[1]]). *)
Fixpoint personality_of (parts : list string) (personality : list string)
  : option (list string) :=
  match parts with
  | [] => Some personality
  | part :: rest =>
      if Py.contains "personality:" (Py.lower part) then
        match nth_error (Py.split ":" part) 1 with
        | Some field =>
            let traits := Py.split "," (Py.strip field) in
            personality_of rest (map Py.strip traits)
        | None => None
        end
      else personality_of rest personality
  end.

(** The body of the [try] for one line: the character mapping after it, or
    [None] when an exception was raised. *)
Definition try_line (line : string) (chars : list (string * Character))
  : option (list (string * Character)) :=
  let parts := Py.split "|" line in
  match nth_error parts 0 with
  | None => None
  | Some first =>
      let name_desc := Py.split ":" first in
      if 2 <=? length name_desc then
        match nth_error name_desc 0, nth_error name_desc 1 with
        | Some n, Some d =>
            let name := Py.strip n in
            let description := Py.strip d in
            match personality_of parts [] with
            | Some personality =>
                Some (dict_set name (new_Character name description personality)
                               chars)
            | None => None
            end
        | _, _ => None
        end
      else Some chars
  end.

(** One turn of [for line in lines]: the test on the line, the [try] and
    its [except: continue]. *)
Definition process_line (chars : list (string * Character)) (line : string)
  : list (string * Character) :=
  if Py.contains ":" line && Py.contains "|" line then
    match try_line line chars with
    | Some chars' => chars'
    | None => chars
    end
  else chars.

(** The parsing of a whole response. *)
Definition parse_characters (result : string)
  (chars : list (string * Character)) : list (string * Character) :=
  fold_left process_line (Py.split (ascii_of_nat 10) result) chars.

Definition extract_characters (story : string) (memory : StoryMemory)
  : M StoryMemory :=
  result <- call_model (extract_prompt story) 500 ;;
  match Py.usable result with
  | Some result =>
      ret (set_characters (parse_characters result (characters memory)) memory)
  | None => ret memory
  end.

(** ** Feedback and revision *)

(** The dictionary [{"rating": rating, "feedback": feedback}] that
    [get_user_feedback] builds, the only feedback the program ever handles:
    both keys are always present, so [feedback.get("rating", 0)] is the
    rating and [feedback.get("feedback")] the text. *)
Record Feedback := {
  rating : nat;
  feedback_text : string
}.

Definition get_user_feedback : M Feedback :=
  print (Py.nl ++ "📝 Quick feedback (optional):") ;;
  print_end_space "Rate the story (1-5, or press Enter to skip):" ;;
  line <- read_line ;;
  let rating_input := Py.strip line in
  let rating :=
    if Py.isdigit rating_input
       && (1 <=? Py.int rating_input) && (Py.int rating_input <=? 5)
    then Py.int rating_input else 0 in
  feedback <-
    (if 0 <? rating then
       if rating <=? 2 then
         print_end_space "What could make it better?" ;;
         l <- read_line ;; ret (Py.strip l)
       else if 4 <=? rating then
         print_end_space "What did you like most?" ;;
         l <- read_line ;; ret (Py.strip l)
       else ret ""
     else ret "") ;;
  ret {| rating := rating; feedback_text := feedback |}.

Definition revision_prompt (story : string) (feedback : Feedback)
  (user_request : string) : string :=
  text_lines
    [ "The user provided this feedback about the story: " ++ Py.dq
        ++ feedback_text feedback ++ Py.dq;
      "They rated it " ++ Py.str_of_nat (rating feedback) ++ "/5.";
      "";
      "Original request: " ++ user_request;
      "Current story:";
      story;
      "";
      "Please revise the story to address their feedback while maintaining the core story elements. Make specific improvements based on their comments.";
      "";
      "IMPORTANT: Provide ONLY the revised story text, no explanations." ].

Definition revise_story_with_feedback (story : string) (feedback : Feedback)
  (user_request : string) : M string :=
  if negb (Py.truthy (feedback_text feedback)) || (4 <=? rating feedback) then
    ret story
  else
    revised <- call_model (revision_prompt story feedback user_request) 3000 ;;
    ret (match Py.usable revised with
         | Some revised => revised
         | None => story
         end).

(** ** The generation pipeline *)

Definition character_details (char : Character) : string :=
  let char_details := name char ++ ": " ++ description char in
  match personality char with
  | [] => char_details
  | _ => char_details ++ " (personality: "
           ++ Py.join ", " (personality char) ++ ")"
  end.

Definition storyteller_prompt (user_input : string) (memory : StoryMemory)
  (is_episode : bool) : string :=
  if is_episode && Py.truthy (current_story memory) then
    let character_info :=
      match characters memory with
      | [] => ""
      | _ =>
          Py.nl ++ Py.nl ++ "ESTABLISHED CHARACTERS:" ++ Py.nl
            ++ Py.join Py.nl
                 (map character_details (dict_values (characters memory)))
      end in
    text_lines
      [ get_genre_prompt (genre memory) user_input true;
        "";
        "PREVIOUS STORY CONTEXT:";
        Py.last_chars 500 (current_story memory) ++ "..." ++ character_info;
        "";
        "Continue the adventure with these established characters and world." ]
  else get_genre_prompt (genre memory) user_input false.

Definition judge_prompt (memory : StoryMemory) (initial_story : string)
  : string :=
  text_lines
    [ "Evaluate this " ++ genre memory ++ " story for children ages 5-10:";
      "";
      initial_story;
      "";
      "Focus on:";
      "1. Genre adherence (does it feel like a good " ++ genre memory
        ++ " story?)";
      "2. Age-appropriateness and engagement";
      "3. Character development and consistency";
      "4. Story structure and pacing";
      "5. Educational value and positive messages";
      "";
      "Provide specific suggestions for improvement. Rate overall quality 1-5." ].

Definition refine_prompt (memory : StoryMemory)
  (evaluation initial_story : string) : string :=
  text_lines
    [ "Based on this evaluation for a " ++ genre memory ++ " story:";
      "";
      evaluation;
      "";
      "Improve this story while maintaining its " ++ genre memory
        ++ " elements:";
      "";
      initial_story;
      "";
      "IMPORTANT: Provide ONLY the improved story text." ].

(** [generate_story]: the story (or [None]) and the memory as the call
    leaves it. *)
Definition generate_story (user_input : string) (memory : StoryMemory)
  (is_episode : bool) : M (option string * StoryMemory) :=
  print "📝 Creating your story..." ;;
  memory <-
    (if negb is_episode then
       let memory := set_genre (detect_genre user_input) memory in
       print ("🎭 Detected genre: "
                ++ Py.title (Py.replace "_" " " (genre memory))) ;;
       ret memory
     else ret memory) ;;
  initial <- call_model (storyteller_prompt user_input memory is_episode) 3000 ;;
  match Py.usable initial with
  | None => ret (None, memory)
  | Some initial_story =>
      print "🔍 Evaluating story quality..." ;;
      evaluation <- call_model (judge_prompt memory initial_story) 1000 ;;
      match Py.usable evaluation with
      | None => ret (Some initial_story, memory)
      | Some evaluation =>
          print "✨ Refining the story..." ;;
          final_story <-
            call_model (refine_prompt memory evaluation initial_story) 3000 ;;
          let story :=
            match Py.usable final_story with
            | Some final_story => final_story
            | None => initial_story
            end in
          if negb is_episode then
            memory <- extract_characters story memory ;;
            ret (Some story, memory)
          else ret (Some story, memory)
      end
  end.

(** ** The session controller *)

Definition display_welcome : M unit :=
  print "🌟 Welcome to the Children's Story Generator! 🌟" ;;
  print "I can create fun, engaging stories for kids ages 5-10." ;;
  print (Py.nl ++ "Example requests:") ;;
  print "  • A story about a girl named Alice and her best friend Bob, who happens to be a cat" ;;
  print "  • A brave little mouse who wants to become a knight" ;;
  print "  • Two siblings who discover a secret door in their grandmother's attic" ;;
  print "  • A friendly dragon who is afraid of flying" ;;
  print_blank.

Definition assessment_prompt (story : string) (memory : StoryMemory)
  : string :=
  text_lines
    [ "Assess this " ++ genre memory ++ " story for episode potential:";
      "";
      story;
      "";
      "Consider:";
      "- Character development and likability for " ++ genre memory
        ++ " stories";
      "- World-building potential in the " ++ genre memory ++ " genre";
      "- Story engagement level";
      "- Whether characters/setting could support more " ++ genre memory
        ++ " adventures";
      "";
      "Respond with only " ++ Py.dq ++ "YES" ++ Py.dq
        ++ " if this has good episode potential, or " ++ Py.dq ++ "NO"
        ++ Py.dq ++ " if it doesn't." ].

(** [assess_story_quality]: the truth of
    [result and "YES" in result.upper()]. *)
Definition assess_story_quality (story : string) (memory : StoryMemory)
  : M bool :=
  result <- call_model (assessment_prompt story memory) 100 ;;
  ret (match Py.usable result with
       | Some result => Py.contains "YES" (Py.upper result)
       | None => false
       end).

(** [x in [..]] for strings. *)
Definition one_of (x : string) (l : list string) : bool :=
  existsb (String.eqb x) l.

(** One turn of the [while True] of [get_user_choice]; [again] is the rest
    of the loop. *)
Definition choice_turn (again : M string) : M string :=
  line <- input "Enter your choice (1, 2, or 3): " ;;
  let choice := Py.strip line in
  if one_of choice ["1"; "2"; "3"] then ret choice
  else print "Please enter 1, 2, or 3." ;; again.

(** The loop, unrolled [fuel] times and then once more.  Every turn reads a
    line, so with as much fuel as there are lines the last turn meets the
    end of the input and never reaches its [again]
    (see [choice_loop_fuel]). *)
Fixpoint choice_loop (fuel : nat) : M string :=
  match fuel with
  | 0 => choice_turn (fun w => (Raise EOFError, w))
  | S f => choice_turn (choice_loop f)
  end.

Definition get_user_choice (memory : StoryMemory) : M string :=
  let shown := Py.replace "_" " " (genre memory) in
  print (Py.nl ++ "🌟 What would you like to do next? (Current genre: "
           ++ Py.title shown ++ ")") ;;
  print ("  1. Continue with a " ++ shown
           ++ " episode featuring the same characters") ;;
  print "  2. Create a completely new story" ;;
  print "  3. Quit" ;;
  fun w => choice_loop (length (stdin w)) w.

(** How one turn of the loop of [main] ends: the loop goes on ([Again], by
    [continue] or by reaching the end of the body) or is left ([Break]). *)
Inductive Flow :=
| Again (memory : StoryMemory) (story_count : nat)
| Break (memory : StoryMemory) (story_count : nat).

Definition separator : string := Py.repeat_str "─" 50.

(** The first part of the loop body, lines 406 to 428: the request, whether
    it is an episode and the memory, or [None] for the [break] of the menu's
    third choice. *)
Definition next_request (memory : StoryMemory) (story_count : nat)
  : M (option (string * bool * StoryMemory)) :=
  if story_count =? 0 then
    line <- input "What kind of story would you like to hear? (or 'quit' to exit): " ;;
    ret (Some (Py.strip line, false, memory))
  else
    good <- assess_story_quality (current_story memory) memory ;;
    if good then
      choice <- get_user_choice memory ;;
      if String.eqb choice "1" then
        line <- input (Py.nl ++ "What should happen in the next "
                         ++ Py.replace "_" " " (genre memory) ++ " episode? ") ;;
        ret (Some (Py.strip line, true, memory))
      else if String.eqb choice "2" then
        line <- input (Py.nl ++ "What kind of new story would you like to hear? ") ;;
        ret (Some (Py.strip line, false, set_characters [] memory))
      else ret None
    else
      line <- input (Py.nl ++ "What kind of story would you like to hear next? (or 'quit' to exit): ") ;;
      ret (Some (Py.strip line, false, set_characters [] memory)).

(** Lines 466 to 469: one more liked story of the current genre. *)
Definition note_preference (memory : StoryMemory) : StoryMemory :=
  let genre_pref :=
    match dict_get "preferred_genres" (user_preferences memory) with
    | Some d => d
    | None => []
    end in
  let count :=
    match dict_get (genre memory) genre_pref with
    | Some n => n
    | None => 0
    end in
  let genre_pref := dict_set (genre memory) (count + 1) genre_pref in
  set_user_preferences
    (dict_set "preferred_genres" genre_pref (user_preferences memory)) memory.

(** Lines 440 to 469: the story is shown, rated, possibly revised, and
    stored. *)
Definition present_story (story user_input : string) (is_episode : bool)
  (memory : StoryMemory) (story_count : nat) : M (StoryMemory * nat) :=
  let episode_text := if is_episode then "episode" else "story" in
  print ("🎉 Here's your " ++ episode_text ++ ":" ++ Py.nl) ;;
  print separator ;;
  print story ;;
  print separator ;;
  feedback <- get_user_feedback ;;
  story <-
    (if (rating feedback <=? 2) && Py.truthy (feedback_text feedback) then
       print (Py.nl ++ "🔄 Let me improve that for you...") ;;
       revised_story <- revise_story_with_feedback story feedback user_input ;;
       if negb (String.eqb revised_story story) then
         print ("✨ Here's the improved version:" ++ Py.nl) ;;
         print separator ;;
         print revised_story ;;
         print separator ;;
         ret revised_story
       else ret story
     else ret story) ;;
  let memory := add_story memory story (genre memory) user_input
                          (rating feedback) in
  let story_count := story_count + 1 in
  let memory :=
    if 4 <=? rating feedback then note_preference memory else memory in
  ret (memory, story_count).

(** The apology of lines 472 and 473. *)
Definition apology (is_episode : bool) : string :=
  let episode_text := if is_episode then "episode" else "story" in
  "Sorry, I had trouble creating your " ++ episode_text
    ++ ". Please try again!".

(** The second part of the loop body, lines 430 to 475: the request is
    served. *)
Definition serve_request (user_input : string) (is_episode : bool)
  (memory : StoryMemory) (story_count : nat) : M Flow :=
  if one_of (Py.lower user_input) ["quit"; "exit"; "q"] then
    ret (Break memory story_count)
  else if negb (Py.truthy user_input) then
    print "Please tell me what kind of story you'd like!" ;;
    ret (Again memory story_count)
  else
    print_blank ;;
    ' (story, memory) <- generate_story user_input memory is_episode ;;
    match Py.usable story with
    | Some story =>
        ' (memory, story_count) <-
          present_story story user_input is_episode memory story_count ;;
        print_blank ;;
        ret (Again memory story_count)
    | None =>
        print (apology is_episode) ;;
        print_blank ;;
        ret (Again memory story_count)
    end.

(** One turn of the [while True] of [main]. *)
Definition main_turn (memory : StoryMemory) (story_count : nat) : M Flow :=
  request <- next_request memory story_count ;;
  match request with
  | None => ret (Break memory story_count)
  | Some (user_input, is_episode, memory) =>
      serve_request user_input is_episode memory story_count
  end.

(** The loop, unrolled at most [fuel] times; [None] when the fuel is used
    up.  Every turn that goes on has read a line, so a fuel above the number
    of lines is never used up (see [main_loop_fuel]). *)
Fixpoint main_loop (fuel : nat) (memory : StoryMemory) (story_count : nat)
  : M (option (StoryMemory * nat)) :=
  match fuel with
  | 0 => ret None
  | S f =>
      flow <- main_turn memory story_count ;;
      match flow with
      | Again memory story_count => main_loop f memory story_count
      | Break memory story_count => ret (Some (memory, story_count))
      end
  end.

(** The goodbye of lines 478 to 487. *)
Definition goodbye (memory : StoryMemory) (story_count : nat) : M unit :=
  (if 0 <? story_count then
     let stories_text := if story_count =? 1 then "story" else "stories" in
     print (Py.nl ++ "Thanks for listening to " ++ Py.str_of_nat story_count
              ++ " " ++ stories_text ++ "! 📚") ;;
     match dict_get "preferred_genres" (user_preferences memory) with
     | Some (p :: prefs) =>
         let preferred := p :: prefs in
         match py_max (score_of preferred) (dict_keys preferred) with
         | Some fav_genre =>
             print ("I noticed you really enjoyed "
                      ++ Py.replace "_" " " fav_genre ++ " stories! 🌟")
         | None => ret tt
         end
     | _ => ret tt
     end
   else ret tt) ;;
  print "Sweet dreams! Goodbye! 🌙".

(** [main]: the memory and the counter at the end of the session, or [None]
    when the credential is missing. *)
Definition main : M (option (StoryMemory * nat)) :=
  display_welcome ;;
  key <- getenv_api_key ;;
  if negb (Py.truthy_opt key) then
    print "❌ OpenAI API key not found!" ;;
    print (Py.nl ++ "To use this application, you need to set your OpenAI API key:") ;;
    print (Py.nl ++ "🔧 Setup Instructions:") ;;
    print "1. Get your API key from: https://platform.openai.com/api-keys" ;;
    print "2. Set it as an environment variable:" ;;
    print "   • On Mac/Linux: export OPENAI_API_KEY='your-key-here'" ;;
    print "   • On Windows: set OPENAI_API_KEY=your-key-here" ;;
    print "3. Restart the application" ;;
    print (Py.nl ++ "💡 Tip: You can also add it to your .bashrc/.zshrc for persistence") ;;
    ret None
  else
    final <- (fun w => main_loop (S (length (stdin w))) new_StoryMemory 0 w) ;;
    match final with
    | Some (memory, story_count) =>
        goodbye memory story_count ;;
        ret (Some (memory, story_count))
    | None => ret None
    end.

(** * Notions used in the statements *)

(** The genre tags in the order of the table. *)
Definition genres : list string := dict_keys genre_keywords.

(** The keywords of a genre, none for a tag that is not in the table. *)
Definition keywords_of (genre_ : string) : list string :=
  match dict_get genre_ genre_keywords with
  | Some keywords => keywords
  | None => []
  end.

(** A text of ASCII characters, on which the string operations of [Py] are
    those of CPython, and a line of the console that is such a text and is
    not longer than the 4300 digits that CPython accepts to convert to an
    [int]. *)
Fixpoint ascii_only (s : string) : bool :=
  match s with
  | EmptyString => true
  | String c r => (Py.ord c <? 128) && ascii_only r
  end.

Definition plain_line (line : string) : bool :=
  ascii_only line && (String.length line <=? 4300).

(** The counts of a genre in a lowered request, defined from the places at
    which a keyword starts in the text.  [keyword_occurrences] is the count
    in the words of the specification: the occurrences of the keywords of
    the genre as substrings, a keyword that occurs three times counting
    three times.  [keywords_present] is the number of keywords of the genre
    that occur at all. *)
Fixpoint occurrences (keyword text : string) : nat :=
  (if String.prefix keyword text then 1 else 0)
  + match text with
    | EmptyString => 0
    | String _ rest => occurrences keyword rest
    end.

Definition keyword_occurrences (genre_ text : string) : nat :=
  list_sum (map (fun keyword => occurrences keyword text) (keywords_of genre_)).

Definition keywords_present (genre_ text : string) : nat :=
  length (filter (fun keyword => 0 <? occurrences keyword text)
                 (keywords_of genre_)).

(** The count that decides the genre: how many keywords of the genre occur
    in the lowered request.  A keyword counts once, however often it
    occurs. *)
Definition count_in (genre_ request_lower : string) : nat :=
  keyword_score (keywords_of genre_) request_lower.

Definition occurrence_count (genre_ user_request : string) : nat :=
  count_in genre_ (Py.lower user_request).

(** What the gateway returns on its [k]-th next call from a world, counted
    from 0: nothing without a credential, else the text the backend gives
    to that request, nothing when the backend fails. *)
Definition reply (w : World) (k : nat) : option string :=
  if Py.truthy_opt (api_key w) then
    match backend w (length (calls w) + k) with
    | Content text => Some text
    | Failure _ => None
    end
  else None.

(** The text of that reply, when there is one, is ASCII. *)
Definition plain_reply (w : World) (k : nat) : bool :=
  match reply w k with
  | Some text => ascii_only text
  | None => true
  end.

(** What the gateway prints on its next call. *)
Definition diagnostics (w : World) : list string :=
  if Py.truthy_opt (api_key w) then
    match backend w (length (calls w)) with
    | Content _ => []
    | Failure e =>
        [ "❌ Error calling OpenAI API: " ++ e ++ Py.nl;
          "Please check your API key and internet connection." ++ Py.nl ]
    end
  else
    [ "❌ Error: OPENAI_API_KEY environment variable not set!" ++ Py.nl;
      "Please set your OpenAI API key as an environment variable:" ++ Py.nl;
      "  export OPENAI_API_KEY='your-api-key-here'" ++ Py.nl;
      "Or on Windows:" ++ Py.nl;
      "  set OPENAI_API_KEY=your-api-key-here" ++ Py.nl ].

(** The request that the next call of the gateway sends, if it sends one. *)
Definition sent (prompt : string) (max_tokens : nat) (w : World)
  : list (string * nat) :=
  if Py.truthy_opt (api_key w) then [(prompt, max_tokens)] else [].

(** The world after one call of the gateway. *)
Definition after_call (prompt : string) (max_tokens : nat) (w : World)
  : World :=
  {| api_key := api_key w; backend := backend w;
     calls := (calls w ++ sent prompt max_tokens w)%list;
     stdin := stdin w;
     stdout := (stdout w ++ diagnostics w)%list |}.

(** The world after some pieces have been written to the console. *)
Definition after_write (pieces : list string) (w : World) : World :=
  {| api_key := api_key w; backend := backend w; calls := calls w;
     stdin := stdin w; stdout := (stdout w ++ pieces)%list |}.

(** A request of the character extractor for a story. *)
Definition extraction_of (story : string) : string * nat :=
  (extract_prompt story, 500).

(** The memory with which [generate_story] builds its prompts: the genre
    is detected anew unless the story is an episode. *)
Definition working_memory (user_input : string) (memory : StoryMemory)
  (is_episode : bool) : StoryMemory :=
  if is_episode then memory else set_genre (detect_genre user_input) memory.

(** The worlds that [generate_story] goes through: after its first lines,
    after the draft call, after the evaluation call and after the
    refinement call. *)
Definition announced (user_input : string) (memory : StoryMemory)
  (is_episode : bool) (w : World) : World :=
  after_write
    (("📝 Creating your story..." ++ Py.nl)
       :: (if is_episode then []
           else [ "🎭 Detected genre: "
                    ++ Py.title (Py.replace "_" " "
                         (genre (working_memory user_input memory is_episode)))
                    ++ Py.nl ]))
    w.

Definition drafted (user_input : string) (memory : StoryMemory)
  (is_episode : bool) (w : World) : World :=
  after_call
    (storyteller_prompt user_input
       (working_memory user_input memory is_episode) is_episode)
    3000 (announced user_input memory is_episode w).

Definition judged (user_input : string) (memory : StoryMemory)
  (is_episode : bool) (initial_story : string) (w : World) : World :=
  after_call
    (judge_prompt (working_memory user_input memory is_episode) initial_story)
    1000
    (after_write ["🔍 Evaluating story quality..." ++ Py.nl]
       (drafted user_input memory is_episode w)).

Definition refined (user_input : string) (memory : StoryMemory)
  (is_episode : bool) (initial_story evaluation : string) (w : World)
  : World :=
  after_call
    (refine_prompt (working_memory user_input memory is_episode)
       evaluation initial_story)
    3000
    (after_write ["✨ Refining the story..." ++ Py.nl]
       (judged user_input memory is_episode initial_story w)).

(** The story that the refinement step leaves: the refined text, or the
    draft when the refinement call gave nothing. *)
Definition final_text (initial_story : string) (refinement : option string)
  : string :=
  match Py.usable refinement with
  | Some final_story => final_story
  | None => initial_story
  end.

(** The memory after the extractor has received [response]. *)
Definition with_extracted (response : option string) (memory : StoryMemory)
  : StoryMemory :=
  match Py.usable response with
  | Some result =>
      set_characters (parse_characters result (characters memory)) memory
  | None => memory
  end.

(** A backend that answers with the results of a list, in order, and fails
    once the list is used up; a world with a credential, that backend and
    the given console input, in which nothing has happened yet. *)
Definition script (results : list backend_result) : nat -> backend_result :=
  fun n => nth n results (Failure "connection refused").

Definition fresh_world (results : list backend_result) (lines : list string)
  : World :=
  {| api_key := Some "sk-test"; backend := script results; calls := [];
     stdin := lines; stdout := [] |}.

(** The story that a run of [generate_story] returns. *)
Definition story_of (r : result (option string * StoryMemory) * World)
  : option string :=
  match r with
  | (Ok (story, _), _) => story
  | (Raise _, _) => None
  end.

(** The world after [input(prompt)] has read a line. *)
Definition after_input (prompt : string) (w : World) : World :=
  {| api_key := api_key w; backend := backend w; calls := calls w;
     stdin := tl (stdin w); stdout := (stdout w ++ [prompt])%list |}.

(** The memory and the counter that a turn of the loop leaves. *)
Definition flow_memory (flow : Flow) : StoryMemory :=
  match flow with
  | Again memory _ => memory
  | Break memory _ => memory
  end.

Definition flow_count (flow : Flow) : nat :=
  match flow with
  | Again _ story_count => story_count
  | Break _ story_count => story_count
  end.

(** The states of the session controller: the loop is at its head with no
    story yet, at its head with at least one story, or has been left. *)
Inductive ControllerState :=
| AwaitingFirstRequest
| AwaitingNextAction
| Done.

Definition state_of (flow : Flow) : ControllerState :=
  match flow with
  | Again _ 0 => AwaitingFirstRequest
  | Again _ (S _) => AwaitingNextAction
  | Break _ _ => Done
  end.

(** The states that a session can reach: the initial one, and the one that
    a turn of the loop leaves when it is run at the head of the loop, in
    any world. *)
Inductive reachable : Flow -> Prop :=
| reachable_start : reachable (Again new_StoryMemory 0)
| reachable_turn (memory : StoryMemory) (story_count : nat) (w w' : World)
    (flow : Flow) :
    reachable (Again memory story_count) ->
    main_turn memory story_count w = (Ok flow, w') ->
    reachable flow.

(** The writes to the memory that the program performs, and their
    sequences. *)
Inductive evolves : StoryMemory -> StoryMemory -> Prop :=
| evolves_refl (m : StoryMemory) : evolves m m
| evolves_clear (m : StoryMemory) : evolves m (set_characters [] m)
| evolves_genre (m : StoryMemory) (g : string) : evolves m (set_genre g m)
| evolves_extract (m : StoryMemory) (response : option string) :
    evolves m (with_extracted response m)
| evolves_add (m : StoryMemory) (story user_request : string)
    (quality_score : nat) :
    evolves m (add_story m story (genre m) user_request quality_score)
| evolves_preference (m : StoryMemory) : evolves m (note_preference m)
| evolves_trans (m1 m2 m3 : StoryMemory) :
    evolves m1 m2 -> evolves m2 m3 -> evolves m1 m3.

(** No character of a mapping, or of the memory, has a relationship. *)
Definition without_relationships (chars : list (string * Character)) : Prop :=
  forall n c, In (n, c) chars -> relationships c = [].

Definition no_relationships (memory : StoryMemory) : Prop :=
  without_relationships (characters memory).

(** The current story is the story of the last entry of the history, when
    there is one. *)
Definition current_is_last (memory : StoryMemory) : Prop :=
  forall earlier t,
    story_history memory = (earlier ++ [t])%list ->
    current_story memory = turn_story t.

(** The first segment of a line, before its first pipe. *)
Definition first_segment (line : string) : string :=
  hd "" (Py.split "|" line).

(** A line that the parser cannot use: it has no colon, or no pipe, or no
    colon before its first pipe, or its parsing raises. *)
Definition malformed (line : string) : Prop :=
  Py.contains ":" line = false
  \/ Py.contains "|" line = false
  \/ Py.contains ":" (first_segment line) = false
  \/ (forall chars, try_line line chars = None).

(** A response made of four lines that the parser cannot use. *)
Definition malformed_response : string :=
  "Here are the characters" ++ Py.nl ++ "Bob: a cat" ++ Py.nl
    ++ "Bob | a cat" ++ Py.nl ++ "Bob | personality: kind".

(** A first turn that goes well: the request, then the rating 3; the
    backend drafts, evaluates, refines and lists one character with a
    relationship.  [sample_memory] is the memory that the turn leaves. *)
Definition sample_world : World :=
  fresh_world
    [ Content "Tom the mouse set out.";
      Content "Nice. 4/5";
      Content "Tom the brave mouse set out.";
      Content "Tom: a small mouse, the hero | personality: brave, kind | relationships: Alice-best friend" ]
    [ "A brave little mouse"; "3" ].

Definition sample_memory : StoryMemory :=
  {| current_story := "Tom the brave mouse set out.";
     genre := "adventure";
     characters :=
       [ ("Tom",
          {| name := "Tom"; description := "a small mouse, the hero";
             personality := ["brave"; "kind"]; relationships := [] |}) ];
     world_details := [];
     story_history :=
       [ {| turn_story := "Tom the brave mouse set out.";
            turn_genre := "adventure";
            turn_request := "A brave little mouse";
            turn_quality_score := 3;
            turn_characters := ["Tom"] |} ];
     user_preferences := [] |}.

(** The prompt of the first request and the reminder after an empty one. *)
Definition first_prompt : string :=
  "What kind of story would you like to hear? (or 'quit' to exit): ".

Definition reminder : string :=
  "Please tell me what kind of story you'd like!".

(** A first turn whose draft call fails, and a second turn after
    [sample_memory] in which the assessment and the draft call fail. *)
Definition failing_world : World :=
  fresh_world [Failure "timeout"] ["a princess in a castle"].

Definition failing_second_world : World :=
  fresh_world [Failure "timeout"; Failure "timeout"] ["a princess in a castle"].

(** A computation that, when it returns, has left the console input no
    longer than it was, and one that has read at least one line. *)
Definition keeps_input {A : Type} (c : M A) : Prop :=
  forall w a w', c w = (Ok a, w') -> length (stdin w') <= length (stdin w).

Definition consumes_input {A : Type} (c : M A) : Prop :=
  forall w a w', c w = (Ok a, w') -> length (stdin w') < length (stdin w).


(** * Notions used in the further properties *)

(** The lines that the gateway prints when the credential is missing. *)
Definition missing_key_lines : list string :=
  [ "❌ Error: OPENAI_API_KEY environment variable not set!" ++ Py.nl;
    "Please set your OpenAI API key as an environment variable:" ++ Py.nl;
    "  export OPENAI_API_KEY='your-api-key-here'" ++ Py.nl;
    "Or on Windows:" ++ Py.nl;
    "  set OPENAI_API_KEY=your-api-key-here" ++ Py.nl ].

(** The template that [get_genre_prompt] uses for a genre. *)
Definition template_of (genre_ : string) : Template :=
  match dict_get genre_ GENRE_TEMPLATES with
  | Some t => t
  | None => adventure_template
  end.

(** The rating that [get_user_feedback] reads off a line: the number it
    writes when that is between 1 and 5, else 0. *)
Definition rating_of (line : string) : nat :=
  let rating_input := Py.strip line in
  if Py.isdigit rating_input
     && (1 <=? Py.int rating_input) && (Py.int rating_input <=? 5)
  then Py.int rating_input else 0.

(** Two worlds with the same credential, backend and requests sent. *)
Definition same_requests (w w' : World) : Prop :=
  api_key w' = api_key w /\ backend w' = backend w /\ calls w' = calls w.

(** The number recorded for a genre in the preferences, 0 when there is
    none, and the number of turns of a history of that genre with a rating
    of 4 or 5. *)
Definition preference_count (memory : StoryMemory) (genre_ : string) : nat :=
  match dict_get "preferred_genres" (user_preferences memory) with
  | Some genre_pref =>
      match dict_get genre_ genre_pref with
      | Some n => n
      | None => 0
      end
  | None => 0
  end.

Definition liked_turns (history : list Turn) (genre_ : string) : nat :=
  length (filter (fun t => String.eqb (turn_genre t) genre_
                           && (4 <=? turn_quality_score t))
                 history).

(** A turn of the history as the program can have stored it. *)
Definition valid_turn (t : Turn) : Prop :=
  turn_story t <> "" /\ turn_request t <> ""
  /\ turn_quality_score t <= 5 /\ In (turn_genre t) genres.

(** What holds of the memory and the counter at the head of the loop and
    after it. *)
Definition well_formed (memory : StoryMemory) (story_count : nat) : Prop :=
  length (story_history memory) = story_count
  /\ (genre memory = "" \/ In (genre memory) genres)
  /\ (story_count <> 0 ->
      In (genre memory) genres /\ current_story memory <> "")
  /\ (story_count = 0 ->
      current_story memory = "" /\ characters memory = []
      /\ user_preferences memory = [])
  /\ Forall valid_turn (story_history memory)
  /\ (forall g, preference_count memory g
                = liked_turns (story_history memory) g).

(** The memory after [present_story] has stored a story with a rating. *)
Definition stored (memory : StoryMemory) (shown user_input : string)
  (quality_score : nat) : StoryMemory :=
  let memory' :=
    add_story memory shown (genre memory) user_input quality_score in
  if 4 <=? quality_score then note_preference memory' else memory'.

(** What a line of a response says: the name and the character that it
    records, or nothing. *)
Definition line_entry (line : string) : option (string * Character) :=
  if Py.contains ":" line && Py.contains "|" line then
    let parts := Py.split "|" line in
    match nth_error parts 0 with
    | None => None
    | Some first =>
        let name_desc := Py.split ":" first in
        if 2 <=? length name_desc then
          match nth_error name_desc 0, nth_error name_desc 1,
                personality_of parts [] with
          | Some n, Some d, Some p =>
              Some (Py.strip n, new_Character (Py.strip n) (Py.strip d) p)
          | _, _, _ => None
          end
        else None
    end
  else None.

(** The effect of an entry, and of a list of entries, on the characters. *)
Definition record_entry (chars : list (string * Character))
  (e : option (string * Character)) : list (string * Character) :=
  match e with
  | Some (k, v) => dict_set k v chars
  | None => chars
  end.

(** The characters are stored as a dictionary stores them: under distinct
    names, each under its own name, which has no blank at either end. *)
Definition keyed_by_name (chars : list (string * Character)) : Prop :=
  NoDup (dict_keys chars)
  /\ forall k c, In (k, c) chars -> name c = k /\ Py.strip k = k.

(** A computation that never raises. *)
Definition always_returns {A : Type} (c : M A) : Prop :=
  forall w, exists a w', c w = (Ok a, w').

(** A line that the menu of [get_user_choice] accepts. *)
Definition valid_choice (line : string) : bool :=
  one_of (Py.strip line) ["1"; "2"; "3"].

(** The assessment of the current story is accepted: the gateway returns a
    text that holds YES, in any case of letters. *)
Definition accepted (w : World) : Prop :=
  exists r, Py.usable (reply w 0) = Some r
            /\ Py.contains "YES" (Py.upper r) = true.

(** A second turn in which the assessment is accepted and an episode is
    chosen. *)
Definition episode_world : World :=
  fresh_world [Content "Yes, it does."] ["1"; " Tom meets a cat "].


(** * Properties *)

(** ** Strings and dictionaries *)

Lemma prefix_split (p s : string) :
  String.prefix p s = true <-> exists b, s = p ++ b.
Proof.
  revert s; induction p as [|c p IH]; intros s.
  - split; [intros _; now exists s | intros _; now destruct s].
  - destruct s as [|d s]; simpl.
    + split; [discriminate | intros [b Hb]; discriminate].
    + destruct (Ascii.ascii_dec c d) as [->|Hcd].
      * rewrite IH. split; intros [b Hb]; exists b.
        -- now rewrite Hb.
        -- now injection Hb.
      * split; [discriminate | intros [b Hb]; injection Hb; congruence].
Qed.

Lemma contains_unfold (needle hay : string) :
  Py.contains needle hay =
  if String.prefix needle hay then true
  else match hay with
       | EmptyString => false
       | String _ r => Py.contains needle r
       end.
Proof. destruct hay; reflexivity. Qed.

(** [needle in hay] holds exactly when [hay] is some text, then [needle],
    then some text. *)
Lemma contains_split (needle hay : string) :
  Py.contains needle hay = true <-> exists a b, hay = a ++ needle ++ b.
Proof.
  induction hay as [|c hay IH]; rewrite contains_unfold.
  - destruct (String.prefix needle "") eqn:Hp.
    + split; [intros _ | reflexivity].
      apply prefix_split in Hp as [b Hb]. now exists "", b.
    + split; [discriminate|].
      intros ([|d a] & b & H); [|discriminate].
      simpl in H. assert (String.prefix needle "" = true) as Hq
        by (apply prefix_split; now exists b).
      congruence.
  - destruct (String.prefix needle (String c hay)) eqn:Hp.
    + split; [intros _ | reflexivity].
      apply prefix_split in Hp as [b Hb]. now exists "", b.
    + rewrite IH. split.
      * intros (a & b & ->). now exists (String c a), b.
      * intros ([|d a] & b & H).
        -- simpl in H. assert (String.prefix needle (String c hay) = true)
             as Hq by (apply prefix_split; now exists b).
           congruence.
        -- injection H as _ ->. now exists a, b.
Qed.

Lemma split_not_nil (sep : ascii) (s : string) : Py.split sep s <> [].
Proof.
  induction s as [|c s IH]; simpl; [discriminate|].
  destruct (Ascii.eqb c sep); [discriminate|].
  destruct (Py.split sep s); [contradiction | discriminate].
Qed.

(** A string without the separator is the only piece of its split. *)
Lemma split_without (sep : ascii) (s : string) :
  Py.contains (String sep "") s = false -> Py.split sep s = [s].
Proof.
  induction s as [|c s IH]; intros H; [reflexivity|].
  rewrite contains_unfold in H. simpl in H.
  destruct (Ascii.ascii_dec sep c) as [->|Hne].
  - destruct s; discriminate.
  - simpl. destruct (Ascii.eqb c sep) eqn:E.
    + apply Ascii.eqb_eq in E. congruence.
    + now rewrite IH.
Qed.

(** [max] returns the first of the keys with the largest value. *)
Lemma max_from_first (f : string -> nat) (l : list string) (best : string) :
  let g := max_from f best l in
  (forall x, In x l -> f x <= f g) /\ f best <= f g /\
  ((g = best /\ forall x, In x l -> f x <= f best) \/
   (exists i, nth_error l i = Some g /\
      f best < f g /\
      forall j x, j < i -> nth_error l j = Some x -> f x < f g)).
Proof.
  revert best; induction l as [|a l IH]; intros best; simpl.
  - repeat split; [contradiction | lia | left; split; [reflexivity | contradiction]].
  - destruct (f best <? f a) eqn:E.
    + apply Nat.ltb_lt in E.
      destruct (IH a) as (Hall & Hle & Hcase). repeat split.
      * intros x [<-|Hx]; [exact Hle | now apply Hall].
      * lia.
      * right. destruct Hcase as [[Hg Hmax] | (i & Hi & Hlt & Hbefore)].
        -- exists 0. rewrite Hg. simpl. repeat split; [lia | intros; lia].
        -- exists (S i). simpl. repeat split; [exact Hi | lia |].
           intros [|j] x Hj Hx; simpl in Hx.
           ++ injection Hx as <-. lia.
           ++ apply (Hbefore j); [lia | exact Hx].
    + apply Nat.ltb_ge in E.
      destruct (IH best) as (Hall & Hle & Hcase). repeat split.
      * intros x [<-|Hx]; [lia | now apply Hall].
      * exact Hle.
      * destruct Hcase as [[Hg Hmax] | (i & Hi & Hlt & Hbefore)].
        -- left. split; [exact Hg|]. intros x [<-|Hx]; [lia | now apply Hmax].
        -- right. exists (S i). simpl. repeat split; [exact Hi | exact Hlt |].
           intros [|j] x Hj Hx; simpl in Hx.
           ++ injection Hx as <-. lia.
           ++ apply (Hbefore j); [lia | exact Hx].
Qed.

Lemma py_max_first (f : string -> nat) (l : list string) (g : string) :
  py_max f l = Some g ->
  exists i, nth_error l i = Some g /\
    (forall x, In x l -> f x <= f g) /\
    (forall j x, j < i -> nth_error l j = Some x -> f x < f g).
Proof.
  destruct l as [|a l]; simpl; [discriminate|].
  intros H; injection H as <-.
  destruct (max_from_first f l a) as (Hall & Hle & Hcase).
  destruct Hcase as [[Hg Hmax] | (i & Hi & Hlt & Hbefore)].
  - exists 0. rewrite Hg. simpl. repeat split.
    + intros x [<-|Hx]; [lia | now apply Hmax].
    + intros; lia.
  - exists (S i). simpl. repeat split.
    + exact Hi.
    + intros x [<-|Hx]; [exact Hle | now apply Hall].
    + intros [|j] x Hj Hx; simpl in Hx.
      * injection Hx as <-. exact Hlt.
      * apply (Hbefore j); [lia | exact Hx].
Qed.

Lemma dict_get_map {A B : Type} (f : A -> B) (k : string)
  (d : list (string * A)) :
  dict_get k (map (fun '(x, v) => (x, f v)) d) = option_map f (dict_get k d).
Proof.
  induction d as [|[x v] d IH]; simpl; [reflexivity|].
  destruct (String.eqb x k); [reflexivity | exact IH].
Qed.

Lemma dict_get_In {A : Type} (k : string) (v : A) (d : list (string * A)) :
  NoDup (dict_keys d) -> In (k, v) d -> dict_get k d = Some v.
Proof.
  induction d as [|[x u] d IH]; simpl; [contradiction|].
  intros Hnd [H|H].
  - injection H as -> ->. now rewrite String.eqb_refl.
  - inversion Hnd as [|? ? Hx Hd]; subst.
    destruct (String.eqb x k) eqn:E.
    + apply String.eqb_eq in E; subst. exfalso. apply Hx.
      change (In (fst (k, v)) (map fst d)). now apply in_map.
    + now apply IH.
Qed.

Lemma dict_get_Some_In {A : Type} (k : string) (v : A)
  (d : list (string * A)) :
  dict_get k d = Some v -> In (k, v) d.
Proof.
  induction d as [|[x u] d IH]; simpl; [discriminate|].
  destruct (String.eqb x k) eqn:E.
  - apply String.eqb_eq in E; subst. intros H; injection H as ->. now left.
  - intros H. right. now apply IH.
Qed.

(** ** The genre engine *)

Lemma genres_NoDup : NoDup genres.
Proof.
  unfold genres; simpl.
  repeat (constructor; [simpl; intros H; repeat destruct H as [H|H];
                        discriminate || contradiction |]).
  constructor.
Qed.

Lemma genre_scores_keys (request_lower : string) :
  dict_keys (genre_scores request_lower) = genres.
Proof. reflexivity. Qed.

(** The value that [max] compares for a genre is its count. *)
Lemma score_of_genre_scores (request_lower genre_ : string) :
  score_of (genre_scores request_lower) genre_ = count_in genre_ request_lower.
Proof.
  unfold score_of, genre_scores, count_in, keywords_of.
  rewrite (dict_get_map (fun keywords =>
             keyword_score keywords request_lower)).
  destruct (dict_get genre_ genre_keywords); reflexivity.
Qed.

Lemma keyword_score_zero (keywords : list string) (request_lower : string) :
  (forall k, In k keywords -> Py.contains k request_lower = false) ->
  keyword_score keywords request_lower = 0.
Proof.
  unfold keyword_score. induction keywords as [|k l IH]; simpl; intros H.
  - reflexivity.
  - rewrite (H k) by now left. apply IH. intros; apply H; now right.
Qed.

Lemma keyword_score_pos (keywords : list string) (request_lower k : string) :
  In k keywords -> Py.contains k request_lower = true ->
  0 < keyword_score keywords request_lower.
Proof.
  unfold keyword_score. induction keywords as [|x l IH]; simpl.
  - contradiction.
  - intros [->|Hin] Hk.
    + rewrite Hk. simpl. lia.
    + destruct (Py.contains x request_lower); simpl; [lia | now apply IH].
Qed.

(** The body of [detect_genre] returns the result of [max], whatever the
    lowered request is: where the code falls back to the default, [max] has
    returned the first genre, which is the default. *)
Lemma detect_genre_from_is_max (request_lower : string) :
  py_max (fun x => count_in x request_lower) genres =
  Some (detect_genre_from request_lower).
Proof.
  unfold detect_genre_from.
  rewrite genre_scores_keys.
  assert (py_max (score_of (genre_scores request_lower)) genres =
          py_max (fun x => count_in x request_lower) genres) as Heq.
  { unfold genres; simpl. now rewrite !score_of_genre_scores. }
  rewrite Heq.
  destruct (py_max (fun x => count_in x request_lower) genres)
    as [g|] eqn:Hmax; [|discriminate].
  rewrite score_of_genre_scores.
  destruct (0 <? count_in g request_lower) eqn:Hpos; [reflexivity|].
  apply Nat.ltb_ge in Hpos.
  apply py_max_first in Hmax as (i & Hi & _ & Hbefore).
  destruct i as [|i].
  - simpl in Hi. now injection Hi as <-.
  - specialize (Hbefore 0 "adventure"). simpl in Hbefore.
    assert (count_in "adventure" request_lower < count_in g request_lower)
      by (apply Hbefore; [lia | reflexivity]).
    lia.
Qed.

Lemma detect_genre_is_max (user_request : string) :
  py_max (fun x => occurrence_count x user_request) genres =
  Some (detect_genre user_request).
Proof. apply detect_genre_from_is_max. Qed.

(** A keyword is in a text exactly when it occurs there at least once. *)
Lemma contains_occurrences (keyword text : string) :
  Py.contains keyword text = (0 <? occurrences keyword text).
Proof.
  induction text as [|c text IH]; rewrite contains_unfold;
    cbn [occurrences].
  - now destruct (String.prefix keyword "").
  - destruct (String.prefix keyword (String c text)); [reflexivity|].
    exact IH.
Qed.

(** The count of the code is the number of keywords that are present. *)
Lemma count_in_keywords_present (genre_ text : string) :
  count_in genre_ text = keywords_present genre_ text.
Proof.
  unfold count_in, keyword_score, keywords_present. f_equal.
  apply filter_ext. intros k. apply contains_occurrences.
Qed.

Lemma keywords_present_le (genre_ text : string) :
  keywords_present genre_ text <= keyword_occurrences genre_ text.
Proof.
  unfold keywords_present, keyword_occurrences.
  induction (keywords_of genre_) as [|k l IH]; simpl; [lia|].
  destruct (0 <? occurrences k text) eqn:E; simpl; [|lia].
  apply Nat.ltb_lt in E. lia.
Qed.

(** C5, as the code has it.  For every ASCII request, [detect_genre]
    returns a genre of the table whose count no genre exceeds and which
    every genre defined before it stays strictly below, so that the first
    definition wins a tie; [adventure] is defined first; when no keyword of
    any genre occurs the result is [adventure], and so it is for the empty
    request.  The count of a genre is the number of its keywords that occur
    in the lowered request, each counted once; it is at most the number of
    their occurrences. *)
Theorem detect_genre_highest_first (user_request : string) :
  ascii_only user_request = true ->
  let text := Py.lower user_request in
  let count := fun x => keywords_present x text in
  let g := detect_genre user_request in
  (exists i, nth_error genres i = Some g /\
     (forall x, In x genres -> count x <= count g) /\
     (forall j x, j < i -> nth_error genres j = Some x -> count x < count g))
  /\ genres
     = ["adventure"; "fairy_tale"; "educational"; "friendship"; "fantasy"]
  /\ ((forall x, In x genres -> keyword_occurrences x text = 0) ->
      g = "adventure")
  /\ (forall x, count x <= keyword_occurrences x text)
  /\ detect_genre "" = "adventure".
Proof.
  intros _ text count g.
  pose proof (detect_genre_is_max user_request) as Hmax. fold g in Hmax.
  apply py_max_first in Hmax as (i & Hi & Hall & Hbefore).
  assert (forall x, occurrence_count x user_request = count x) as Hcount
    by (intros x; apply count_in_keywords_present).
  split; [|split; [reflexivity | split; [|split; [|reflexivity]]]].
  - exists i. split; [exact Hi|]. split.
    + intros x Hx. rewrite <- !Hcount. now apply Hall.
    + intros j x Hj Hx. rewrite <- !Hcount. now apply (Hbefore j).
  - intros Hzero. destruct i as [|i].
    + simpl in Hi. now injection Hi.
    + assert (occurrence_count "adventure" user_request
              < occurrence_count g user_request) as Hlt
        by (apply (Hbefore 0); [lia | reflexivity]).
      assert (keyword_occurrences g text = 0) as Hg
        by (apply Hzero; eapply nth_error_In; exact Hi).
      pose proof (keywords_present_le g text) as Hle.
      rewrite !Hcount in Hlt. unfold count in Hlt. lia.
  - intros x. apply keywords_present_le.
Qed.

(** Two keywords of fairy tales against one of adventure. *)
Lemma detect_genre_highest_first_witness :
  exists i,
    nth_error genres i = Some (detect_genre "A hero, a Fairy and MAGIC")
    /\ keywords_present "adventure" (Py.lower "A hero, a Fairy and MAGIC")
       < keywords_present (detect_genre "A hero, a Fairy and MAGIC")
           (Py.lower "A hero, a Fairy and MAGIC").
Proof.
  destruct (detect_genre_highest_first "A hero, a Fairy and MAGIC" eq_refl)
    as ((i & Hi & _ & _) & _).
  exists i. split; [exact Hi|]. vm_compute. lia.
Defined.

(** The claim of C5 fails for the count of occurrences.  In this request
    the keywords of [adventure] occur three times, those of [fairy_tale]
    twice and those of the other genres not at all, so that [adventure] has
    the highest count of occurrences; the code counts [hero] once and
    returns [fairy_tale]. *)
Lemma detect_genre_counts_a_keyword_once :
  let user_request := "hero hero hero, a fairy and magic" in
  let text := Py.lower user_request in
  ascii_only user_request = true
  /\ keyword_occurrences "adventure" text = 3
  /\ keyword_occurrences "fairy_tale" text = 2
  /\ (forall x, In x genres -> x <> "adventure" ->
        keyword_occurrences x text < keyword_occurrences "adventure" text)
  /\ keywords_present "adventure" text = 1
  /\ keywords_present "fairy_tale" text = 2
  /\ detect_genre user_request = "fairy_tale".
Proof.
  cbv zeta. repeat split; try reflexivity.
  intros x Hx Hne. simpl in Hx.
  destruct Hx as [<-|[<-|[<-|[<-|[<-|[]]]]]];
    [congruence | | | |]; vm_compute; lia.
Qed.

(** A tie between [adventure] and [fantasy] goes to [adventure], and a
    keyword that occurs three times counts once. *)
Example detect_genre_examples :
  detect_genre "A wizard on a quest" = "adventure"
  /\ detect_genre "hero hero hero, a fairy and magic" = "fairy_tale"
  /\ detect_genre "A brave little mouse who wants to become a knight"
     = "adventure".
Proof. repeat split; reflexivity. Qed.

(** C2.  When a keyword of a genre of the table occurs in the lowered
    ASCII request and no keyword of any other genre of the table does,
    [detect_genre] returns that genre. *)
Theorem detect_genre_single_genre
  (user_request genre_ keyword : string) (keywords : list string) :
  ascii_only user_request = true ->
  In (genre_, keywords) genre_keywords ->
  In keyword keywords ->
  Py.contains keyword (Py.lower user_request) = true ->
  (forall other others k,
      In (other, others) genre_keywords -> other <> genre_ ->
      In k others -> Py.contains k (Py.lower user_request) = false) ->
  detect_genre user_request = genre_.
Proof.
  intros _ Hin Hk Hocc Hother.
  assert (forall x kws, In (x, kws) genre_keywords -> keywords_of x = kws)
    as Hkw.
  { intros x kws Hx. unfold keywords_of.
    now rewrite (dict_get_In x kws genre_keywords genres_NoDup Hx). }
  assert (0 < occurrence_count genre_ user_request) as Hpos.
  { unfold occurrence_count, count_in. rewrite (Hkw _ _ Hin).
    eapply keyword_score_pos; eassumption. }
  assert (forall x, In x genres -> x <> genre_ ->
                    occurrence_count x user_request = 0) as Hzero.
  { intros x Hx Hne. unfold occurrence_count, count_in, keywords_of.
    destruct (dict_get x genre_keywords) as [kws|] eqn:Hget; [|reflexivity].
    apply keyword_score_zero. intros k Hkin.
    apply (Hother x kws k); auto. now apply dict_get_Some_In. }
  pose proof (detect_genre_is_max user_request) as Hmax.
  apply py_max_first in Hmax as (i & Hi & Hall & _).
  destruct (string_dec (detect_genre user_request) genre_) as [|Hne]; [assumption|].
  assert (In genre_ genres) as Hg.
  { change (In (fst (genre_, keywords)) (map fst genre_keywords)).
    now apply in_map. }
  specialize (Hall genre_ Hg).
  rewrite (Hzero (detect_genre user_request)) in Hall;
    [lia | eapply nth_error_In; exact Hi | exact Hne].
Qed.

(** A request that only speaks of school. *)
Lemma detect_genre_single_genre_witness :
  detect_genre "We LEARN a lot at School" = "educational".
Proof.
  apply (detect_genre_single_genre "We LEARN a lot at School" "educational"
           "learn"
           ["learn"; "teach"; "school"; "facts"; "science"; "math";
            "educational"]).
  - reflexivity.
  - simpl. tauto.
  - simpl. tauto.
  - reflexivity.
  - intros other others k Hin Hne Hk.
    simpl in Hin.
    repeat (destruct Hin as [Hin|Hin];
            [injection Hin as <- <-; try congruence;
             simpl in Hk; repeat (destruct Hk as [<-|Hk]; [reflexivity|]);
             contradiction |]).
    contradiction.
Defined.

(** ** The monad and the gateway *)

(** A computation that returns has run its first part, then the rest. *)
Lemma bind_inv {A B : Type} (c : M A) (k : A -> M B) (w w' : World) (b : B) :
  bind c k w = (Ok b, w') ->
  exists a w1, c w = (Ok a, w1) /\ k a w1 = (Ok b, w').
Proof.
  unfold bind. destruct (c w) as [[a|e] w1]; [|discriminate].
  intros H. now exists a, w1.
Qed.

Lemma write_eq (s : string) (w : World) :
  write s w = (Ok tt, after_write [s] w).
Proof. reflexivity. Qed.

Lemma print_eq (s : string) (w : World) :
  print s w = (Ok tt, after_write [s ++ Py.nl] w).
Proof. reflexivity. Qed.

Lemma after_write_write (a b : list string) (w : World) :
  after_write b (after_write a w) = after_write (a ++ b)%list w.
Proof. unfold after_write; simpl. now rewrite app_assoc. Qed.

(** The gateway never raises: it returns the next reply and leaves the
    world as [after_call] says. *)
Lemma call_model_eq (prompt : string) (max_tokens : nat) (w : World) :
  call_model prompt max_tokens w =
  (Ok (reply w 0), after_call prompt max_tokens w).
Proof.
  unfold call_model, bind, getenv_api_key, reply, after_call, diagnostics,
    sent, chat_completion.
  destruct (Py.truthy_opt (api_key w)) eqn:Hkey; simpl.
  - rewrite Nat.add_0_r.
    destruct (backend w (length (calls w))) as [text|e]; simpl.
    + now rewrite app_nil_r.
    + now rewrite <- app_assoc.
  - rewrite app_nil_r, <- !app_assoc. reflexivity.
Qed.

Lemma reply_after_call (prompt : string) (max_tokens : nat) (w : World)
  (k : nat) :
  reply (after_call prompt max_tokens w) k = reply w (S k).
Proof.
  unfold reply, after_call, sent; simpl.
  destruct (Py.truthy_opt (api_key w)); [|reflexivity].
  rewrite length_app; simpl.
  now replace (length (calls w) + 1 + k) with (length (calls w) + S k) by lia.
Qed.

Lemma reply_after_write (pieces : list string) (w : World) (k : nat) :
  reply (after_write pieces w) k = reply w k.
Proof. reflexivity. Qed.

Lemma usable_None (o : option string) :
  Py.usable o = None <-> o = None \/ o = Some "".
Proof.
  destruct o as [[|c r]|]; simpl; split; intros H;
    try discriminate; auto; destruct H; discriminate.
Qed.

Lemma usable_Some (o : option string) (s : string) :
  Py.usable o = Some s -> o = Some s /\ s <> "".
Proof.
  destruct o as [[|c r]|]; simpl; intros H; try discriminate.
  injection H as <-. split; [reflexivity | discriminate].
Qed.

(** ** Revision *)

(** C7.  When the feedback text is empty or the rating is at least 4,
    [revise_story_with_feedback] returns the story it was given and leaves
    the world as it was: no request is sent and nothing is printed.  This
    holds for every rating, those from 0 to 5 among them. *)
Theorem revise_story_with_feedback_noop
  (story user_request : string) (feedback : Feedback) (w : World) :
  feedback_text feedback = "" \/ 4 <= rating feedback ->
  revise_story_with_feedback story feedback user_request w = (Ok story, w).
Proof.
  intros H. unfold revise_story_with_feedback.
  destruct H as [H|H].
  - now rewrite H.
  - apply Nat.leb_le in H. rewrite H. now rewrite orb_true_r.
Qed.

Lemma revise_story_with_feedback_noop_witness :
  revise_story_with_feedback "Once upon a time."
    {| rating := 5; feedback_text := "I loved the cat" |} "a cat"
    (fresh_world [] [])
  = (Ok "Once upon a time.", fresh_world [] []).
Proof.
  apply revise_story_with_feedback_noop. right. simpl. lia.
Defined.

(** Otherwise one request is sent, and the story is replaced by the reply
    when there is one. *)
Lemma revise_story_with_feedback_calls
  (story user_request : string) (feedback : Feedback) (w : World) :
  feedback_text feedback <> "" -> rating feedback < 4 ->
  revise_story_with_feedback story feedback user_request w =
  (Ok (final_text story (reply w 0)),
   after_call (revision_prompt story feedback user_request) 3000 w).
Proof.
  intros Htext Hrating. unfold revise_story_with_feedback.
  destruct (feedback_text feedback) as [|c r] eqn:E; [contradiction|].
  apply Nat.leb_gt in Hrating. rewrite Hrating. simpl.
  unfold bind. now rewrite call_model_eq.
Qed.

(** ** The generation pipeline *)

(** The replies seen from a later world, counted from the earlier one. *)
Ltac norm_reply :=
  repeat (rewrite reply_after_call || rewrite reply_after_write).

Lemma extract_characters_eq (story : string) (memory : StoryMemory)
  (w : World) :
  extract_characters story memory w =
  (Ok (with_extracted (reply w 0) memory),
   after_call (extract_prompt story) 500 w).
Proof.
  unfold extract_characters, bind, with_extracted.
  rewrite call_model_eq. now destruct (Py.usable (reply w 0)).
Qed.

Lemma generate_story_cases (user_input : string) (memory : StoryMemory)
  (is_episode : bool) (w : World) :
  generate_story user_input memory is_episode w =
  let working := working_memory user_input memory is_episode in
  match Py.usable (reply w 0) with
  | None => (Ok (None, working), drafted user_input memory is_episode w)
  | Some initial_story =>
      match Py.usable (reply w 1) with
      | None =>
          (Ok (Some initial_story, working),
           judged user_input memory is_episode initial_story w)
      | Some evaluation =>
          let story := final_text initial_story (reply w 2) in
          let w' :=
            refined user_input memory is_episode initial_story evaluation w in
          if is_episode then (Ok (Some story, working), w')
          else (Ok (Some story, with_extracted (reply w 3) working),
                after_call (extract_prompt story) 500 w')
      end
  end.
Proof.
  unfold generate_story, refined, judged, drafted, announced.
  destruct is_episode; cbn [negb working_memory]; unfold bind;
    rewrite !print_eq; cbn [ret]; rewrite ?print_eq, ?after_write_write;
    rewrite call_model_eq; norm_reply; cbn [app];
    (destruct (Py.usable (reply w 0)) as [initial_story|];
     [|reflexivity]);
    rewrite print_eq, call_model_eq; norm_reply;
    (destruct (Py.usable (reply w 1)) as [evaluation|]; [|reflexivity]);
    rewrite print_eq, call_model_eq; norm_reply; cbn [ret].
  - reflexivity.
  - rewrite extract_characters_eq. norm_reply. reflexivity.
Qed.

(** C4, as the code has it.  [generate_story] always returns, and it
    returns nothing exactly when the draft call returns nothing or the empty
    text.  With a draft [d], an evaluation or a refinement call that returns
    nothing or the empty text leaves [d] as the result, and a refinement
    that returns a text makes that text the result.  The draft, evaluation
    and refinement calls are the next three calls of the gateway, whose
    returned values are [reply w 0], [reply w 1] and [reply w 2]. *)
Theorem generate_story_null_iff_no_draft
  (user_input : string) (memory : StoryMemory) (is_episode : bool)
  (w : World) :
  exists story memory' w',
    generate_story user_input memory is_episode w = (Ok (story, memory'), w')
    /\ (story = None <-> reply w 0 = None \/ reply w 0 = Some "")
    /\ (forall d, Py.usable (reply w 0) = Some d ->
          (reply w 1 = None \/ reply w 1 = Some "") -> story = Some d)
    /\ (forall d, Py.usable (reply w 0) = Some d ->
          (reply w 2 = None \/ reply w 2 = Some "") -> story = Some d)
    /\ (forall d v f, Py.usable (reply w 0) = Some d ->
          Py.usable (reply w 1) = Some v -> Py.usable (reply w 2) = Some f ->
          story = Some f).
Proof.
  rewrite generate_story_cases. cbv zeta.
  destruct (Py.usable (reply w 0)) as [d|] eqn:Hd;
    [destruct (Py.usable (reply w 1)) as [v|] eqn:Hv;
     [destruct is_episode|]|];
    eexists _, _, _; (split; [reflexivity|]); repeat split.
  all: try discriminate.
  all: try (intros H; apply usable_None in H; congruence).
  all: try (intros _; now apply usable_None).
  all: try (intros d0 Hd0 H; apply usable_None in H; injection Hd0 as <-;
            first [congruence | unfold final_text; now rewrite H]).
  all: try (intros d0 Hd0 _; exact Hd0).
  all: try (intros d0 v0 f _ _ Hf; unfold final_text; now rewrite Hf).
Qed.

(** The claim of C4 fails where the draft call returns the empty text:
    the call of the gateway returns a text, not nothing, and
    [generate_story] returns nothing. *)
Lemma generate_story_null_on_empty_draft :
  let w := fresh_world [Content ""] [] in
  fst (call_model
         (storyteller_prompt "a quest"
            (working_memory "a quest" new_StoryMemory false) false)
         3000 (announced "a quest" new_StoryMemory false w))
  = Ok (Some "")
  /\ story_of (generate_story "a quest" new_StoryMemory false w) = None
  /\ ~ (story_of (generate_story "a quest" new_StoryMemory false w) = None
        <-> reply w 0 = None).
Proof.
  cbv zeta. split; [reflexivity|]. split; [reflexivity|].
  intros [H _]. specialize (H eq_refl). discriminate.
Qed.

(** The requests that a run of [generate_story] sends. *)
Lemma calls_after_call (prompt : string) (max_tokens : nat) (w : World) :
  Py.truthy_opt (api_key w) = true ->
  calls (after_call prompt max_tokens w) =
  (calls w ++ [(prompt, max_tokens)])%list.
Proof. intros H. unfold after_call, sent; simpl. now rewrite H. Qed.

Lemma reply_Some_key (w : World) (k : nat) (s : string) :
  Py.usable (reply w k) = Some s -> Py.truthy_opt (api_key w) = true.
Proof.
  unfold reply. destruct (Py.truthy_opt (api_key w)); [reflexivity|].
  discriminate.
Qed.

(** An episode sends no request of the extractor. *)
Lemma generate_story_episode_no_extraction
  (user_input : string) (memory : StoryMemory) (w : World) :
  exists story w' new,
    generate_story user_input memory true w = (Ok (story, memory), w')
    /\ calls w' = (calls w ++ new)%list
    /\ forall text, ~ In (extraction_of text) new.
Proof.
  rewrite generate_story_cases. cbv zeta.
  unfold refined, judged, drafted, announced, working_memory, after_call,
    after_write, sent; simpl.
  destruct (Py.truthy_opt (api_key w)).
  - destruct (Py.usable (reply w 0)) as [d|];
      [destruct (Py.usable (reply w 1)) as [v|]|];
      eexists _, _, _; (split; [reflexivity|]); simpl;
      rewrite <- ?app_assoc; (split; [reflexivity|]);
      intros text Hin; simpl in Hin; unfold extraction_of in Hin;
      repeat (destruct Hin as [Hin|Hin]; [discriminate|]); contradiction.
  - destruct (Py.usable (reply w 0)) as [d|];
      [destruct (Py.usable (reply w 1)) as [v|]|];
      eexists _, _, [];
      (split; [reflexivity|]); simpl; rewrite ?app_nil_r;
      (split; [reflexivity|]); intros text [].
Qed.

(** A new story whose draft and evaluation calls both return a text ends
    with a request of the extractor for the story that is returned. *)
Lemma generate_story_extracts
  (user_input : string) (memory : StoryMemory) (w : World) (d v : string) :
  Py.usable (reply w 0) = Some d -> Py.usable (reply w 1) = Some v ->
  exists story memory' w',
    generate_story user_input memory false w = (Ok (Some story, memory'), w')
    /\ calls w' =
       (calls (refined user_input memory false d v w)
          ++ [extraction_of story])%list.
Proof.
  intros Hd Hv. rewrite generate_story_cases. cbv zeta. rewrite Hd, Hv.
  eexists _, _, _. split; [reflexivity|].
  apply calls_after_call. apply (reply_Some_key w 0 d Hd).
Qed.

(** A new story whose evaluation call returns nothing is returned as
    drafted, and the extractor is not run on it: the draft and the
    evaluation requests are the only ones, and the characters stay as they
    were. *)
Lemma generate_story_skips_extraction
  (user_input : string) (memory : StoryMemory) (w : World) (d : string) :
  Py.usable (reply w 0) = Some d -> Py.usable (reply w 1) = None ->
  exists memory' w' new,
    generate_story user_input memory false w = (Ok (Some d, memory'), w')
    /\ characters memory' = characters memory
    /\ calls w' = (calls w ++ new)%list
    /\ forall text, ~ In (extraction_of text) new.
Proof.
  intros Hd Hv. rewrite generate_story_cases. cbv zeta. rewrite Hd, Hv.
  pose proof (reply_Some_key w 0 d Hd) as Hkey.
  eexists _, _, _. split; [reflexivity|]. split; [reflexivity|].
  unfold judged, drafted, announced, after_call, after_write, sent; simpl.
  rewrite Hkey. rewrite <- app_assoc. split; [reflexivity|].
  intros text Hin; simpl in Hin; unfold extraction_of in Hin.
  repeat (destruct Hin as [Hin|Hin]; [discriminate|]); contradiction.
Qed.

(** C1, where the code departs from it: a request for a new story whose
    draft succeeds and whose evaluation fails.  The draft is returned, no
    request of the extractor has been sent and no character is known. *)
Lemma extraction_skipped_after_failed_evaluation :
  let w := fresh_world [Content "Tom the mouse set out."; Failure "timeout"]
             [] in
  exists memory' w',
    generate_story "a quest for cheese" new_StoryMemory false w
    = (Ok (Some "Tom the mouse set out.", memory'), w')
    /\ (forall text, ~ In (extraction_of text) (calls w'))
    /\ characters memory' = [].
Proof.
  cbv zeta.
  destruct (generate_story_skips_extraction "a quest for cheese"
              new_StoryMemory
              (fresh_world [Content "Tom the mouse set out.";
                            Failure "timeout"] [])
              "Tom the mouse set out." eq_refl eq_refl)
    as (memory' & w' & new & Hrun & Hchars & Hcalls & Hnew).
  exists memory', w'. split; [exact Hrun|]. split; [|exact Hchars].
  rewrite Hcalls. exact Hnew.
Qed.

(** ** The character extractor *)

Lemma process_line_malformed (chars : list (string * Character))
  (line : string) :
  malformed line -> process_line chars line = chars.
Proof.
  unfold malformed, process_line.
  intros [H|[H|[H|H]]].
  - now rewrite H.
  - rewrite H. now rewrite andb_false_r.
  - destruct (Py.contains ":" line && Py.contains "|" line); [|reflexivity].
    unfold try_line, first_segment in *.
    pose proof (split_not_nil "|" line) as Hne.
    destruct (Py.split "|" line) as [|first parts]; [contradiction|].
    simpl in *. now rewrite (split_without ":" first H).
  - rewrite H. now destruct (Py.contains ":" line && Py.contains "|" line).
Qed.

Lemma parse_characters_malformed (response : string)
  (chars : list (string * Character)) :
  Forall malformed (Py.split (ascii_of_nat 10) response) ->
  parse_characters response chars = chars.
Proof.
  unfold parse_characters.
  induction 1 as [|line lines Hline _ IH]; simpl; [reflexivity|].
  now rewrite (process_line_malformed chars line Hline).
Qed.

(** The parse of a line raises in no case: the [except] of the loop is
    never taken. *)
Lemma contains_char (c d : ascii) (r : string) :
  Py.contains (String c "") (String d r)
  = (Ascii.eqb c d || Py.contains (String c "") r).
Proof.
  rewrite contains_unfold. simpl.
  destruct (Ascii.ascii_dec c d) as [->|Hne].
  - rewrite Ascii.eqb_refl. now destruct r.
  - assert (Ascii.eqb c d = false) as -> by now apply Ascii.eqb_neq.
    reflexivity.
Qed.

Lemma lower_char_colon (d : ascii) :
  Py.lower_char d = ":"%char -> d = ":"%char.
Proof.
  destruct d as [[] [] [] [] [] [] [] []]; vm_compute; intros H;
    first [reflexivity | discriminate H].
Qed.

Lemma contains_colon_lower (s : string) :
  Py.contains ":" (Py.lower s) = true -> Py.contains ":" s = true.
Proof.
  induction s as [|d r IH]; [discriminate|].
  cbn [Py.lower]. rewrite !contains_char.
  destruct (Ascii.eqb ":" (Py.lower_char d)) eqn:E.
  - apply Ascii.eqb_eq in E. symmetry in E. apply lower_char_colon in E.
    subst d. reflexivity.
  - simpl. intros H. rewrite (IH H). apply orb_true_r.
Qed.

Lemma split_two (sep : ascii) (s : string) :
  Py.contains (String sep "") s = true -> 2 <= length (Py.split sep s).
Proof.
  induction s as [|d r IH]; [discriminate|].
  rewrite contains_char. simpl. rewrite (Ascii.eqb_sym d sep).
  destruct (Ascii.eqb sep d); simpl.
  - intros _. pose proof (split_not_nil sep r).
    destruct (Py.split sep r); [contradiction | simpl; lia].
  - intros H. specialize (IH H).
    destruct (Py.split sep r); simpl in *; lia.
Qed.

Lemma personality_of_never_raises (parts personality : list string) :
  personality_of parts personality <> None.
Proof.
  revert personality. induction parts as [|part rest IH]; intros personality.
  - discriminate.
  - simpl. destruct (Py.contains "personality:" (Py.lower part)) eqn:E.
    + assert (2 <= length (Py.split ":" part)) as Hlen.
      { apply split_two. apply contains_colon_lower.
        apply contains_split in E as (a & b & Heq).
        apply contains_split. exists (a ++ "personality"), b.
        rewrite Heq. clear. induction a as [|c a IH];
          [reflexivity | cbn [String.append]; f_equal; exact IH]. }
      destruct (Py.split ":" part) as [|x [|y l]]; simpl in Hlen; try lia.
      simpl. apply IH.
    + apply IH.
Qed.

Lemma try_line_never_raises (line : string)
  (chars : list (string * Character)) :
  try_line line chars <> None.
Proof.
  unfold try_line.
  pose proof (split_not_nil "|" line) as Hparts.
  destruct (Py.split "|" line) as [|first parts] eqn:Hsplit;
    [contradiction|].
  cbn [nth_error].
  destruct (2 <=? length (Py.split ":" first)) eqn:Hlen; [|discriminate].
  apply Nat.leb_le in Hlen.
  destruct (Py.split ":" first) as [|n0 [|d0 l]]; simpl in Hlen; try lia.
  cbn [nth_error].
  pose proof (personality_of_never_raises (first :: parts) []) as Hp.
  destruct (personality_of (first :: parts) []); [discriminate | contradiction].
Qed.

(** C8.  For every response of the backend, [extract_characters] returns
    without raising, writes to no part of the memory but the characters,
    and handles the response line by line: the characters are those left by
    [process_line] run over the lines in order.  A malformed line (no
    colon, no pipe, no colon before the first pipe, or a parse that raises)
    leaves the characters as they are, so a response of malformed lines
    only, like an absent or empty response, leaves the whole memory as it
    was. *)
Theorem extract_characters_never_fails
  (story : string) (memory : StoryMemory) (w : World) :
  exists memory' w',
    extract_characters story memory w = (Ok memory', w')
    /\ (current_story memory' = current_story memory
        /\ genre memory' = genre memory
        /\ world_details memory' = world_details memory
        /\ story_history memory' = story_history memory
        /\ user_preferences memory' = user_preferences memory)
    /\ (forall response, Py.usable (reply w 0) = Some response ->
          characters memory' =
          fold_left process_line (Py.split (ascii_of_nat 10) response)
                    (characters memory))
    /\ (forall chars line, malformed line -> process_line chars line = chars)
    /\ (forall response, reply w 0 = Some response ->
          Forall malformed (Py.split (ascii_of_nat 10) response) ->
          memory' = memory)
    /\ (Py.usable (reply w 0) = None -> memory' = memory).
Proof.
  rewrite extract_characters_eq. eexists _, _. split; [reflexivity|].
  unfold with_extracted.
  split; [|split; [|split; [|split]]].
  - now destruct (Py.usable (reply w 0)).
  - intros response ->. reflexivity.
  - exact process_line_malformed.
  - intros response Hr Hall. rewrite Hr.
    destruct response as [|c r]; simpl; [reflexivity|].
    rewrite (parse_characters_malformed _ _ Hall). now destruct memory.
  - now intros ->.
Qed.

(** A response of four malformed lines: prose, a colon without a pipe, a
    pipe without a colon, and a colon only after the first pipe. *)
Lemma extract_characters_never_fails_witness :
  exists memory' w',
    extract_characters "Once upon a time." new_StoryMemory
      (fresh_world [Content malformed_response] [])
    = (Ok memory', w')
    /\ memory' = new_StoryMemory.
Proof.
  destruct (extract_characters_never_fails "Once upon a time."
              new_StoryMemory (fresh_world [Content malformed_response] []))
    as (memory' & w' & Hrun & _ & _ & _ & Hmalformed & _).
  exists memory', w'. split; [exact Hrun|].
  apply (Hmalformed malformed_response); [reflexivity|].
  change (Forall malformed
            ["Here are the characters"; "Bob: a cat"; "Bob | a cat";
             "Bob | personality: kind"]).
  apply Forall_cons; [right; left; reflexivity|].
  apply Forall_cons; [right; left; reflexivity|].
  apply Forall_cons; [left; reflexivity|].
  apply Forall_cons; [right; right; left; reflexivity|].
  apply Forall_nil.
Defined.

(** A well-formed line is recorded, and what it says of relationships is
    dropped. *)
Example process_line_example :
  process_line []
    "Alice: young girl, main protagonist | personality: curious, brave | relationships: Bob-best friend"
  = [ ("Alice",
       {| name := "Alice"; description := "young girl, main protagonist";
          personality := ["curious"; "brave"]; relationships := [] |}) ].
Proof. reflexivity. Qed.

(** ** The session: what a turn does to the memory *)

(** A computation that returned has run its first part. *)
Ltac bind_inv_in H :=
  let a := fresh "a" in
  let w := fresh "w" in
  let Hrun := fresh "Hrun" in
  apply bind_inv in H as (a & w & Hrun & H).

Lemma ret_inv {A : Type} (a b : A) (w w' : World) :
  ret a w = (Ok b, w') -> a = b /\ w = w'.
Proof. unfold ret. intros H; injection H; auto. Qed.

Lemma next_request_memory (memory : StoryMemory) (story_count : nat)
  (w w' : World) (user_input : string) (is_episode : bool)
  (memory' : StoryMemory) :
  next_request memory story_count w
  = (Ok (Some (user_input, is_episode, memory')), w') ->
  (memory' = memory \/ memory' = set_characters [] memory)
  /\ (is_episode = true -> memory' = memory)
  /\ (story_count = 0 -> memory' = memory /\ is_episode = false).
Proof.
  unfold next_request. destruct (story_count =? 0) eqn:Hcount; intros H.
  - bind_inv_in H. apply ret_inv in H as [H _]. injection H as <- <- <-.
    auto.
  - apply Nat.eqb_neq in Hcount.
    bind_inv_in H. destruct a as [|].
    + bind_inv_in H. destruct (String.eqb a "1").
      * bind_inv_in H. apply ret_inv in H as [H _]. injection H as <- <- <-.
        repeat split; auto; intros; contradiction.
      * destruct (String.eqb a "2").
        -- bind_inv_in H. apply ret_inv in H as [H _].
           injection H as <- <- <-.
           repeat split; auto; try discriminate; intros; contradiction.
        -- apply ret_inv in H as [H _]. discriminate.
    + bind_inv_in H. apply ret_inv in H as [H _]. injection H as <- <- <-.
      repeat split; auto; try discriminate; intros; contradiction.
Qed.

Lemma next_request_break (memory : StoryMemory) (story_count : nat)
  (w w' : World) :
  next_request memory story_count w = (Ok None, w') -> story_count <> 0.
Proof.
  unfold next_request. destruct (story_count =? 0) eqn:Hcount; intros H.
  - bind_inv_in H. apply ret_inv in H as [H _]. discriminate.
  - now apply Nat.eqb_neq in Hcount.
Qed.

Lemma generate_story_memory (user_input : string) (memory : StoryMemory)
  (is_episode : bool) (w w' : World) (story : option string)
  (memory' : StoryMemory) :
  generate_story user_input memory is_episode w = (Ok (story, memory'), w') ->
  memory' = working_memory user_input memory is_episode
  \/ (is_episode = false /\ story <> None /\
      memory' = with_extracted (reply w 3)
                  (working_memory user_input memory false)).
Proof.
  rewrite generate_story_cases. cbv zeta.
  destruct (Py.usable (reply w 0)) as [d|];
    [destruct (Py.usable (reply w 1)) as [v|]; [destruct is_episode|]|];
    intros H; injection H as <- <- <-; auto.
  right. repeat split. discriminate.
Qed.

Lemma present_story_memory (story user_input : string) (is_episode : bool)
  (memory : StoryMemory) (story_count : nat) (w w' : World)
  (memory' : StoryMemory) (story_count' : nat) :
  present_story story user_input is_episode memory story_count w
  = (Ok (memory', story_count'), w') ->
  story_count' = story_count + 1
  /\ exists shown quality_score,
       let stored :=
         add_story memory shown (genre memory) user_input quality_score in
       memory' = stored \/ memory' = note_preference stored.
Proof.
  unfold present_story. intros H.
  do 4 bind_inv_in H. bind_inv_in H. bind_inv_in H.
  apply ret_inv in H as [H _]. injection H as <- <-.
  split; [reflexivity|]. exists a4, (rating a3). cbv zeta.
  match goal with |- context [if ?b then _ else _] => destruct b end; auto.
Qed.

Lemma working_memory_evolves (user_input : string) (memory : StoryMemory)
  (is_episode : bool) :
  evolves memory (working_memory user_input memory is_episode).
Proof. destruct is_episode; simpl; constructor. Qed.

(** Whatever a turn of the loop does to the memory is a sequence of the
    writes listed in [evolves]. *)
Lemma serve_request_evolves (user_input : string) (is_episode : bool)
  (memory : StoryMemory) (story_count : nat) (w w' : World) (flow : Flow) :
  serve_request user_input is_episode memory story_count w = (Ok flow, w') ->
  evolves memory (flow_memory flow).
Proof.
  unfold serve_request.
  destruct (one_of (Py.lower user_input) ["quit"; "exit"; "q"]).
  { intros H. apply ret_inv in H as [<- _]. constructor. }
  destruct (negb (Py.truthy user_input)).
  { intros H. bind_inv_in H. apply ret_inv in H as [<- _]. constructor. }
  intros H. bind_inv_in H. bind_inv_in H. destruct a0 as [story memory1].
  assert (evolves memory memory1) as Hgen.
  { apply generate_story_memory in Hrun0 as [->|(-> & _ & ->)].
    - apply working_memory_evolves.
    - eapply evolves_trans;
        [apply (working_memory_evolves user_input memory false)|].
      constructor. }
  destruct (Py.usable story) as [text|].
  - bind_inv_in H. destruct a0 as [memory2 story_count2].
    bind_inv_in H. apply ret_inv in H as [<- _]. simpl.
    apply present_story_memory in Hrun1 as (_ & shown & q & [->| ->]).
    + eapply evolves_trans; [exact Hgen | constructor].
    + eapply evolves_trans; [exact Hgen|].
      eapply evolves_trans; [apply evolves_add | apply evolves_preference].
  - do 2 bind_inv_in H. apply ret_inv in H as [<- _]. exact Hgen.
Qed.

Lemma main_turn_evolves (memory : StoryMemory) (story_count : nat)
  (w w' : World) (flow : Flow) :
  main_turn memory story_count w = (Ok flow, w') ->
  evolves memory (flow_memory flow).
Proof.
  unfold main_turn. intros H. bind_inv_in H.
  destruct a as [[[user_input is_episode] memory1]|].
  - apply next_request_memory in Hrun as ([->| ->] & _).
    + eapply serve_request_evolves; exact H.
    + eapply evolves_trans; [apply evolves_clear|].
      eapply serve_request_evolves; exact H.
  - apply ret_inv in H as [<- _]. constructor.
Qed.

Lemma reachable_evolves (flow : Flow) :
  reachable flow -> evolves new_StoryMemory (flow_memory flow).
Proof.
  induction 1 as [|memory story_count w w' flow _ IH Hturn].
  - constructor.
  - eapply evolves_trans; [exact IH|].
    eapply main_turn_evolves; exact Hturn.
Qed.

(** The first turn of [sample_world] leaves [sample_memory]. *)
Lemma sample_turn :
  main_turn new_StoryMemory 0 sample_world
  = (Ok (Again sample_memory 1),
     snd (main_turn new_StoryMemory 0 sample_world)).
Proof. vm_compute. reflexivity. Qed.

Lemma sample_reachable : reachable (Again sample_memory 1).
Proof.
  eapply reachable_turn; [apply reachable_start | exact sample_turn].
Qed.

(** ** Relationships *)

Lemma dict_set_In {A : Type} (k : string) (v : A) (d : list (string * A))
  (x : string * A) :
  In x (dict_set k v d) -> x = (k, v) \/ In x d.
Proof.
  induction d as [|[k' v'] d IH]; simpl.
  - intros [<-|[]]. now left.
  - destruct (String.eqb k' k); simpl.
    + intros [<-|H]; auto.
    + intros [<-|H]; auto. destruct (IH H); auto.
Qed.

Lemma process_line_relationships (chars : list (string * Character))
  (line : string) :
  without_relationships chars ->
  without_relationships (process_line chars line).
Proof.
  intros Hchars. unfold process_line.
  destruct (Py.contains ":" line && Py.contains "|" line); [|exact Hchars].
  destruct (try_line line chars) as [chars'|] eqn:Htry; [|exact Hchars].
  unfold try_line in Htry.
  destruct (nth_error (Py.split "|" line) 0) as [first|]; [|discriminate].
  destruct (2 <=? length (Py.split ":" first)).
  - destruct (nth_error (Py.split ":" first) 0) as [n0|]; [|discriminate].
    destruct (nth_error (Py.split ":" first) 1) as [d0|]; [|discriminate].
    destruct (personality_of (Py.split "|" line) []) as [p|]; [|discriminate].
    injection Htry as <-. intros n c Hin.
    apply dict_set_In in Hin as [Hin|Hin].
    + injection Hin as _ ->. reflexivity.
    + eapply Hchars; exact Hin.
  - injection Htry as <-. exact Hchars.
Qed.

Lemma parse_characters_relationships (response : string)
  (chars : list (string * Character)) :
  without_relationships chars ->
  without_relationships (parse_characters response chars).
Proof.
  unfold parse_characters.
  generalize (Py.split (ascii_of_nat 10) response) as lines.
  intros lines; revert chars.
  induction lines as [|line lines IH]; simpl; intros chars H; [exact H|].
  apply IH. now apply process_line_relationships.
Qed.

(** Every write to the memory keeps the relationships empty. *)
Lemma evolves_no_relationships (m m' : StoryMemory) :
  evolves m m' -> no_relationships m -> no_relationships m'.
Proof.
  induction 1 as [m|m|m g|m response|m story user_request q|m|m1 m2 m3 _ IH1 _ IH2];
    intros Hm; auto.
  - intros n c [].
  - unfold with_extracted. destruct (Py.usable response) as [text|]; [|exact Hm].
    apply (parse_characters_relationships text (characters m) Hm).
Qed.

(** C9.  In every state that the session reaches, at the head of the loop
    or after it, every character of the memory has an empty relationships
    mapping. *)
Theorem relationships_always_empty (flow : Flow) :
  reachable flow -> no_relationships (flow_memory flow).
Proof.
  intros H. apply (evolves_no_relationships new_StoryMemory).
  - now apply reachable_evolves.
  - intros n c [].
Qed.

(** After the first turn of [sample_world] the memory holds the character
    Tom, for whom the response named a relationship. *)
Lemma relationships_always_empty_witness :
  reachable (Again sample_memory 1)
  /\ characters sample_memory <> []
  /\ no_relationships sample_memory.
Proof.
  split; [exact sample_reachable|]. split; [discriminate|].
  exact (relationships_always_empty (Again sample_memory 1) sample_reachable).
Defined.

(** ** The current story and the history *)

(** Every write to the memory keeps the current story equal to the story
    of the last entry of the history: [add_story] sets both, and no other
    write touches either. *)
Lemma evolves_current_is_last (m m' : StoryMemory) :
  evolves m m' -> current_is_last m -> current_is_last m'.
Proof.
  induction 1 as [m|m|m g|m response|m story user_request q|m|m1 m2 m3 _ IH1 _ IH2];
    intros Hm; auto.
  - unfold with_extracted. now destruct (Py.usable response).
  - intros earlier t Heq. simpl in Heq.
    apply app_inj_tail in Heq as [_ <-]. reflexivity.
Qed.

(** The writes other than [add_story] leave the current story and the
    history as they are. *)
Lemma writes_keep_story (m : StoryMemory) (g : string)
  (response : option string) :
  let keeps := fun m' =>
    current_story m' = current_story m
    /\ story_history m' = story_history m in
  keeps (set_characters [] m) /\ keeps (set_genre g m)
  /\ keeps (with_extracted response m) /\ keeps (note_preference m).
Proof.
  cbv zeta. unfold with_extracted.
  destruct (Py.usable response); repeat split.
Qed.

(** C10.  In every state that the session reaches, when the history is not
    empty the current story is the story of its last entry. *)
Theorem current_story_is_last_of_history (flow : Flow) :
  reachable flow -> current_is_last (flow_memory flow).
Proof.
  intros H. apply (evolves_current_is_last new_StoryMemory).
  - now apply reachable_evolves.
  - intros [|t earlier] t' Heq; discriminate.
Qed.

Lemma current_story_is_last_of_history_witness :
  reachable (Again sample_memory 1)
  /\ story_history sample_memory <> []
  /\ current_is_last sample_memory.
Proof.
  split; [exact sample_reachable|]. split; [discriminate|].
  exact (current_story_is_last_of_history (Again sample_memory 1)
           sample_reachable).
Defined.

(** ** The console *)

Lemma input_eq (prompt line : string) (rest : list string) (w : World) :
  stdin w = line :: rest ->
  input prompt w = (Ok line, after_input prompt w).
Proof.
  intros H. unfold input, bind, read_line, after_input; simpl. now rewrite H.
Qed.

Lemma input_eof (prompt : string) (w : World) :
  stdin w = [] ->
  input prompt w = (Raise EOFError, after_write [prompt] w).
Proof.
  intros H. unfold input, bind, read_line, after_write; simpl.
  now rewrite H.
Qed.

Lemma read_line_eq (line : string) (rest : list string) (w : World) :
  stdin w = line :: rest ->
  exists w', read_line w = (Ok line, w') /\ stdin w' = rest.
Proof.
  intros H. unfold read_line. rewrite H. eexists. split; reflexivity.
Qed.

Lemma generate_story_stdin (user_input : string) (memory : StoryMemory)
  (is_episode : bool) (w : World) :
  stdin (snd (generate_story user_input memory is_episode w)) = stdin w.
Proof.
  rewrite generate_story_cases. cbv zeta.
  destruct (Py.usable (reply w 0)); [|reflexivity].
  destruct (Py.usable (reply w 1)); [|reflexivity].
  now destruct is_episode.
Qed.

Lemma generate_story_returns (user_input : string) (memory : StoryMemory)
  (is_episode : bool) (w : World) :
  exists story memory',
    generate_story user_input memory is_episode w
    = (Ok (story, memory'),
       snd (generate_story user_input memory is_episode w)).
Proof.
  rewrite generate_story_cases. cbv zeta.
  destruct (Py.usable (reply w 0)); [|eexists _, _; reflexivity].
  destruct (Py.usable (reply w 1)); [|eexists _, _; reflexivity].
  destruct is_episode; eexists _, _; reflexivity.
Qed.

(** With two lines on the console the feedback is read without reaching
    the end of the input. *)
Lemma get_user_feedback_returns (w : World) :
  2 <= length (stdin w) ->
  exists feedback w', get_user_feedback w = (Ok feedback, w').
Proof.
  intros Hlen. unfold get_user_feedback, bind.
  rewrite print_eq. unfold print_end_space. rewrite write_eq.
  destruct (stdin w) as [|l1 [|l2 rest]] eqn:Hin; simpl in Hlen; try lia.
  destruct (read_line_eq l1 (l2 :: rest) (after_write
    ["Rate the story (1-5, or press Enter to skip):" ++ " "]
    (after_write [(Py.nl ++ "📝 Quick feedback (optional):") ++ Py.nl] w)))
    as (w1 & Hread & Hrest); [exact Hin|].
  rewrite Hread.
  match goal with
  | |- context [if 0 <? ?r then _ else _] => destruct (0 <? r)
  end; [|eexists _, _; reflexivity].
  match goal with
  | |- context [if ?r <=? 2 then _ else _] => destruct (r <=? 2)
  end.
  - rewrite write_eq.
    destruct (read_line_eq l2 rest (after_write
      ["What could make it better?" ++ " "] w1)) as (w2 & Hread2 & _);
      [exact Hrest|].
    rewrite Hread2. eexists _, _; reflexivity.
  - match goal with
    | |- context [if 4 <=? ?r then _ else _] => destruct (4 <=? r)
    end; [|eexists _, _; reflexivity].
    rewrite write_eq.
    destruct (read_line_eq l2 rest (after_write
      ["What did you like most?" ++ " "] w1)) as (w2 & Hread2 & _);
      [exact Hrest|].
    rewrite Hread2. eexists _, _; reflexivity.
Qed.

Lemma revise_story_with_feedback_returns
  (story user_request : string) (feedback : Feedback) (w : World) :
  exists revised w',
    revise_story_with_feedback story feedback user_request w
    = (Ok revised, w').
Proof.
  unfold revise_story_with_feedback.
  destruct (negb (Py.truthy (feedback_text feedback))
            || (4 <=? rating feedback)).
  - eexists _, _; reflexivity.
  - unfold bind. rewrite call_model_eq. eexists _, _; reflexivity.
Qed.

Lemma present_story_returns (story user_input : string) (is_episode : bool)
  (memory : StoryMemory) (story_count : nat) (w : World) :
  2 <= length (stdin w) ->
  exists memory' w',
    present_story story user_input is_episode memory story_count w
    = (Ok (memory', story_count + 1), w').
Proof.
  intros Hlen. unfold present_story, bind. rewrite !print_eq.
  match goal with
  | |- context [get_user_feedback ?w0] =>
      destruct (get_user_feedback_returns w0 Hlen) as (fb & w1 & Hfb)
  end.
  rewrite Hfb.
  destruct ((rating fb <=? 2) && Py.truthy (feedback_text fb)).
  - rewrite print_eq.
    match goal with
    | |- context [revise_story_with_feedback ?s ?f ?u ?w0] =>
        destruct (revise_story_with_feedback_returns s u f w0)
          as (revised & w2 & Hrev)
    end.
    rewrite Hrev.
    destruct (negb (String.eqb revised story)).
    + rewrite !print_eq. eexists _, _; reflexivity.
    + eexists _, _; reflexivity.
  - eexists _, _; reflexivity.
Qed.

(** ** The session controller *)

Lemma serve_request_quit (user_input : string) (is_episode : bool)
  (memory : StoryMemory) (story_count : nat) (w : World) :
  one_of (Py.lower user_input) ["quit"; "exit"; "q"] = true ->
  serve_request user_input is_episode memory story_count w
  = (Ok (Break memory story_count), w).
Proof. intros H. unfold serve_request. now rewrite H. Qed.

Lemma serve_request_empty (is_episode : bool) (memory : StoryMemory)
  (story_count : nat) (w : World) :
  serve_request "" is_episode memory story_count w
  = (Ok (Again memory story_count), after_write [reminder ++ Py.nl] w).
Proof. reflexivity. Qed.

(** A request whose generation returns nothing: the memory is the one
    with which the prompts were built, the counter is as before, the world
    is the one after the draft call, and the apology is printed. *)
Lemma serve_request_failed (user_input : string) (is_episode : bool)
  (memory : StoryMemory) (story_count : nat) (w : World) :
  one_of (Py.lower user_input) ["quit"; "exit"; "q"] = false ->
  user_input <> "" ->
  story_of (generate_story user_input memory is_episode
              (after_write [Py.nl] w)) = None ->
  serve_request user_input is_episode memory story_count w
  = (Ok (Again (working_memory user_input memory is_episode) story_count),
     after_write [apology is_episode ++ Py.nl; Py.nl]
       (drafted user_input memory is_episode (after_write [Py.nl] w))).
Proof.
  intros Hquit Hne Hnone. unfold serve_request. rewrite Hquit.
  destruct user_input as [|c r]; [contradiction|]. cbn [Py.truthy negb].
  unfold bind at 1. unfold print_blank at 1. rewrite write_eq.
  unfold bind at 1. revert Hnone. rewrite generate_story_cases. cbv zeta.
  destruct (Py.usable (reply (after_write [Py.nl] w) 0)) as [d|].
  - destruct (Py.usable (reply (after_write [Py.nl] w) 1)) as [v|];
      [destruct is_episode|]; discriminate.
  - intros _. cbn [Py.usable]. unfold bind, print_blank.
    rewrite print_eq, write_eq, after_write_write. reflexivity.
Qed.

(** A story that [generate_story] returns is not the empty text. *)
Lemma usable_not_empty (o : option string) (s : string) :
  Py.usable o = Some s -> Py.usable (Some s) = Some s.
Proof.
  intros H. apply usable_Some in H as [_ H].
  destruct s; [contradiction | reflexivity].
Qed.

Lemma generate_story_not_empty (user_input : string) (memory : StoryMemory)
  (is_episode : bool) (w w' : World) (story : string)
  (memory' : StoryMemory) :
  generate_story user_input memory is_episode w
  = (Ok (Some story, memory'), w') ->
  Py.usable (Some story) = Some story.
Proof.
  rewrite generate_story_cases. cbv zeta.
  destruct (Py.usable (reply w 0)) as [d|] eqn:Hd; [|discriminate].
  apply usable_not_empty in Hd.
  destruct (Py.usable (reply w 1)) as [v|].
  - unfold final_text.
    destruct (Py.usable (reply w 2)) as [f|] eqn:Hf;
      [apply usable_not_empty in Hf|];
      destruct is_episode; intros H; injection H as <- _ _; assumption.
  - intros H; injection H as <- _ _; assumption.
Qed.

(** A request whose generation returns a story: the story is presented,
    and the turn ends with one more story. *)
Lemma serve_request_presents (user_input : string) (is_episode : bool)
  (memory : StoryMemory) (story_count : nat) (w w1 : World)
  (story : string) (memory1 : StoryMemory) :
  one_of (Py.lower user_input) ["quit"; "exit"; "q"] = false ->
  user_input <> "" ->
  generate_story user_input memory is_episode (after_write [Py.nl] w)
  = (Ok (Some story, memory1), w1) ->
  serve_request user_input is_episode memory story_count w
  = (' (memory, story_count) <-
       present_story story user_input is_episode memory1 story_count ;;
     print_blank ;;
     ret (Again memory story_count)) w1.
Proof.
  intros Hquit Hne Hrun. unfold serve_request. rewrite Hquit.
  destruct user_input as [|c r]; [contradiction|]. cbn [Py.truthy negb].
  unfold bind at 1. unfold print_blank at 1. rewrite write_eq.
  unfold bind at 1. rewrite Hrun.
  now rewrite (generate_story_not_empty _ _ _ _ _ _ _ Hrun).
Qed.

Lemma serve_request_succeeded (user_input : string) (is_episode : bool)
  (memory : StoryMemory) (story_count : nat) (w : World) :
  one_of (Py.lower user_input) ["quit"; "exit"; "q"] = false ->
  user_input <> "" ->
  story_of (generate_story user_input memory is_episode
              (after_write [Py.nl] w)) <> None ->
  (forall flow w',
      serve_request user_input is_episode memory story_count w
      = (Ok flow, w') ->
      exists memory', flow = Again memory' (story_count + 1))
  /\ (2 <= length (stdin w) ->
      exists memory' w',
        serve_request user_input is_episode memory story_count w
        = (Ok (Again memory' (story_count + 1)), w')).
Proof.
  intros Hquit Hne Hsome.
  pose proof (generate_story_stdin user_input memory is_episode
                (after_write [Py.nl] w)) as Hstdin.
  destruct (generate_story_returns user_input memory is_episode
              (after_write [Py.nl] w)) as (story & memory1 & Hrun).
  rewrite Hrun in Hsome. simpl in Hsome.
  destruct story as [story|]; [|contradiction].
  rewrite (serve_request_presents _ _ _ story_count _ _ _ _ Hquit Hne Hrun).
  split.
  - intros flow w' H. bind_inv_in H. destruct a as [memory2 story_count2].
    bind_inv_in H. apply ret_inv in H as [<- _].
    apply present_story_memory in Hrun0 as [-> _]. now exists memory2.
  - intros Hlen. unfold bind.
    destruct (present_story_returns story user_input is_episode memory1
                story_count
                (snd (generate_story user_input memory is_episode
                        (after_write [Py.nl] w))))
      as (memory2 & w2 & Hpresent).
    { rewrite Hstdin. exact Hlen. }
    rewrite Hpresent. unfold print_blank. rewrite write_eq.
    eexists _, _; reflexivity.
Qed.

Lemma first_request (memory : StoryMemory) (w : World) (line : string)
  (rest : list string) :
  stdin w = line :: rest ->
  main_turn memory 0 w
  = serve_request (Py.strip line) false memory 0 (after_input first_prompt w).
Proof.
  intros Hin. unfold main_turn, next_request. cbn [Nat.eqb].
  unfold bind. fold first_prompt. now rewrite (input_eq _ line rest w Hin).
Qed.

(** C6, as the code has it.  At the head of the loop with no story yet
    and a line to read, the line is stripped and then:
    a quit keyword, in any case of letters, leaves the loop;
    an empty request prints a reminder and leaves the session where it
    was, waiting for the first request;
    any other request is served as a new story, not an episode.  When the
    generation returns nothing the session still waits for the first
    request; when it returns a story, a turn that ends has counted one
    story, and it does end when two more lines can be read.  The lines of
    the console are plain lines. *)
Theorem first_request_transitions (memory : StoryMemory) (w : World)
  (line : string) (rest : list string) :
  stdin w = line :: rest ->
  Forall (fun l => plain_line l = true) (stdin w) ->
  let user_input := Py.strip line in
  let quits := one_of (Py.lower user_input) ["quit"; "exit"; "q"] in
  let w1 := after_input first_prompt w in
  let run := generate_story user_input memory false (after_write [Py.nl] w1) in
  (quits = true ->
     main_turn memory 0 w = (Ok (Break memory 0), w1)
     /\ state_of (Break memory 0) = Done)
  /\ (quits = false -> user_input = "" ->
        main_turn memory 0 w
        = (Ok (Again memory 0), after_write [reminder ++ Py.nl] w1)
        /\ state_of (Again memory 0) = AwaitingFirstRequest)
  /\ (quits = false -> user_input <> "" ->
        main_turn memory 0 w = serve_request user_input false memory 0 w1
        /\ (story_of run = None ->
              exists memory' w',
                main_turn memory 0 w = (Ok (Again memory' 0), w')
                /\ state_of (Again memory' 0) = AwaitingFirstRequest)
        /\ (story_of run <> None ->
              (forall flow w',
                  main_turn memory 0 w = (Ok flow, w') ->
                  state_of flow = AwaitingNextAction)
              /\ (2 <= length rest ->
                  exists memory' w',
                    main_turn memory 0 w = (Ok (Again memory' 1), w')
                    /\ state_of (Again memory' 1) = AwaitingNextAction))).
Proof.
  intros Hin _ user_input quits w1 run.
  rewrite (first_request memory w line rest Hin).
  fold user_input. fold w1.
  split; [|split].
  - intros Hquit. split; [|reflexivity].
    now apply serve_request_quit.
  - intros _ ->. split; [|reflexivity]. apply serve_request_empty.
  - intros Hquit Hne. split; [reflexivity|]. split.
    + intros Hnone. eexists _, _. split; [|reflexivity].
      now apply serve_request_failed.
    + intros Hsome.
      destruct (serve_request_succeeded user_input false memory 0 w1
                  Hquit Hne Hsome) as [Hany Hends].
      split.
      * intros flow w' Hflow. destruct (Hany flow w' Hflow) as [m ->].
        reflexivity.
      * intros Hlen.
        destruct Hends as (m & w' & Hrun).
        { unfold w1, after_input; simpl. rewrite Hin. exact Hlen. }
        exists m, w'. split; [exact Hrun | reflexivity].
Qed.

Lemma first_request_transitions_witness :
  main_turn new_StoryMemory 0 (fresh_world [] ["  Quit "])
  = (Ok (Break new_StoryMemory 0),
     after_input first_prompt (fresh_world [] ["  Quit "])).
Proof.
  assert (Forall (fun l => plain_line l = true)
            (stdin (fresh_world [] ["  Quit "]))) as Hplain
    by (repeat constructor).
  pose proof (first_request_transitions new_StoryMemory
                (fresh_world [] ["  Quit "]) "  Quit " [] eq_refl Hplain)
    as H.
  cbv zeta in H. destruct H as [Hquit _].
  destruct (Hquit eq_refl) as [Hturn _]. exact Hturn.
Defined.

(** The claim of C6 fails in two places.  An empty request, also after a
    reprompt, leaves the session waiting for the first request: with two
    empty lines and then the end of the input the session does not finish
    but dies of [EOFError].  A request whose generation fails leaves the
    session waiting for the first request as well. *)
Lemma empty_request_stays_at_first_request :
  let w := fresh_world [] [""; ""] in
  let w1 := snd (main_turn new_StoryMemory 0 w) in
  let w2 := snd (main_turn new_StoryMemory 0 w1) in
  main_turn new_StoryMemory 0 w = (Ok (Again new_StoryMemory 0), w1)
  /\ main_turn new_StoryMemory 0 w1 = (Ok (Again new_StoryMemory 0), w2)
  /\ state_of (Again new_StoryMemory 0) = AwaitingFirstRequest
  /\ state_of (Again new_StoryMemory 0) <> Done
  /\ fst (main w) = Raise EOFError
  /\ fst (main_turn new_StoryMemory 0 failing_world)
     = Ok (Again (set_genre "fairy_tale" new_StoryMemory) 0)
  /\ state_of (Again (set_genre "fairy_tale" new_StoryMemory) 0)
     <> AwaitingNextAction.
Proof.
  cbv zeta. repeat split; try discriminate; vm_compute; reflexivity.
Qed.

(** C3, as the code has it.  In a turn whose request is served and whose
    generation returns nothing, the turn ends with the counter as it was;
    the current story, the history, the preferences and the world details
    are as before the turn; an episode leaves the whole memory as it was; a
    request for a new story leaves the genre detected from that request,
    and the characters are as before or, after the first story, cleared.
    The console has received the blank line, the progress lines, the
    diagnostics of the gateway and the apology, and no story. *)
Theorem failed_turn_effect (memory : StoryMemory) (story_count : nat)
  (w w1 : World) (user_input : string) (is_episode : bool)
  (memory1 : StoryMemory) :
  next_request memory story_count w
  = (Ok (Some (user_input, is_episode, memory1)), w1) ->
  one_of (Py.lower user_input) ["quit"; "exit"; "q"] = false ->
  user_input <> "" ->
  story_of (generate_story user_input memory1 is_episode
              (after_write [Py.nl] w1)) = None ->
  exists memory' w',
    main_turn memory story_count w = (Ok (Again memory' story_count), w')
    /\ current_story memory' = current_story memory
    /\ story_history memory' = story_history memory
    /\ user_preferences memory' = user_preferences memory
    /\ world_details memory' = world_details memory
    /\ (is_episode = true -> memory' = memory)
    /\ (is_episode = false -> genre memory' = detect_genre user_input)
    /\ (characters memory' = characters memory
        \/ (story_count <> 0 /\ is_episode = false
            /\ characters memory' = []))
    /\ stdout w' =
       (stdout w1
        ++ [Py.nl; ("📝 Creating your story..." ++ Py.nl)%string]
        ++ (if is_episode then []
            else [("🎭 Detected genre: "
                     ++ Py.title (Py.replace "_" " " (detect_genre user_input))
                     ++ Py.nl)%string])
        ++ diagnostics w1
        ++ [(apology is_episode ++ Py.nl)%string; Py.nl])%list.
Proof.
  intros Hreq Hquit Hne Hnone.
  exists (working_memory user_input memory1 is_episode).
  eexists. split.
  { unfold main_turn, bind. rewrite Hreq.
    now apply serve_request_failed. }
  apply next_request_memory in Hreq as (Hmem & Hepisode & Hfirst).
  assert (characters memory1 = characters memory
          \/ (story_count <> 0 /\ is_episode = false
              /\ characters memory1 = [])) as Hchars.
  { destruct Hmem as [->| ->]; [now left|].
    destruct (Nat.eq_dec story_count 0) as [Hz|Hnz].
    - destruct (Hfirst Hz) as [-> _]. now left.
    - destruct is_episode.
      + rewrite (Hepisode eq_refl). now left.
      + right. auto. }
  assert (current_story memory1 = current_story memory
          /\ story_history memory1 = story_history memory
          /\ user_preferences memory1 = user_preferences memory
          /\ world_details memory1 = world_details memory) as Hkeep.
  { destruct Hmem as [->| ->]; repeat split. }
  destruct Hkeep as (H1 & H2 & H3 & H4).
  destruct is_episode; cbn [working_memory].
  - repeat split; auto. discriminate.
    unfold drafted, announced, after_call, after_write; simpl.
    now rewrite <- !app_assoc.
  - repeat split; auto. discriminate.
    unfold drafted, announced, after_call, after_write; simpl.
    now rewrite <- !app_assoc.
Qed.

Lemma failed_turn_effect_witness :
  exists memory' w',
    main_turn new_StoryMemory 0 failing_world = (Ok (Again memory' 0), w')
    /\ current_story memory' = ""
    /\ story_history memory' = []
    /\ genre memory' = "fairy_tale".
Proof.
  destruct (failed_turn_effect new_StoryMemory 0 failing_world
              (after_input first_prompt failing_world)
              "a princess in a castle" false new_StoryMemory)
    as (memory' & w' & Hturn & Hstory & Hhistory & _ & _ & _ & Hgenre & _).
  - reflexivity.
  - reflexivity.
  - discriminate.
  - reflexivity.
  - exists memory', w'. repeat split; auto.
Defined.

(** The claim of C3 fails on the genre and on the characters.  A first
    turn whose draft call fails leaves the genre of the failed request in a
    memory that had none.  A later turn after which the assessment and the
    draft call fail leaves the memory without the character it had. *)
Lemma failed_turn_changes_memory :
  story_of (generate_story "a princess in a castle" new_StoryMemory false
              (after_write [Py.nl] (after_input first_prompt failing_world)))
  = None
  /\ fst (main_turn new_StoryMemory 0 failing_world)
     = Ok (Again (set_genre "fairy_tale" new_StoryMemory) 0)
  /\ genre (set_genre "fairy_tale" new_StoryMemory) <> genre new_StoryMemory
  /\ reachable (Again sample_memory 1)
  /\ fst (main_turn sample_memory 1 failing_second_world)
     = Ok (Again (set_genre "fairy_tale" (set_characters [] sample_memory)) 1)
  /\ characters (set_genre "fairy_tale" (set_characters [] sample_memory))
     <> characters sample_memory.
Proof.
  repeat split; try discriminate; try exact sample_reachable;
    vm_compute; reflexivity.
Qed.

(** ** Termination of the loops *)

Lemma consumes_keeps {A : Type} (c : M A) : consumes_input c -> keeps_input c.
Proof. intros H w a w' Hrun. apply H in Hrun. lia. Qed.

Lemma keeps_ret {A : Type} (a : A) : keeps_input (ret a).
Proof. intros w b w' H. apply ret_inv in H as [_ <-]. lia. Qed.

Lemma keeps_bind {A B : Type} (c : M A) (k : A -> M B) :
  keeps_input c -> (forall a, keeps_input (k a)) -> keeps_input (bind c k).
Proof.
  intros Hc Hk w b w' H. bind_inv_in H.
  apply Hc in Hrun. apply Hk in H. lia.
Qed.

Lemma consumes_bind_l {A B : Type} (c : M A) (k : A -> M B) :
  consumes_input c -> (forall a, keeps_input (k a)) ->
  consumes_input (bind c k).
Proof.
  intros Hc Hk w b w' H. bind_inv_in H.
  apply Hc in Hrun. apply Hk in H. lia.
Qed.

Lemma consumes_bind_r {A B : Type} (c : M A) (k : A -> M B) :
  keeps_input c -> (forall a, consumes_input (k a)) ->
  consumes_input (bind c k).
Proof.
  intros Hc Hk w b w' H. bind_inv_in H.
  apply Hc in Hrun. apply Hk in H. lia.
Qed.

Lemma keeps_write (s : string) : keeps_input (write s).
Proof. intros w a w' H. injection H as _ <-. simpl. lia. Qed.

Lemma keeps_print (s : string) : keeps_input (print s).
Proof. apply keeps_write. Qed.

Lemma consumes_read_line : consumes_input read_line.
Proof.
  intros w a w'. unfold read_line.
  destruct (stdin w) as [|line rest] eqn:Hin; [discriminate|].
  intros H. injection H as _ <-. simpl. lia.
Qed.

Lemma consumes_input_prompt (prompt : string) : consumes_input (input prompt).
Proof.
  apply consumes_bind_r; [apply keeps_write | intros _; apply consumes_read_line].
Qed.

Lemma keeps_call_model (prompt : string) (max_tokens : nat) :
  keeps_input (call_model prompt max_tokens).
Proof.
  intros w a w'. rewrite call_model_eq. intros H. injection H as _ <-.
  simpl. lia.
Qed.

Lemma keeps_generate_story (user_input : string) (memory : StoryMemory)
  (is_episode : bool) :
  keeps_input (generate_story user_input memory is_episode).
Proof.
  intros w a w' H.
  pose proof (generate_story_stdin user_input memory is_episode w) as Hin.
  rewrite H in Hin. simpl in Hin. rewrite Hin. lia.
Qed.

(** The composite computations keep the input: every part does. *)
Ltac keeps_step :=
  first
    [ apply keeps_ret
    | apply keeps_print
    | apply keeps_write
    | apply keeps_call_model
    | apply keeps_generate_story
    | apply consumes_keeps; apply consumes_read_line
    | apply consumes_keeps; apply consumes_input_prompt
    | apply keeps_bind; [|intros ?]
    | match goal with
      | |- keeps_input (if ?b then _ else _) => destruct b
      | |- keeps_input (match ?x with _ => _ end) => destruct x
      end ].

Lemma keeps_get_user_feedback : keeps_input get_user_feedback.
Proof.
  unfold get_user_feedback, print_end_space. repeat keeps_step.
Qed.

Lemma keeps_revise (story user_request : string) (feedback : Feedback) :
  keeps_input (revise_story_with_feedback story feedback user_request).
Proof. unfold revise_story_with_feedback. repeat keeps_step. Qed.

Lemma keeps_present_story (story user_input : string) (is_episode : bool)
  (memory : StoryMemory) (story_count : nat) :
  keeps_input (present_story story user_input is_episode memory story_count).
Proof.
  unfold present_story.
  repeat first [apply keeps_get_user_feedback | apply keeps_revise | keeps_step].
Qed.

Lemma keeps_serve_request (user_input : string) (is_episode : bool)
  (memory : StoryMemory) (story_count : nat) :
  keeps_input (serve_request user_input is_episode memory story_count).
Proof.
  unfold serve_request, print_blank.
  repeat first [apply keeps_present_story | keeps_step].
Qed.

Lemma keeps_assess (story : string) (memory : StoryMemory) :
  keeps_input (assess_story_quality story memory).
Proof. unfold assess_story_quality. repeat keeps_step. Qed.

Lemma consumes_choice_loop (fuel : nat) : consumes_input (choice_loop fuel).
Proof.
  assert (forall again, keeps_input again ->
                        consumes_input (choice_turn again)) as Hturn.
  { intros again Hagain. unfold choice_turn.
    apply consumes_bind_l; [apply consumes_input_prompt|].
    intros line. destruct (one_of (Py.strip line) ["1"; "2"; "3"]).
    - apply keeps_ret.
    - apply keeps_bind; [apply keeps_print | intros _; exact Hagain]. }
  induction fuel as [|fuel IH]; simpl; apply Hturn.
  - intros w a w' H. discriminate.
  - apply consumes_keeps, IH.
Qed.

Lemma consumes_get_user_choice (memory : StoryMemory) :
  consumes_input (get_user_choice memory).
Proof.
  unfold get_user_choice.
  do 4 (apply consumes_bind_r; [apply keeps_print | intros _]).
  intros w a w' H. eapply consumes_choice_loop; exact H.
Qed.

Lemma consumes_next_request (memory : StoryMemory) (story_count : nat) :
  consumes_input (next_request memory story_count).
Proof.
  unfold next_request. destruct (story_count =? 0).
  - apply consumes_bind_l; [apply consumes_input_prompt | intros; apply keeps_ret].
  - apply consumes_bind_r; [apply keeps_assess | intros good].
    destruct good.
    + apply consumes_bind_l; [apply consumes_get_user_choice | intros choice].
      repeat keeps_step.
    + apply consumes_bind_l; [apply consumes_input_prompt | intros; apply keeps_ret].
Qed.

(** Every turn of the loop of [main] that ends has read a line. *)
Lemma consumes_main_turn (memory : StoryMemory) (story_count : nat) :
  consumes_input (main_turn memory story_count).
Proof.
  unfold main_turn.
  apply consumes_bind_l; [apply consumes_next_request | intros request].
  destruct request as [[[user_input is_episode] memory1]|].
  - apply keeps_serve_request.
  - apply keeps_ret.
Qed.

(** With more fuel than there are lines to read, the loop of [main] does
    not use up its fuel: the session ends, by leaving the loop or by
    [EOFError]. *)
Lemma main_loop_fuel (fuel : nat) (memory : StoryMemory) (story_count : nat)
  (w : World) :
  length (stdin w) < fuel ->
  fst (main_loop fuel memory story_count w) <> Ok None.
Proof.
  revert memory story_count w.
  induction fuel as [|fuel IH]; intros memory story_count w Hlen; [lia|].
  simpl. unfold bind.
  destruct (main_turn memory story_count w) as [[flow|e] w'] eqn:Hturn;
    [|discriminate].
  destruct flow as [memory' story_count'|memory' story_count'];
    [|discriminate].
  apply IH. apply consumes_main_turn in Hturn. lia.
Qed.

(** The loop of [get_user_choice] does not depend on fuel beyond the
    number of lines: the turn that stands for the rest of the loop when the
    fuel is used up is never reached. *)
Lemma choice_loop_fuel (fuel : nat) (w : World) :
  length (stdin w) <= fuel ->
  choice_loop fuel w = choice_loop (length (stdin w)) w.
Proof.
  assert (forall n m w, length (stdin w) <= n -> length (stdin w) <= m ->
                        choice_loop n w = choice_loop m w) as Hany.
  { induction n as [|n IH]; intros m w0 Hn Hm.
    - destruct (stdin w0) as [|line rest] eqn:Hin; [|simpl in Hn; lia].
      destruct m; simpl; unfold choice_turn, bind;
        rewrite (input_eof _ w0 Hin); reflexivity.
    - destruct (stdin w0) as [|line rest] eqn:Hin.
      + destruct m; simpl; unfold choice_turn, bind;
          rewrite (input_eof _ w0 Hin); reflexivity.
      + destruct m as [|m]; [simpl in Hm; lia|].
        simpl. unfold choice_turn, bind.
        rewrite (input_eq _ line rest w0 Hin).
        destruct (one_of (Py.strip line) ["1"; "2"; "3"]); [reflexivity|].
        rewrite print_eq. apply IH; simpl; rewrite Hin; simpl in *; lia. }
  intros Hlen. apply Hany; [exact Hlen | lia].
Qed.

(** What [main] returns is a state that the session reaches. *)
Lemma main_loop_reachable (fuel : nat) (memory : StoryMemory)
  (story_count : nat) (w w' : World) (memory' : StoryMemory)
  (story_count' : nat) :
  reachable (Again memory story_count) ->
  main_loop fuel memory story_count w = (Ok (Some (memory', story_count')), w') ->
  reachable (Break memory' story_count').
Proof.
  revert memory story_count w.
  induction fuel as [|fuel IH]; intros memory story_count w Hreach; simpl.
  - intros H. apply ret_inv in H as [H _]. discriminate.
  - intros H. bind_inv_in H.
    pose proof (reachable_turn _ _ _ _ _ Hreach Hrun) as Hnext.
    destruct a as [memory1 story_count1|memory1 story_count1].
    + eapply IH; eassumption.
    + apply ret_inv in H as [H _]. injection H as <- <-. exact Hnext.
Qed.

Lemma main_reachable (w w' : World) (memory : StoryMemory)
  (story_count : nat) :
  main w = (Ok (Some (memory, story_count)), w') ->
  reachable (Break memory story_count).
Proof.
  unfold main. intros H. do 2 bind_inv_in H.
  destruct (negb (Py.truthy_opt a0)).
  - do 9 bind_inv_in H. apply ret_inv in H as [H _]. discriminate.
  - bind_inv_in H. destruct a1 as [[memory1 story_count1]|].
    + bind_inv_in H. apply ret_inv in H as [H _]. injection H as <- <-.
      eapply main_loop_reachable; [apply reachable_start | exact Hrun1].
    + apply ret_inv in H as [H _]. discriminate.
Qed.

(** A whole session: the first turn of [sample_world], then a request to
    quit.  The assessment of the second turn gets no answer, so the
    characters are cleared before the request is read. *)
Example main_session :
  fst (main
         (fresh_world
            [ Content "Tom the mouse set out.";
              Content "Nice. 4/5";
              Content "Tom the brave mouse set out.";
              Content "Tom: a small mouse, the hero | personality: brave, kind | relationships: Alice-best friend" ]
            [ "A brave little mouse"; "3"; "quit" ]))
  = Ok (Some (set_characters [] sample_memory, 1)).
Proof. vm_compute. reflexivity. Qed.

(** * Further properties *)

(** ** The model gateway *)

(** X1.  Without a credential, missing or empty, the gateway returns
    nothing, sends no request, reads nothing and prints the five lines that
    say how to set the key. *)
Theorem call_model_without_credential (prompt : string) (max_tokens : nat)
  (w : World) :
  api_key w = None \/ api_key w = Some "" ->
  exists w',
    call_model prompt max_tokens w = (Ok None, w')
    /\ calls w' = calls w
    /\ stdin w' = stdin w
    /\ stdout w' = (stdout w ++ missing_key_lines)%list.
Proof.
  intros Hkey. rewrite call_model_eq. eexists. split; [|split; [|split]].
  - unfold reply. now destruct Hkey as [-> | ->].
  - unfold after_call, sent; simpl.
    destruct Hkey as [-> | ->]; simpl; apply app_nil_r.
  - reflexivity.
  - unfold after_call, diagnostics; simpl.
    now destruct Hkey as [-> | ->].
Qed.

Lemma call_model_without_credential_witness :
  exists w',
    call_model "Tell a story" 3000
      {| api_key := None; backend := script []; calls := [];
         stdin := ["quit"]; stdout := [] |}
    = (Ok None, w')
    /\ calls w' = [] /\ stdin w' = ["quit"].
Proof.
  destruct (call_model_without_credential "Tell a story" 3000
              {| api_key := None; backend := script []; calls := [];
                 stdin := ["quit"]; stdout := [] |})
    as (w' & Hrun & Hcalls & Hin & _).
  - now left.
  - exists w'. auto.
Defined.

(** X2.  With a credential the gateway sends exactly one request, the
    prompt with its [max_tokens], and reads nothing.  A completion is
    returned as it is and nothing is printed; a failure of the backend is
    not raised: nothing is returned and two lines are printed, the first
    with the message of the failure.  There is no second attempt. *)
Theorem call_model_single_request (prompt key : string) (max_tokens : nat)
  (w : World) :
  api_key w = Some key -> key <> "" ->
  exists r w',
    call_model prompt max_tokens w = (Ok r, w')
    /\ calls w' = (calls w ++ [(prompt, max_tokens)])%list
    /\ stdin w' = stdin w
    /\ match backend w (length (calls w)) with
       | Content text => r = Some text /\ stdout w' = stdout w
       | Failure e =>
           r = None
           /\ stdout w' =
              (stdout w
               ++ [ ("❌ Error calling OpenAI API: " ++ e ++ Py.nl)%string;
                    ("Please check your API key and internet connection."
                       ++ Py.nl)%string ])%list
       end.
Proof.
  intros Hkey Hne. rewrite call_model_eq. eexists _, _.
  split; [reflexivity|].
  assert (Py.truthy_opt (api_key w) = true) as Htrue.
  { rewrite Hkey. destruct key; [contradiction | reflexivity]. }
  unfold after_call, sent, reply, diagnostics; simpl. rewrite Htrue.
  split; [reflexivity|]. split; [reflexivity|].
  rewrite Nat.add_0_r.
  destruct (backend w (length (calls w))); split; auto.
  apply app_nil_r.
Qed.

Lemma call_model_single_request_witness :
  exists r w',
    call_model "Tell a story" 3000 (fresh_world [Failure "timeout"] [])
    = (Ok r, w')
    /\ calls w' = [("Tell a story", 3000)]
    /\ r = None.
Proof.
  destruct (call_model_single_request "Tell a story" "sk-test" 3000
              (fresh_world [Failure "timeout"] []) eq_refl)
    as (r & w' & Hrun & Hcalls & _ & Hres).
  - discriminate.
  - exists r, w'. split; [exact Hrun|]. split; [exact Hcalls|].
    exact (proj1 Hres).
Defined.

(** ** Prompts *)

Lemma append_assoc (a b c : string) : (a ++ b) ++ c = a ++ b ++ c.
Proof. induction a as [|x a IH]; simpl; [reflexivity | now rewrite IH]. Qed.

Lemma append_empty_r (a : string) : a ++ "" = a.
Proof. induction a as [|x a IH]; simpl; [reflexivity | now rewrite IH]. Qed.

Lemma contains_refl (x : string) : Py.contains x x = true.
Proof. apply contains_split. exists "", "". simpl. now rewrite append_empty_r. Qed.

Lemma contains_head (x r : string) : Py.contains x (x ++ r) = true.
Proof. apply contains_split. now exists "", r. Qed.

Lemma contains_skip (x a s : string) :
  Py.contains x s = true -> Py.contains x (a ++ s) = true.
Proof.
  intros H. apply contains_split in H as (p & q & ->).
  apply contains_split. exists (a ++ p), q. now rewrite append_assoc.
Qed.

Lemma contains_before (x s b : string) :
  Py.contains x s = true -> Py.contains x (s ++ b) = true.
Proof.
  intros H. apply contains_split in H as (p & q & ->).
  apply contains_split. exists p, (q ++ b). now rewrite !append_assoc.
Qed.

Lemma contains_trans (x y z : string) :
  Py.contains x y = true -> Py.contains y z = true -> Py.contains x z = true.
Proof.
  intros Hxy Hyz. apply contains_split in Hyz as (p & q & ->).
  apply contains_skip. now apply contains_before.
Qed.

Lemma contains_join_here (x sep s : string) (r : list string) :
  Py.contains x s = true -> Py.contains x (Py.join sep (s :: r)) = true.
Proof.
  intros H. destruct r as [|y r]; [exact H|].
  change (Py.contains x (s ++ sep ++ Py.join sep (y :: r)) = true).
  now apply contains_before.
Qed.

Lemma contains_join_later (x sep s : string) (r : list string) :
  Py.contains x (Py.join sep r) = true ->
  Py.contains x (Py.join sep (s :: r)) = true.
Proof.
  intros H. destruct r as [|y r].
  - apply contains_split in H as (p & q & H). simpl in H.
    destruct p; [|discriminate]. destruct x; [|discriminate].
    apply contains_split. now exists "", s.
  - change (Py.contains x (s ++ sep ++ Py.join sep (y :: r)) = true).
    now apply contains_skip, contains_skip.
Qed.


(** A text that stands, as it is written, in a concatenation. *)
Ltac find_in_text :=
  lazymatch goal with
  | |- Py.contains ?x ?x = true => apply contains_refl
  | |- Py.contains ?x (?x ++ _) = true => apply contains_head
  | |- Py.contains ?x (_ ++ ?s) = true => apply contains_skip; find_in_text
  end.

(** A text that stands in one of the lines of a text. *)
Ltac find_in_lines :=
  lazymatch goal with
  | |- Py.contains ?x (Py.join _ (_ :: _)) = true =>
      first [ apply contains_join_here; find_in_text
            | apply contains_join_later; find_in_lines ]
  end.

(** X3.  The prompt of [get_genre_prompt] holds, word for word, the
    request, the name of the genre and the elements (joined by commas), the
    tone, the structure and the vocabulary of the template of the genre; a
    genre without a template gets the template of [adventure].  An episode
    adds the line on continuity, and the prompt always ends with the
    request to write the story. *)
Theorem get_genre_prompt_embeds (genre_ user_request : string)
  (is_episode : bool) :
  let t := template_of genre_ in
  let p := get_genre_prompt genre_ user_request is_episode in
  Py.contains user_request p = true
  /\ Py.contains genre_ p = true
  /\ Py.contains (Py.join ", " (elements t)) p = true
  /\ Py.contains (tone t) p = true
  /\ Py.contains (structure t) p = true
  /\ Py.contains (vocabulary t) p = true
  /\ (is_episode = true ->
      Py.contains "This is a continuation episode" p = true)
  /\ (exists before,
        p = before ++ Py.nl ++ Py.nl ++ "Please write the complete story now:")
  /\ (dict_get genre_ GENRE_TEMPLATES = None ->
      dict_get "adventure" GENRE_TEMPLATES = Some t).
Proof.
  cbv zeta. unfold get_genre_prompt, template_of, text_lines.
  set (t := match dict_get genre_ GENRE_TEMPLATES with
            | Some t => t
            | None => adventure_template
            end).
  repeat split.
  1-6: apply contains_before; destruct is_episode;
       [apply contains_before|]; find_in_lines.
  - intros ->. apply contains_before, contains_skip, contains_skip.
    apply contains_before. reflexivity.
  - eexists. reflexivity.
  - intros Hnone. unfold t. now rewrite Hnone.
Qed.

(** ** Genre detection *)

Lemma lower_upper_char (c : ascii) :
  Py.lower_char (Py.upper_char c) = Py.lower_char c.
Proof. destruct c as [[] [] [] [] [] [] [] []]; reflexivity. Qed.

Lemma lower_lower_char (c : ascii) :
  Py.lower_char (Py.lower_char c) = Py.lower_char c.
Proof. destruct c as [[] [] [] [] [] [] [] []]; reflexivity. Qed.

Lemma lower_upper (s : string) : Py.lower (Py.upper s) = Py.lower s.
Proof.
  induction s as [|c s IH]; simpl; [reflexivity|].
  now rewrite lower_upper_char, IH.
Qed.

Lemma lower_lower (s : string) : Py.lower (Py.lower s) = Py.lower s.
Proof.
  induction s as [|c s IH]; simpl; [reflexivity|].
  now rewrite lower_lower_char, IH.
Qed.

(** X4.  Genre detection does not depend on the case of the letters of an
    ASCII request: the request in upper case and the request in lower case
    get the genre of the request as written. *)
Theorem detect_genre_case_insensitive (user_request : string) :
  ascii_only user_request = true ->
  detect_genre (Py.upper user_request) = detect_genre user_request
  /\ detect_genre (Py.lower user_request) = detect_genre user_request.
Proof.
  intros _. unfold detect_genre. now rewrite lower_upper, lower_lower.
Qed.

Lemma detect_genre_case_insensitive_witness :
  detect_genre (Py.upper "A Wizard and a Unicorn") = "fantasy"
  /\ detect_genre (Py.lower "A Wizard and a Unicorn") = "fantasy".
Proof.
  assert (detect_genre "A Wizard and a Unicorn" = "fantasy") as <-
    by (vm_compute; reflexivity).
  apply detect_genre_case_insensitive. reflexivity.
Defined.

Lemma detect_genre_in_genres (user_request : string) :
  In (detect_genre user_request) genres.
Proof.
  pose proof (detect_genre_is_max user_request) as Hmax.
  apply py_max_first in Hmax as (i & Hi & _).
  eapply nth_error_In; exact Hi.
Qed.

(** X5.  The genre that is detected is one of the five tags and has a
    template of its own: the tables of keywords and of templates have the
    same tags in the same order, so for a detected genre
    [get_genre_prompt] never falls back to the template of another
    genre. *)
Theorem detect_genre_has_template (user_request : string) :
  In (detect_genre user_request)
     ["adventure"; "fairy_tale"; "educational"; "friendship"; "fantasy"]
  /\ dict_keys GENRE_TEMPLATES = dict_keys genre_keywords
  /\ exists t,
       dict_get (detect_genre user_request) GENRE_TEMPLATES = Some t
       /\ template_of (detect_genre user_request) = t.
Proof.
  pose proof (detect_genre_in_genres user_request) as Hin.
  split; [exact Hin|]. split; [reflexivity|].
  unfold template_of.
  simpl in Hin.
  repeat (destruct Hin as [<-|Hin]; [eexists; split; reflexivity|]).
  contradiction.
Qed.

(** X6.  The keyword [magic] of fairy tales stands inside the keyword
    [magical] of fantasy, so a request that says [magical] always counts
    for fairy tales too: when [magical] is the only fantasy keyword of the
    request, the genre detected is not fantasy. *)
Theorem magical_alone_is_not_fantasy (user_request : string) :
  Py.contains "magical" (Py.lower user_request) = true ->
  (forall k, In k ["wizard"; "unicorn"; "fantasy"; "mystical"; "enchanted"] ->
             Py.contains k (Py.lower user_request) = false) ->
  0 < occurrence_count "fairy_tale" user_request
  /\ detect_genre user_request <> "fantasy".
Proof.
  intros Hmagical Hothers.
  assert (0 < occurrence_count "fairy_tale" user_request) as Hfairy.
  { unfold occurrence_count, count_in.
    apply (keyword_score_pos _ _ "magic"); [simpl; tauto|].
    apply (contains_trans "magic" "magical"); [reflexivity | exact Hmagical]. }
  split; [exact Hfairy|]. intros Hfantasy.
  assert (occurrence_count "fantasy" user_request = 1) as Hone.
  { unfold occurrence_count, count_in, keyword_score. simpl.
    rewrite Hmagical.
    rewrite !Hothers by (simpl; tauto). reflexivity. }
  pose proof (detect_genre_is_max user_request) as Hmax.
  apply py_max_first in Hmax as (i & Hi & _ & Hbefore).
  rewrite Hfantasy in Hi, Hbefore.
  do 4 (destruct i as [|i]; [discriminate Hi|]).
  specialize (Hbefore 1 "fairy_tale"). simpl in Hbefore.
  assert (occurrence_count "fairy_tale" user_request
          < occurrence_count "fantasy" user_request)
    by (apply Hbefore; [lia | reflexivity]).
  lia.
Qed.

Lemma magical_alone_is_not_fantasy_witness :
  detect_genre "A magical forest" <> "fantasy".
Proof.
  apply (magical_alone_is_not_fantasy "A magical forest").
  - reflexivity.
  - intros k Hk. simpl in Hk.
    repeat (destruct Hk as [<-|Hk]; [reflexivity|]). contradiction.
Defined.

(** ** Feedback *)

Lemma same_requests_refl (w : World) : same_requests w w.
Proof. repeat split. Qed.

Lemma same_requests_trans (w1 w2 w3 : World) :
  same_requests w1 w2 -> same_requests w2 w3 -> same_requests w1 w3.
Proof.
  intros (H1 & H2 & H3) (H4 & H5 & H6). repeat split; congruence.
Qed.

Lemma write_inv (s : string) (w w' : World) (a : unit) :
  write s w = (Ok a, w') ->
  same_requests w w' /\ stdin w' = stdin w
  /\ stdout w' = (stdout w ++ [s])%list.
Proof. intros H. injection H as _ <-. repeat split. Qed.

Lemma print_inv (s : string) (w w' : World) (a : unit) :
  print s w = (Ok a, w') ->
  same_requests w w' /\ stdin w' = stdin w
  /\ stdout w' = (stdout w ++ [(s ++ Py.nl)%string])%list.
Proof. apply write_inv. Qed.

Lemma read_line_inv (w w' : World) (line : string) :
  read_line w = (Ok line, w') ->
  same_requests w w' /\ stdin w = line :: stdin w'
  /\ stdout w' = stdout w.
Proof.
  unfold read_line. destruct (stdin w) as [|l rest] eqn:Hin; [discriminate|].
  intros H. injection H as <- <-. repeat split.
Qed.

Lemma rating_of_bound (line : string) : rating_of line <= 5.
Proof.
  unfold rating_of. cbv zeta.
  destruct (Py.isdigit (Py.strip line)); cbn [andb]; [|lia].
  destruct (1 <=? Py.int (Py.strip line)); cbn [andb]; [|lia].
  destruct (Py.int (Py.strip line) <=? 5) eqn:E; [|lia].
  now apply Nat.leb_le in E.
Qed.

(** What a run of [get_user_feedback] that returns has done. *)
Lemma get_user_feedback_inv (w w' : World) (fb : Feedback) :
  get_user_feedback w = (Ok fb, w') ->
  same_requests w w'
  /\ exists line rest,
       stdin w = line :: rest
       /\ rating fb = rating_of line
       /\ (((rating fb = 0 \/ rating fb = 3)
            /\ feedback_text fb = "" /\ stdin w' = rest)
           \/ ((rating fb = 1 \/ rating fb = 2 \/ rating fb = 4
                \/ rating fb = 5)
               /\ exists comment,
                    rest = comment :: stdin w'
                    /\ feedback_text fb = Py.strip comment)).
Proof.
  unfold get_user_feedback. intros H.
  bind_inv_in H. apply print_inv in Hrun as (Hs1 & Hi1 & _).
  bind_inv_in H. apply write_inv in Hrun as (Hs2 & Hi2 & _).
  bind_inv_in H. apply read_line_inv in Hrun as (Hs3 & Hi3 & _).
  fold (rating_of a1) in H.
  pose proof (rating_of_bound a1) as Hbound.
  bind_inv_in H. apply ret_inv in H as [<- <-]. cbn [rating feedback_text].
  assert (same_requests w w2) as Hs
    by (eapply same_requests_trans; [|exact Hs3];
        eapply same_requests_trans; eassumption).
  assert (stdin w = a1 :: stdin w2) as Hin by congruence.
  destruct (0 <? rating_of a1) eqn:Hpos.
  - apply Nat.ltb_lt in Hpos.
    destruct (rating_of a1 <=? 2) eqn:Hlow.
    + apply Nat.leb_le in Hlow.
      bind_inv_in Hrun. apply write_inv in Hrun0 as (Hs4 & Hi4 & _).
      bind_inv_in Hrun. apply read_line_inv in Hrun0 as (Hs5 & Hi5 & _).
      apply ret_inv in Hrun as [<- <-].
      split; [eapply same_requests_trans; [exact Hs|];
              eapply same_requests_trans; eassumption|].
      exists a1, (stdin w2). repeat split; auto.
      right. split; [lia|]. eexists. split; [|reflexivity]. congruence.
    + apply Nat.leb_gt in Hlow.
      destruct (4 <=? rating_of a1) eqn:Hhigh.
      * apply Nat.leb_le in Hhigh.
        bind_inv_in Hrun. apply write_inv in Hrun0 as (Hs4 & Hi4 & _).
        bind_inv_in Hrun. apply read_line_inv in Hrun0 as (Hs5 & Hi5 & _).
        apply ret_inv in Hrun as [<- <-].
        split; [eapply same_requests_trans; [exact Hs|];
                eapply same_requests_trans; eassumption|].
        exists a1, (stdin w2). repeat split; auto.
        right. split; [lia|]. eexists. split; [|reflexivity]. congruence.
      * apply Nat.leb_gt in Hhigh.
        apply ret_inv in Hrun as [<- <-]. split; [exact Hs|].
        exists a1, (stdin w2). repeat split; auto.
        left. split; [lia|]. auto.
  - apply Nat.ltb_ge in Hpos.
    apply ret_inv in Hrun as [<- <-]. split; [exact Hs|].
    exists a1, (stdin w2). repeat split; auto.
    left. split; [lia|]. auto.
Qed.

(** X7.  On a console of plain lines, the feedback that
    [get_user_feedback] returns has a rating between 0 and 5, read off the
    first line; a rating of 0 (skipped or not valid) or of 3 comes with an
    empty comment and costs one line, any other rating comes with the
    second line, stripped, as the comment.  No request is sent. *)
Theorem get_user_feedback_bounds (w w' : World) (fb : Feedback) :
  Forall (fun l => plain_line l = true) (stdin w) ->
  get_user_feedback w = (Ok fb, w') ->
  rating fb <= 5
  /\ calls w' = calls w
  /\ exists line rest,
       stdin w = line :: rest
       /\ rating fb = rating_of line
       /\ (rating fb = 0 \/ rating fb = 3 ->
           feedback_text fb = "" /\ stdin w' = rest)
       /\ (rating fb <> 0 -> rating fb <> 3 ->
           exists comment,
             rest = comment :: stdin w'
             /\ feedback_text fb = Py.strip comment).
Proof.
  intros _ H. apply get_user_feedback_inv in H
    as ((_ & _ & Hcalls) & line & rest & Hin & Hrating & Hcases).
  split; [rewrite Hrating; apply rating_of_bound|].
  split; [exact Hcalls|].
  exists line, rest. split; [exact Hin|]. split; [exact Hrating|].
  destruct Hcases as [(Hr & Htext & Hrest) | (Hr & comment & Hrest & Htext)].
  - split; [auto|]. intros H0 H3. destruct Hr; contradiction.
  - split.
    + intros [H0|H3]; lia.
    + intros _ _. now exists comment.
Qed.

Lemma get_user_feedback_bounds_witness :
  exists fb w',
    get_user_feedback (fresh_world [] [" 4 "; " lovely "; "next line"])
    = (Ok fb, w')
    /\ rating fb = 4 /\ feedback_text fb = "lovely"
    /\ stdin w' = ["next line"].
Proof.
  destruct (get_user_feedback_returns
              (fresh_world [] [" 4 "; " lovely "; "next line"]))
    as (fb & w' & Hrun); [simpl; lia|].
  exists fb, w'. split; [exact Hrun|].
  assert (Forall (fun l => plain_line l = true)
            (stdin (fresh_world [] [" 4 "; " lovely "; "next line"])))
    as Hplain by (repeat constructor).
  destruct (get_user_feedback_bounds _ _ _ Hplain Hrun)
    as (_ & _ & line & rest & Hin & Hrating & _ & Hcomment).
  injection Hin as <- <-.
  assert (rating fb = 4) as H4 by exact Hrating.
  destruct Hcomment as (comment & Hrest & Htext); [lia | lia |].
  injection Hrest as <- <-.
  split; [exact H4|]. split; [exact Htext | reflexivity].
Defined.

(** The ratings that are not valid are skips: a line that is not a number
    from 1 to 5, like 7, 0, a word or nothing, gives the rating 0. *)
Example rating_of_examples :
  rating_of "7" = 0 /\ rating_of "0" = 0 /\ rating_of "great" = 0
  /\ rating_of "" = 0 /\ rating_of "-1" = 0 /\ rating_of "4.5" = 0
  /\ rating_of " 4 " = 4 /\ rating_of "005" = 5.
Proof. repeat split. Qed.

(** What a run of [present_story] that returns has done: the feedback was
    read, the story was revised or not, and the result was stored. *)
Lemma present_story_inv (story user_input : string) (is_episode : bool)
  (memory : StoryMemory) (story_count : nat) (w w' : World)
  (memory' : StoryMemory) (story_count' : nat) :
  present_story story user_input is_episode memory story_count w
  = (Ok (memory', story_count'), w') ->
  exists fb shown w0 w1,
    get_user_feedback w0 = (Ok fb, w1)
    /\ same_requests w w0
    /\ stdin w0 = stdin w
    /\ stdin w' = stdin w1
    /\ story_count' = story_count + 1
    /\ memory' =
       (if 4 <=? rating fb
        then note_preference
               (add_story memory shown (genre memory) user_input (rating fb))
        else add_story memory shown (genre memory) user_input (rating fb))
    /\ ((shown = story /\ calls w' = calls w1
         /\ ((rating fb <=? 2) && Py.truthy (feedback_text fb)) = false)
        \/ ((rating fb = 1 \/ rating fb = 2)
            /\ feedback_text fb <> ""
            /\ shown = final_text story (reply w1 0)
            /\ calls w' =
               (calls w1
                ++ sent (revision_prompt story fb user_input) 3000 w1)%list)).
Proof.
  unfold present_story. intros H.
  bind_inv_in H. apply print_inv in Hrun as (Hs1 & Hi1 & _).
  bind_inv_in H. apply print_inv in Hrun as (Hs2 & Hi2 & _).
  bind_inv_in H. apply print_inv in Hrun as (Hs3 & Hi3 & _).
  bind_inv_in H. apply print_inv in Hrun as (Hs4 & Hi4 & _).
  bind_inv_in H. rename a3 into fb. rename Hrun into Hfb.
  bind_inv_in H. rename a3 into shown.
  apply ret_inv in H as [H <-]. injection H as <- <-.
  exists fb, shown, w3, w4.
  split; [exact Hfb|].
  split; [repeat (eapply same_requests_trans; [eassumption|]);
          apply same_requests_refl|].
  split; [congruence|].
  pose proof (get_user_feedback_inv _ _ _ Hfb) as (_ & line & rest & _ & _ & Hcases).
  destruct ((rating fb <=? 2) && Py.truthy (feedback_text fb)) eqn:Hgate.
  - apply andb_prop in Hgate as [Hlow Htext]. apply Nat.leb_le in Hlow.
    assert (feedback_text fb <> "") as Hne
      by (destruct (feedback_text fb); [discriminate | discriminate]).
    assert (rating fb = 1 \/ rating fb = 2) as Hr.
    { destruct Hcases as [(_ & Hempty & _) | (Hr & _)]; [congruence | lia]. }
    bind_inv_in Hrun. apply print_inv in Hrun0 as (Hs5 & Hi5 & _).
    bind_inv_in Hrun.
    rewrite revise_story_with_feedback_calls in Hrun0 by (auto; lia).
    injection Hrun0 as <- <-.
    assert (reply w6 0 = reply w4 0) as Hreply.
    { destruct Hs5 as (Hk & Hb & Hc). unfold reply. now rewrite Hk, Hb, Hc. }
    assert (sent (revision_prompt story fb user_input) 3000 w6
            = sent (revision_prompt story fb user_input) 3000 w4) as Hsent.
    { destruct Hs5 as (Hk & _). unfold sent. now rewrite Hk. }
    assert (calls w6 = calls w4) as Hcalls by (apply Hs5).
    assert (shown = final_text story (reply w4 0)
            /\ stdin w5 = stdin w4
            /\ calls w5 = (calls w4
                 ++ sent (revision_prompt story fb user_input) 3000 w4)%list)
      as (Hshown & Hin & Hc).
    { rewrite <- Hreply, <- Hsent, <- Hcalls.
      destruct (negb (String.eqb (final_text story (reply w6 0)) story))
        eqn:Hdiff.
      - do 4 (bind_inv_in Hrun;
              match goal with
              | Hp : print _ _ = _ |- _ =>
                  apply print_inv in Hp as ((_ & _ & ?) & ? & _)
              end).
        apply ret_inv in Hrun as [<- <-].
        repeat split; simpl in *; congruence.
      - apply ret_inv in Hrun as [<- <-].
        apply negb_false_iff, String.eqb_eq in Hdiff.
        repeat split; auto; try (simpl; congruence). }
    split; [exact Hin|]. split; [reflexivity|]. split; [reflexivity|].
    right. auto.
  - apply ret_inv in Hrun as [<- <-].
    split; [reflexivity|]. split; [reflexivity|]. split; [reflexivity|].
    left. auto.
Qed.

(** X8.  [present_story] sends a request only to revise.  On a console of
    plain lines, the rating is read off the first line.  When it is 1 or 2
    the next line is the comment: with a comment that is not empty once
    stripped, one request with the revision prompt is sent and the story
    stored is the reply, or the story shown when there is no reply; with an
    empty comment no request is sent and the story is stored as shown.
    With any other rating no request is sent and the story is stored as
    shown.  The counter goes up by one in every case. *)
Theorem revision_only_for_low_ratings (story user_input : string)
  (is_episode : bool) (memory : StoryMemory) (story_count : nat)
  (w w' : World) (memory' : StoryMemory) (story_count' : nat) :
  Forall (fun l => plain_line l = true) (stdin w) ->
  present_story story user_input is_episode memory story_count w
  = (Ok (memory', story_count'), w') ->
  exists line rest,
    stdin w = line :: rest
    /\ story_count' = story_count + 1
    /\ memory'
       = stored memory (current_story memory') user_input (rating_of line)
    /\ (rating_of line = 1 \/ rating_of line = 2 ->
        exists comment,
          rest = comment :: stdin w'
          /\ (Py.strip comment <> "" ->
              current_story memory' = final_text story (reply w 0)
              /\ calls w' =
                 (calls w
                  ++ sent (revision_prompt story
                             {| rating := rating_of line;
                                feedback_text := Py.strip comment |}
                             user_input) 3000 w)%list)
          /\ (Py.strip comment = "" ->
              current_story memory' = story /\ calls w' = calls w))
    /\ (rating_of line = 0 \/ 3 <= rating_of line ->
        current_story memory' = story /\ calls w' = calls w).
Proof.
  intros _ H. apply present_story_inv in H
    as (fb & shown & w0 & w1 & Hfb & Hs0 & Hin0 & Hin' & Hcount & Hmem
        & Hcases).
  apply get_user_feedback_inv in Hfb
    as (Hs1 & line & rest & Hin & Hrating & Hread).
  assert (same_requests w w1) as Hs
    by (eapply same_requests_trans; eassumption).
  assert (current_story memory' = shown) as Hcur.
  { rewrite Hmem. now destruct (4 <=? rating fb). }
  destruct Hs as (Hk & Hb & Hc).
  assert (reply w1 0 = reply w 0) as Hreply
    by (unfold reply; now rewrite Hk, Hb, Hc).
  assert (forall p n, sent p n w1 = sent p n w) as Hsent
    by (intros p n; unfold sent; now rewrite Hk).
  destruct fb as [r text]. cbn [rating feedback_text] in *. subst r.
  exists line, rest.
  split; [congruence|]. split; [exact Hcount|].
  split; [rewrite Hcur; exact Hmem|].
  split.
  - intros Hlow.
    destruct Hread as [(Hr & _) | (_ & comment & Hrest & Htext)]; [lia|].
    exists comment. split; [congruence|]. subst text. split.
    + intros Hne.
      destruct Hcases as [(_ & _ & Hgate) | (_ & _ & Hshown & Hcalls)].
      * exfalso. apply andb_false_iff in Hgate as [Hgate | Hgate].
        -- apply Nat.leb_gt in Hgate. lia.
        -- destruct (Py.strip comment); [now apply Hne | discriminate].
      * split; [congruence|]. rewrite Hcalls, Hc. now rewrite Hsent.
    + intros Hempty.
      destruct Hcases as [(Hshown & Hcalls & _) | (_ & Hne & _)];
        [|contradiction].
      split; congruence.
  - intros Hother.
    destruct Hcases as [(Hshown & Hcalls & _) | (Hr & _)]; [|lia].
    split; congruence.
Qed.

Lemma revision_only_for_low_ratings_witness :
  exists memory' w',
    present_story "Once." "a cat" false new_StoryMemory 0
      (fresh_world [Content "Once, but funnier."] ["2"; "make it funnier"])
    = (Ok (memory', 1), w')
    /\ current_story memory' = "Once, but funnier."
    /\ calls w'
       = [ (revision_prompt "Once."
              {| rating := 2; feedback_text := "make it funnier" |} "a cat",
            3000) ].
Proof.
  destruct (present_story_returns "Once." "a cat" false new_StoryMemory 0
              (fresh_world [Content "Once, but funnier."]
                 ["2"; "make it funnier"]))
    as (memory' & w' & Hrun); [simpl; lia|].
  exists memory', w'. split; [exact Hrun|].
  assert (Forall (fun l => plain_line l = true)
            (stdin (fresh_world [Content "Once, but funnier."]
                      ["2"; "make it funnier"]))) as Hplain
    by (repeat constructor).
  destruct (revision_only_for_low_ratings _ _ _ _ _ _ _ _ _ Hplain Hrun)
    as (line & rest & Hin & _ & _ & Hlow & _).
  injection Hin as <- <-.
  destruct Hlow as (comment & Hrest & Hrevised & _);
    [right; reflexivity|].
  injection Hrest as <- _.
  destruct Hrevised as (Hstory & Hcalls); [discriminate|].
  split; [exact Hstory | exact Hcalls].
Defined.

(** ** The session: what a turn leaves *)

Lemma final_text_not_empty (story : string) (r : option string) :
  story <> "" -> final_text story r <> "".
Proof.
  intros Hne. unfold final_text.
  destruct (Py.usable r) as [f|] eqn:Hf; [|exact Hne].
  now apply usable_Some in Hf as [_ Hf].
Qed.

(** The four ways in which a request is served: the loop is left, the
    request was empty, the generation gave nothing, or a story was
    stored. *)
Lemma serve_request_cases (user_input : string) (is_episode : bool)
  (memory : StoryMemory) (story_count : nat) (w w' : World) (flow : Flow) :
  serve_request user_input is_episode memory story_count w = (Ok flow, w') ->
  flow = Break memory story_count
  \/ flow = Again memory story_count
  \/ flow = Again (working_memory user_input memory is_episode) story_count
  \/ exists shown q memory2,
       user_input <> ""
       /\ one_of (Py.lower user_input) ["quit"; "exit"; "q"] = false
       /\ shown <> "" /\ q <= 5
       /\ (memory2 = working_memory user_input memory is_episode
           \/ (is_episode = false
               /\ exists r,
                    memory2 = with_extracted r
                                (working_memory user_input memory false)))
       /\ flow = Again (stored memory2 shown user_input q) (story_count + 1).
Proof.
  unfold serve_request.
  destruct (one_of (Py.lower user_input) ["quit"; "exit"; "q"]) eqn:Hquit.
  { intros H. apply ret_inv in H as [<- _]. now left. }
  destruct (Py.truthy user_input) eqn:Htruthy; cbn [negb].
  2:{ intros H. bind_inv_in H. apply ret_inv in H as [<- _]. right; now left. }
  intros H. bind_inv_in H. bind_inv_in H. destruct a0 as [story memory1].
  pose proof (generate_story_memory _ _ _ _ _ _ _ Hrun0) as Hmem.
  destruct story as [story|].
  - pose proof (generate_story_not_empty _ _ _ _ _ _ _ Hrun0) as Huse.
    rewrite Huse in H.
    bind_inv_in H. destruct a0 as [memory2 story_count2].
    bind_inv_in H. apply ret_inv in H as [<- _].
    apply present_story_inv in Hrun1
      as (fb & shown & wa & wb & Hfb & _ & _ & _ & -> & -> & Hcases).
    right; right; right. exists shown, (rating fb), memory1.
    split; [destruct user_input; [discriminate | discriminate]|].
    split; [reflexivity|]. split.
    { assert (story <> "") as Hne
        by (destruct story; [discriminate | discriminate]).
      destruct Hcases as [(-> & _) | (_ & _ & -> & _)];
        [exact Hne | now apply final_text_not_empty]. }
    split.
    { apply get_user_feedback_inv in Hfb as (_ & line & rest & _ & -> & _).
      apply rating_of_bound. }
    split; [|reflexivity].
    destruct Hmem as [->|(-> & _ & ->)]; [now left|].
    right. split; [reflexivity|]. now eexists.
  - cbn [Py.usable] in H. do 2 bind_inv_in H. apply ret_inv in H as [<- _].
    destruct Hmem as [->|(_ & Hsome & _)]; [|contradiction].
    right; right; now left.
Qed.

Lemma stored_fields (memory : StoryMemory) (shown user_input : string)
  (q : nat) :
  let m := stored memory shown user_input q in
  current_story m = shown /\ genre m = genre memory
  /\ characters m = characters memory
  /\ world_details m = world_details memory
  /\ story_history m =
     (story_history memory
      ++ [ {| turn_story := shown; turn_genre := genre memory;
              turn_request := user_input; turn_quality_score := q;
              turn_characters := dict_keys (characters memory) |} ])%list.
Proof. cbv zeta. unfold stored. destruct (4 <=? q); repeat split. Qed.

Lemma dict_get_set_same {A : Type} (k : string) (v : A)
  (d : list (string * A)) :
  dict_get k (dict_set k v d) = Some v.
Proof.
  induction d as [|[k' v'] d IH]; simpl.
  - now rewrite String.eqb_refl.
  - destruct (String.eqb k' k) eqn:E; simpl.
    + now rewrite String.eqb_refl.
    + now rewrite E.
Qed.

Lemma dict_get_set_other {A : Type} (k k0 : string) (v : A)
  (d : list (string * A)) :
  k0 <> k -> dict_get k0 (dict_set k v d) = dict_get k0 d.
Proof.
  intros Hne. induction d as [|[k' v'] d IH]; simpl.
  - assert (String.eqb k k0 = false) as -> by (apply String.eqb_neq; auto).
    reflexivity.
  - destruct (String.eqb k' k) eqn:E; simpl.
    + apply String.eqb_eq in E; subst k'.
      assert (String.eqb k k0 = false) as -> by (apply String.eqb_neq; auto).
      reflexivity.
    + destruct (String.eqb k' k0); [reflexivity | exact IH].
Qed.

Lemma preference_count_note (memory : StoryMemory) (g : string) :
  preference_count (note_preference memory) g
  = preference_count memory g
    + (if String.eqb (genre memory) g then 1 else 0).
Proof.
  unfold preference_count, note_preference. cbn [user_preferences set_user_preferences].
  rewrite dict_get_set_same.
  destruct (String.eqb (genre memory) g) eqn:E.
  - apply String.eqb_eq in E; subst g. rewrite dict_get_set_same.
    destruct (dict_get "preferred_genres" (user_preferences memory)) as [d|];
      [destruct (dict_get (genre memory) d)|]; simpl; lia.
  - apply String.eqb_neq in E. rewrite dict_get_set_other by congruence.
    destruct (dict_get "preferred_genres" (user_preferences memory)) as [d|];
      simpl; lia.
Qed.

Lemma liked_turns_app (h : list Turn) (t : Turn) (g : string) :
  liked_turns (h ++ [t]) g
  = liked_turns h g
    + (if String.eqb (turn_genre t) g && (4 <=? turn_quality_score t)
       then 1 else 0).
Proof.
  unfold liked_turns. rewrite filter_app, length_app. cbn [filter].
  now destruct (String.eqb (turn_genre t) g && (4 <=? turn_quality_score t)).
Qed.

(** Storing a story keeps the memory well formed. *)
Lemma stored_well_formed (memory : StoryMemory) (story_count : nat)
  (shown user_input : string) (q : nat) :
  length (story_history memory) = story_count ->
  Forall valid_turn (story_history memory) ->
  (forall g, preference_count memory g
             = liked_turns (story_history memory) g) ->
  In (genre memory) genres -> shown <> "" -> user_input <> "" -> q <= 5 ->
  well_formed (stored memory shown user_input q) (story_count + 1).
Proof.
  intros Hlen Hvalid Hpref Hgenre Hshown Hinput Hq.
  destruct (stored_fields memory shown user_input q)
    as (Hcur & Hg & _ & _ & Hhist).
  unfold well_formed. rewrite Hcur, Hg, Hhist.
  split; [rewrite length_app; simpl; lia|].
  split; [now right|].
  split; [intros _; split; assumption|].
  split; [intros H; lia|].
  split.
  - apply Forall_app. split; [exact Hvalid|].
    constructor; [|constructor]. repeat split; assumption.
  - intros g. rewrite liked_turns_app, <- Hpref. cbn [turn_genre turn_quality_score].
    unfold stored. destruct (4 <=? q) eqn:Hliked.
    + rewrite preference_count_note. cbn [genre add_story].
      rewrite andb_true_r. reflexivity.
    + rewrite andb_false_r. unfold preference_count. cbn. lia.
Qed.

Lemma with_extracted_fields (r : option string) (memory : StoryMemory) :
  current_story (with_extracted r memory) = current_story memory
  /\ genre (with_extracted r memory) = genre memory
  /\ story_history (with_extracted r memory) = story_history memory
  /\ user_preferences (with_extracted r memory) = user_preferences memory.
Proof. unfold with_extracted. destruct (Py.usable r); repeat split. Qed.

Lemma working_memory_fields (user_input : string) (memory : StoryMemory)
  (is_episode : bool) :
  let m := working_memory user_input memory is_episode in
  current_story m = current_story memory
  /\ characters m = characters memory
  /\ story_history m = story_history memory
  /\ user_preferences m = user_preferences memory
  /\ genre m = (if is_episode then genre memory else detect_genre user_input).
Proof. destruct is_episode; repeat split. Qed.

(** A turn of the loop keeps the memory and the counter well formed. *)
Lemma main_turn_well_formed (memory : StoryMemory) (story_count : nat)
  (w w' : World) (flow : Flow) :
  well_formed memory story_count ->
  main_turn memory story_count w = (Ok flow, w') ->
  well_formed (flow_memory flow) (flow_count flow).
Proof.
  intros Hwf H. unfold main_turn in H. bind_inv_in H.
  destruct a as [[[user_input is_episode] memory1]|];
    [|apply ret_inv in H as [<- _]; exact Hwf].
  apply next_request_memory in Hrun as (Hmem & Hepisode & Hfirst).
  assert (well_formed memory1 story_count
          /\ genre memory1 = genre memory) as [Hwf1 Hgenre1].
  { destruct Hmem as [->| ->]; [now split|]. split; [|reflexivity].
    destruct Hwf as (H1 & H2 & H3 & H4 & H5 & H6).
    repeat split; try assumption; try (now apply H3); now apply H4. }
  clear Hwf Hmem.
  destruct Hwf1 as (Hlen & Hg & Hlater & Hzero & Hvalid & Hpref).
  destruct (working_memory_fields user_input memory1 is_episode)
    as (Wcur & Wchars & Whist & Wpref & Wgenre).
  assert (In (genre (working_memory user_input memory1 is_episode)) genres
          \/ (is_episode = true /\ story_count = 0)) as Htag.
  { rewrite Wgenre. destruct is_episode.
    - destruct (Nat.eq_dec story_count 0) as [Hz|Hnz]; [now right|].
      left. now apply Hlater.
    - left. apply detect_genre_in_genres. }
  destruct Htag as [Htag|[-> Hz]];
    [|destruct (Hfirst Hz) as [_ Hfalse]; discriminate].
  apply serve_request_cases in H
    as [->|[->|[->|(shown & q & memory2 & Hinput & _ & Hshown & Hq & Hm2 & ->)]]].
  - repeat split; try assumption; try (now apply Hlater); now apply Hzero.
  - repeat split; try assumption; try (now apply Hlater); now apply Hzero.
  - cbn [flow_memory flow_count]. unfold well_formed.
    rewrite Wcur, Wchars, Whist, Wpref.
    repeat split; try assumption; try (now apply Hzero).
    + now right.
    + now apply Hlater.
    + unfold preference_count in *. rewrite Wpref. apply Hpref.
  - cbn [flow_memory flow_count].
    assert (story_history memory2 = story_history memory1
            /\ user_preferences memory2 = user_preferences memory1
            /\ In (genre memory2) genres) as (Hh & Hp & Hg2).
    { destruct Hm2 as [->|(-> & r & ->)].
      - now rewrite Whist, Wpref.
      - destruct (with_extracted_fields r
                    (working_memory user_input memory1 false))
          as (_ & Eg & Eh & Ep).
        rewrite Eg, Eh, Ep. repeat split; assumption. }
    apply stored_well_formed; try assumption.
    + now rewrite Hh.
    + now rewrite Hh.
    + intros g. unfold preference_count. rewrite Hp, Hh. apply Hpref.
Qed.

Lemma new_StoryMemory_well_formed : well_formed new_StoryMemory 0.
Proof.
  unfold well_formed. simpl. repeat split; auto; try lia.
Qed.

Lemma reachable_well_formed (flow : Flow) :
  reachable flow -> well_formed (flow_memory flow) (flow_count flow).
Proof.
  induction 1 as [|memory story_count w w' flow _ IH Hturn].
  - apply new_StoryMemory_well_formed.
  - eapply main_turn_well_formed; [exact IH | exact Hturn].
Qed.

(** X9.  In every state that the session reaches the story counter is the
    number of entries of the history. *)
Theorem counter_is_history_length (flow : Flow) :
  reachable flow ->
  length (story_history (flow_memory flow)) = flow_count flow.
Proof. intros H. apply (reachable_well_formed flow H). Qed.

Lemma counter_is_history_length_witness :
  length (story_history sample_memory) = 1.
Proof.
  exact (counter_is_history_length (Again sample_memory 1) sample_reachable).
Defined.

(** X10.  In every state that the session reaches, every entry of the
    history has a story and a request that are not empty, a rating between
    0 and 5 and a genre that is one of the five tags. *)
Theorem history_entries_valid (flow : Flow) (t : Turn) :
  reachable flow -> In t (story_history (flow_memory flow)) ->
  turn_story t <> "" /\ turn_request t <> ""
  /\ turn_quality_score t <= 5
  /\ In (turn_genre t)
        ["adventure"; "fairy_tale"; "educational"; "friendship"; "fantasy"].
Proof.
  intros H Hin.
  destruct (reachable_well_formed flow H) as (_ & _ & _ & _ & Hvalid & _).
  rewrite Forall_forall in Hvalid. exact (Hvalid t Hin).
Qed.

Lemma history_entries_valid_witness :
  Forall (fun t => turn_story t <> "" /\ turn_quality_score t <= 5)
         (story_history sample_memory).
Proof.
  apply Forall_forall. intros t Hin.
  destruct (history_entries_valid (Again sample_memory 1) t sample_reachable
              Hin) as (Hstory & _ & Hscore & _).
  split; assumption.
Defined.

(** X11.  In every state that the session reaches the genre of the memory
    is empty or one of the five tags.  Before the first story the current
    story is empty and there is no character and no preference; once a
    story has been stored the genre is a tag and the current story is not
    empty. *)
Theorem genre_is_a_tag (flow : Flow) :
  reachable flow ->
  let memory := flow_memory flow in
  (genre memory = ""
   \/ In (genre memory)
         ["adventure"; "fairy_tale"; "educational"; "friendship"; "fantasy"])
  /\ (flow_count flow = 0 ->
      current_story memory = "" /\ characters memory = []
      /\ user_preferences memory = [])
  /\ (flow_count flow <> 0 ->
      In (genre memory)
         ["adventure"; "fairy_tale"; "educational"; "friendship"; "fantasy"]
      /\ current_story memory <> "").
Proof.
  intros H. cbv zeta.
  destruct (reachable_well_formed flow H) as (_ & Hg & Hlater & Hzero & _).
  auto.
Qed.

Lemma genre_is_a_tag_witness :
  In (genre sample_memory)
     ["adventure"; "fairy_tale"; "educational"; "friendship"; "fantasy"]
  /\ current_story sample_memory <> "".
Proof.
  pose proof (genre_is_a_tag (Again sample_memory 1) sample_reachable) as H.
  cbv zeta in H. destruct H as (_ & _ & H). apply H. discriminate.
Defined.

(** X12.  In every state that the session reaches, the number recorded
    for a genre in the preferences is the number of entries of the history
    of that genre with a rating of 4 or 5: a story counts for its genre
    exactly when it was rated 4 or 5. *)
Theorem preferences_count_liked_stories (flow : Flow) (genre_ : string) :
  reachable flow ->
  preference_count (flow_memory flow) genre_
  = liked_turns (story_history (flow_memory flow)) genre_.
Proof.
  intros H.
  destruct (reachable_well_formed flow H) as (_ & _ & _ & _ & _ & Hpref).
  apply Hpref.
Qed.

Lemma preferences_count_liked_stories_witness :
  preference_count sample_memory "adventure" = 0.
Proof.
  exact (preferences_count_liked_stories (Again sample_memory 1) "adventure"
           sample_reachable).
Defined.

(** X13.  The history only grows, and by one entry a turn: a turn of the
    loop that ends leaves the history and the counter as they were, or has
    added one entry at the end and one to the counter.  The new entry holds
    the current story, the genre of the memory, the request of the turn
    and the names of the characters that the memory then has. *)
Theorem main_turn_appends (memory : StoryMemory) (story_count : nat)
  (w w' : World) (flow : Flow) :
  main_turn memory story_count w = (Ok flow, w') ->
  let memory' := flow_memory flow in
  (story_history memory' = story_history memory
   /\ current_story memory' = current_story memory
   /\ user_preferences memory' = user_preferences memory
   /\ flow_count flow = story_count)
  \/ (exists t,
        story_history memory' = (story_history memory ++ [t])%list
        /\ flow = Again memory' (story_count + 1)
        /\ turn_story t = current_story memory'
        /\ turn_genre t = genre memory'
        /\ turn_characters t = dict_keys (characters memory')
        /\ turn_request t <> ""
        /\ one_of (Py.lower (turn_request t)) ["quit"; "exit"; "q"] = false).
Proof.
  intros H. cbv zeta. unfold main_turn in H. bind_inv_in H.
  destruct a as [[[user_input is_episode] memory1]|];
    [|apply ret_inv in H as [<- _]; left; repeat split].
  apply next_request_memory in Hrun as (Hmem & _).
  assert (story_history memory1 = story_history memory
          /\ current_story memory1 = current_story memory
          /\ user_preferences memory1 = user_preferences memory)
    as (Hh & Hc & Hp) by (destruct Hmem as [->| ->]; repeat split).
  destruct (working_memory_fields user_input memory1 is_episode)
    as (Wcur & _ & Whist & Wpref & _).
  apply serve_request_cases in H
    as [->|[->|[->|(shown & q & memory2 & Hinput & Hquit & _ & _ & Hm2 & ->)]]].
  - left. repeat split; assumption.
  - left. repeat split; assumption.
  - left. cbn [flow_memory flow_count]. repeat split; congruence.
  - right. cbn [flow_memory].
    destruct (stored_fields memory2 shown user_input q)
      as (Scur & Sg & Schars & _ & Shist).
    eexists. split.
    { rewrite Shist. f_equal.
      destruct Hm2 as [->|(_ & r & ->)]; [congruence|].
      destruct (with_extracted_fields r
                  (working_memory user_input memory1 false))
        as (_ & _ & Eh & _).
      rewrite Eh. destruct (working_memory_fields user_input memory1 false)
        as (_ & _ & Wh & _). congruence. }
    cbn [turn_story turn_genre turn_characters turn_request].
    repeat split; auto; congruence.
Qed.

Lemma main_turn_appends_witness :
  exists t,
    story_history sample_memory = ([] ++ [t])%list
    /\ turn_story t = current_story sample_memory.
Proof.
  pose proof (main_turn_appends new_StoryMemory 0 sample_world _ _
                sample_turn) as H.
  cbv zeta in H. destruct H as [(Hsame & _) | (t & Hhist & _ & Hstory & _)].
  - discriminate Hsame.
  - exists t. split; [exact Hhist | exact Hstory].
Defined.

(** ** The characters as a dictionary *)

Lemma rstrip_cons (c : ascii) (r : string) :
  Py.rstrip (String c r)
  = match Py.rstrip r with
    | EmptyString => if Py.is_space c then EmptyString else String c EmptyString
    | String d r' => String c (String d r')
    end.
Proof. reflexivity. Qed.

Lemma rstrip_idempotent (s : string) : Py.rstrip (Py.rstrip s) = Py.rstrip s.
Proof.
  induction s as [|c r IH]; [reflexivity|].
  rewrite rstrip_cons. destruct (Py.rstrip r) as [|d r'] eqn:E.
  - destruct (Py.is_space c) eqn:Hc; [reflexivity|].
    rewrite rstrip_cons. cbn [Py.rstrip]. now rewrite Hc.
  - rewrite rstrip_cons, IH. reflexivity.
Qed.

Lemma rstrip_head (c : ascii) (r : string) :
  Py.is_space c = false -> exists r', Py.rstrip (String c r) = String c r'.
Proof.
  intros Hc. rewrite rstrip_cons. destruct (Py.rstrip r) as [|d r'].
  - rewrite Hc. now exists "".
  - now eexists.
Qed.

Lemma lstrip_head (s : string) :
  Py.lstrip s = ""
  \/ exists c r, Py.lstrip s = String c r /\ Py.is_space c = false.
Proof.
  induction s as [|c r IH]; [now left|].
  cbn [Py.lstrip]. destruct (Py.is_space c) eqn:Hc; [exact IH|].
  right. now exists c, r.
Qed.

Lemma strip_idempotent (s : string) : Py.strip (Py.strip s) = Py.strip s.
Proof.
  unfold Py.strip.
  destruct (lstrip_head s) as [->|(c & r & -> & Hc)]; [reflexivity|].
  destruct (rstrip_head c r Hc) as (r' & Hr).
  assert (Py.lstrip (Py.rstrip (String c r)) = Py.rstrip (String c r)) as ->.
  { rewrite Hr. cbn [Py.lstrip]. now rewrite Hc. }
  apply rstrip_idempotent.
Qed.

Lemma dict_set_keys (k : string) {A : Type} (v : A) (d : list (string * A)) :
  dict_keys (dict_set k v d)
  = if existsb (String.eqb k) (dict_keys d) then dict_keys d
    else (dict_keys d ++ [k])%list.
Proof.
  unfold dict_keys. induction d as [|[k' v'] d IH]; simpl; [reflexivity|].
  rewrite (String.eqb_sym k k').
  destruct (String.eqb k' k) eqn:E; simpl.
  - apply String.eqb_eq in E. now subst.
  - rewrite IH. now destruct (existsb (String.eqb k) (map fst d)).
Qed.

Lemma existsb_eqb_In (k : string) (l : list string) :
  existsb (String.eqb k) l = true <-> In k l.
Proof.
  rewrite existsb_exists. split.
  - intros (x & Hx & E). apply String.eqb_eq in E. now subst.
  - intros H. exists k. split; [exact H | apply String.eqb_refl].
Qed.

Lemma dict_set_keys_in (k : string) {A : Type} (v : A)
  (d : list (string * A)) :
  In k (dict_keys d) -> dict_keys (dict_set k v d) = dict_keys d.
Proof.
  intros H. rewrite dict_set_keys.
  apply existsb_eqb_In in H. now rewrite H.
Qed.

Lemma dict_set_has_key (k : string) {A : Type} (v : A)
  (d : list (string * A)) :
  In k (dict_keys (dict_set k v d)).
Proof.
  rewrite dict_set_keys.
  destruct (existsb (String.eqb k) (dict_keys d)) eqn:E.
  - now apply existsb_eqb_In.
  - apply in_or_app. right. now left.
Qed.

Lemma dict_set_keeps_key (k x : string) {A : Type} (v : A)
  (d : list (string * A)) :
  In x (dict_keys d) -> In x (dict_keys (dict_set k v d)).
Proof.
  intros H. rewrite dict_set_keys.
  destruct (existsb (String.eqb k) (dict_keys d)); [exact H|].
  apply in_or_app. now left.
Qed.

Lemma dict_set_NoDup (k : string) {A : Type} (v : A)
  (d : list (string * A)) :
  NoDup (dict_keys d) -> NoDup (dict_keys (dict_set k v d)).
Proof.
  intros H. rewrite dict_set_keys.
  destruct (existsb (String.eqb k) (dict_keys d)) eqn:E; [exact H|].
  apply NoDup_app; [exact H | repeat constructor; intros [] |].
  intros x Hx [<-|[]].
  apply existsb_eqb_In in Hx. congruence.
Qed.

(** A line records one entry, whatever the characters are. *)
Lemma process_line_entry (chars : list (string * Character))
  (line : string) :
  process_line chars line = record_entry chars (line_entry line).
Proof.
  unfold process_line, line_entry, try_line, record_entry.
  destruct (Py.contains ":" line && Py.contains "|" line); [|reflexivity].
  destruct (nth_error (Py.split "|" line) 0) as [first|]; [|reflexivity].
  destruct (2 <=? length (Py.split ":" first)); [|reflexivity].
  destruct (nth_error (Py.split ":" first) 0) as [n|]; [|reflexivity].
  destruct (nth_error (Py.split ":" first) 1) as [d|]; [|reflexivity].
  destruct (personality_of (Py.split "|" line) []); reflexivity.
Qed.

Lemma line_entry_name (line k : string) (c : Character) :
  line_entry line = Some (k, c) -> name c = k /\ Py.strip k = k.
Proof.
  unfold line_entry.
  destruct (Py.contains ":" line && Py.contains "|" line); [|discriminate].
  destruct (nth_error (Py.split "|" line) 0) as [first|]; [|discriminate].
  destruct (2 <=? length (Py.split ":" first)); [|discriminate].
  destruct (nth_error (Py.split ":" first) 0) as [n|]; [|discriminate].
  destruct (nth_error (Py.split ":" first) 1) as [d|]; [|discriminate].
  destruct (personality_of (Py.split "|" line) []); [|discriminate].
  intros H. injection H as <- <-. split; [reflexivity|].
  apply strip_idempotent.
Qed.

Lemma process_line_keyed (chars : list (string * Character))
  (line : string) :
  keyed_by_name chars -> keyed_by_name (process_line chars line).
Proof.
  intros [Hnd Hname]. rewrite process_line_entry.
  destruct (line_entry line) as [[k c]|] eqn:E; [|now split].
  cbn [record_entry]. split; [now apply dict_set_NoDup|].
  intros k' c' Hin. apply dict_set_In in Hin as [Hin|Hin].
  - injection Hin as -> ->. eapply line_entry_name; exact E.
  - now apply Hname.
Qed.

Lemma parse_characters_keyed (response : string)
  (chars : list (string * Character)) :
  keyed_by_name chars -> keyed_by_name (parse_characters response chars).
Proof.
  unfold parse_characters.
  generalize (Py.split (ascii_of_nat 10) response) as lines.
  intros lines; revert chars.
  induction lines as [|line lines IH]; simpl; intros chars H; [exact H|].
  apply IH. now apply process_line_keyed.
Qed.

Lemma evolves_keyed (m m' : StoryMemory) :
  evolves m m' ->
  keyed_by_name (characters m) -> keyed_by_name (characters m').
Proof.
  induction 1 as [m|m|m g|m response|m story user_request q|m|m1 m2 m3 _ IH1 _ IH2];
    intros Hm; auto.
  - split; [constructor | intros k c []].
  - unfold with_extracted. destruct (Py.usable response) as [text|]; [|exact Hm].
    now apply parse_characters_keyed.
Qed.

(** X14.  In every state that the session reaches the characters are
    stored under distinct names; each character stands under its own name,
    which has no blank at either end, and looking the name up gives that
    character. *)
Theorem characters_keyed_by_name (flow : Flow) (k : string)
  (c : Character) :
  reachable flow -> In (k, c) (characters (flow_memory flow)) ->
  NoDup (dict_keys (characters (flow_memory flow)))
  /\ name c = k /\ Py.strip k = k
  /\ dict_get k (characters (flow_memory flow)) = Some c.
Proof.
  intros H Hin.
  assert (keyed_by_name (characters (flow_memory flow))) as [Hnd Hname].
  { apply (evolves_keyed new_StoryMemory).
    - now apply reachable_evolves.
    - split; [constructor | intros k0 c0 []]. }
  split; [exact Hnd|]. destruct (Hname k c Hin) as [Hn Hs].
  split; [exact Hn|]. split; [exact Hs|].
  now apply dict_get_In.
Qed.

Lemma characters_keyed_by_name_witness :
  exists c, dict_get "Tom" (characters sample_memory) = Some c
            /\ name c = "Tom".
Proof.
  eexists. 
  destruct (characters_keyed_by_name (Again sample_memory 1) "Tom" _
              sample_reachable (or_introl eq_refl))
    as (_ & Hname & _ & Hget).
  split; [exact Hget | exact Hname].
Defined.

(** ** Extraction twice *)

Lemma dict_set_twice {A : Type} (k : string) (v v0 : A)
  (d : list (string * A)) :
  dict_set k v (dict_set k v0 d) = dict_set k v d.
Proof.
  induction d as [|[k' v'] d IH]; simpl.
  - now rewrite String.eqb_refl.
  - destruct (String.eqb k' k) eqn:E; simpl.
    + now rewrite String.eqb_refl.
    + now rewrite E, IH.
Qed.

Lemma dict_set_comm {A : Type} (k k' : string) (v v' : A)
  (d : list (string * A)) :
  k <> k' -> In k (dict_keys d) -> In k' (dict_keys d) ->
  dict_set k v (dict_set k' v' d) = dict_set k' v' (dict_set k v d).
Proof.
  intros Hne.
  assert (String.eqb k k' = false) as Hkk' by now apply String.eqb_neq.
  assert (String.eqb k' k = false) as Hk'k
    by (apply String.eqb_neq; congruence).
  induction d as [|[a u] d IH]; simpl; [contradiction|].
  intros Hk Hk'.
  destruct (String.eqb a k') eqn:E'; destruct (String.eqb a k) eqn:E.
  - apply String.eqb_eq in E, E'. congruence.
  - apply String.eqb_eq in E'. subst a. simpl.
    now rewrite Hk'k, String.eqb_refl.
  - apply String.eqb_eq in E. subst a. simpl.
    now rewrite Hkk', String.eqb_refl.
  - simpl. rewrite E, E'.
    apply String.eqb_neq in E, E'.
    destruct Hk as [Hk|Hk]; [congruence|].
    destruct Hk' as [Hk'|Hk']; [congruence|].
    now rewrite IH.
Qed.

Lemma dict_set_app_in {A : Type} (k : string) (v : A)
  (d x : list (string * A)) :
  In k (dict_keys d) -> dict_set k v (d ++ x) = (dict_set k v d ++ x)%list.
Proof.
  induction d as [|[a u] d IH]; simpl; [contradiction|].
  intros Hk. destruct (String.eqb a k) eqn:E; [reflexivity|].
  apply String.eqb_neq in E. destruct Hk as [Hk|Hk]; [congruence|].
  simpl. now rewrite IH.
Qed.

Lemma dict_set_app_notin {A : Type} (k : string) (v : A)
  (d x : list (string * A)) :
  ~ In k (dict_keys d) -> dict_set k v (d ++ x) = (d ++ dict_set k v x)%list.
Proof.
  induction d as [|[a u] d IH]; simpl; [reflexivity|].
  intros Hk. destruct (String.eqb a k) eqn:E.
  - apply String.eqb_eq in E. exfalso. apply Hk. now left.
  - rewrite IH; [reflexivity|]. intros H. apply Hk. now right.
Qed.

Lemma record_entry_keeps_key (chars : list (string * Character))
  (e : option (string * Character)) (x : string) :
  In x (dict_keys chars) -> In x (dict_keys (record_entry chars e)).
Proof.
  destruct e as [[k v]|]; [|auto]. apply dict_set_keeps_key.
Qed.

Lemma record_entries_keep_key (es : list (option (string * Character)))
  (chars : list (string * Character)) (x : string) :
  In x (dict_keys chars) ->
  In x (dict_keys (fold_left record_entry es chars)).
Proof.
  revert chars. induction es as [|e es IH]; intros chars H; [exact H|].
  simpl. apply IH. now apply record_entry_keeps_key.
Qed.

(** Every name of a list of entries is a name of the characters that the
    entries leave. *)
Lemma record_entries_have_keys (es : list (option (string * Character)))
  (chars : list (string * Character)) (k : string) (v : Character) :
  In (Some (k, v)) es -> In k (dict_keys (fold_left record_entry es chars)).
Proof.
  revert chars. induction es as [|e es IH]; intros chars; [contradiction|].
  intros [->|Hin]; simpl.
  - apply record_entries_keep_key. apply dict_set_has_key.
  - now apply IH.
Qed.

(** Entries whose names are all known do not see what comes after the
    characters they change. *)
Lemma record_entries_app (es : list (option (string * Character)))
  (d x : list (string * Character)) :
  (forall k v, In (Some (k, v)) es -> In k (dict_keys d)) ->
  fold_left record_entry es (d ++ x)%list
  = (fold_left record_entry es d ++ x)%list.
Proof.
  revert d. induction es as [|e es IH]; intros d Hkeys; [reflexivity|].
  simpl. destruct e as [[k v]|]; cbn [record_entry].
  - rewrite dict_set_app_in by (apply (Hkeys k v); now left).
    apply IH. intros k0 v0 Hin. apply dict_set_keeps_key.
    apply (Hkeys k0 v0). now right.
  - apply IH. intros k0 v0 Hin. apply (Hkeys k0 v0). now right.
Qed.

(** A value that is set at the end hides the value set at the start. *)
Lemma record_entries_absorb (es : list (option (string * Character)))
  (d : list (string * Character)) (k : string) (v v0 : Character) :
  (forall k' v', In (Some (k', v')) es -> In k' (dict_keys d)) ->
  In k (dict_keys d) ->
  dict_set k v (fold_left record_entry es (dict_set k v0 d))
  = dict_set k v (fold_left record_entry es d).
Proof.
  revert d v0. induction es as [|e es IH]; intros d v0 Hkeys Hk.
  - simpl. apply dict_set_twice.
  - simpl. destruct e as [[k1 v1]|]; cbn [record_entry].
    + assert (In k1 (dict_keys d)) as Hk1 by (apply (Hkeys k1 v1); now left).
      destruct (string_dec k1 k) as [->|Hne].
      * now rewrite dict_set_twice.
      * rewrite (dict_set_comm k1 k v1 v0 d Hne Hk1 Hk).
        apply IH.
        -- intros k' v' Hin. apply dict_set_keeps_key.
           apply (Hkeys k' v'). now right.
        -- now apply dict_set_keeps_key.
    + apply IH; [|exact Hk].
      intros k' v' Hin. apply (Hkeys k' v'). now right.
Qed.

Lemma record_entries_idempotent (es : list (option (string * Character)))
  (chars : list (string * Character)) :
  fold_left record_entry es (fold_left record_entry es chars)
  = fold_left record_entry es chars.
Proof.
  induction es as [|e es IH] using rev_ind; [reflexivity|].
  rewrite !fold_left_app. cbn [fold_left].
  set (d := fold_left record_entry es chars) in *.
  assert (forall k v, In (Some (k, v)) es -> In k (dict_keys d)) as Hkeys
    by (intros k v Hin; now apply (record_entries_have_keys es chars k v)).
  destruct e as [[k v]|]; cbn [record_entry]; [|exact IH].
  destruct (in_dec string_dec k (dict_keys d)) as [Hin|Hnot].
  - rewrite record_entries_absorb by assumption. now rewrite IH.
  - assert (dict_set k v d = d ++ [(k, v)])%list as Hset.
    { rewrite <- (app_nil_r d) at 1.
      now rewrite dict_set_app_notin. }
    rewrite Hset, record_entries_app by assumption.
    rewrite IH. rewrite dict_set_app_notin by assumption.
    simpl. now rewrite String.eqb_refl.
Qed.

Lemma parse_characters_entries (response : string)
  (chars : list (string * Character)) :
  parse_characters response chars
  = fold_left record_entry
      (map line_entry (Py.split (ascii_of_nat 10) response)) chars.
Proof.
  unfold parse_characters.
  generalize (Py.split (ascii_of_nat 10) response) as lines.
  intros lines; revert chars.
  induction lines as [|line lines IH]; intros chars; [reflexivity|].
  simpl. now rewrite process_line_entry, IH.
Qed.

(** X15.  Extraction is idempotent: parsing a response into characters
    that already result from parsing the same response changes nothing, and
    so the memory after two extractions that receive the same response is
    the memory after one.  A name that stands on several lines keeps the
    place of its first line and the character of its last. *)
Theorem extraction_idempotent (response : string)
  (chars : list (string * Character)) (reply_ : option string)
  (memory : StoryMemory) :
  parse_characters response (parse_characters response chars)
  = parse_characters response chars
  /\ with_extracted reply_ (with_extracted reply_ memory)
     = with_extracted reply_ memory.
Proof.
  split.
  - rewrite !parse_characters_entries. apply record_entries_idempotent.
  - unfold with_extracted.
    destruct (Py.usable reply_) as [text|] eqn:E.
    + cbn [characters set_characters]. unfold set_characters. simpl.
      rewrite !parse_characters_entries, record_entries_idempotent.
      reflexivity.
    + reflexivity.
Qed.

Example extraction_twice_example :
  let response :=
    "Tom: a mouse | personality: shy" ++ Py.nl
      ++ "Ann: a cat | personality: bold" ++ Py.nl
      ++ "Tom: a knight | personality: brave" in
  dict_keys (parse_characters response []) = ["Tom"; "Ann"]
  /\ option_map description (dict_get "Tom" (parse_characters response []))
     = Some "a knight".
Proof. split; reflexivity. Qed.

(** ** The session as a whole *)

Lemma returns_ret {A : Type} (a : A) : always_returns (ret a).
Proof. intros w. now exists a, w. Qed.

Lemma returns_print (s : string) : always_returns (print s).
Proof. intros w. rewrite print_eq. now eexists _, _. Qed.

Lemma returns_bind {A B : Type} (c : M A) (k : A -> M B) :
  always_returns c -> (forall a, always_returns (k a)) ->
  always_returns (bind c k).
Proof.
  intros Hc Hk w. destruct (Hc w) as (a & w1 & Hrun).
  destruct (Hk a w1) as (b & w2 & Hrest).
  exists b, w2. unfold bind. now rewrite Hrun.
Qed.

Lemma goodbye_returns (memory : StoryMemory) (story_count : nat) (w : World) :
  exists w', goodbye memory story_count w = (Ok tt, w').
Proof.
  assert (always_returns (goodbye memory story_count)) as H.
  { unfold goodbye.
    apply returns_bind; [|intros _; apply returns_print].
    destruct (0 <? story_count); [|apply returns_ret].
    apply returns_bind; [apply returns_print | intros _].
    destruct (dict_get "preferred_genres" (user_preferences memory))
      as [[|p prefs]|]; try apply returns_ret.
    destruct (py_max (score_of (p :: prefs)) (dict_keys (p :: prefs)));
      [apply returns_print | apply returns_ret]. }
  destruct (H w) as ([] & w' & Hrun). now exists w'.
Qed.

Lemma display_welcome_returns (w : World) :
  exists w',
    display_welcome w = (Ok tt, w')
    /\ same_requests w w' /\ stdin w' = stdin w.
Proof.
  unfold display_welcome, bind, print_blank. rewrite !print_eq, write_eq.
  eexists. repeat split.
Qed.

(** X16.  With a credential, a session on any console input of plain
    lines ends, whatever the backend does: either the loop is left and
    [main] returns the memory and the counter, which are a state that the
    session reaches, or the input runs out and [EOFError] escapes. *)
Theorem session_ends (w : World) :
  Py.truthy_opt (api_key w) = true ->
  Forall (fun line => plain_line line = true) (stdin w) ->
  (exists memory story_count w',
      main w = (Ok (Some (memory, story_count)), w')
      /\ reachable (Break memory story_count))
  \/ (exists w', main w = (Raise EOFError, w')).
Proof.
  intros Hkey _.
  destruct (main w) as [[[[memory story_count]|]|[]] w'] eqn:Hmain.
  - left. exists memory, story_count, w'. split; [reflexivity|].
    eapply main_reachable; exact Hmain.
  - exfalso. unfold main in Hmain.
    destruct (display_welcome_returns w) as (w0 & Hw & (Hk & _) & Hin).
    unfold bind at 1 in Hmain. rewrite Hw in Hmain.
    unfold bind at 1 in Hmain. unfold getenv_api_key at 1 in Hmain.
    rewrite Hk, Hkey in Hmain. cbn [negb] in Hmain.
    unfold bind at 1 in Hmain.
    pose proof (main_loop_fuel (S (length (stdin w0))) new_StoryMemory 0 w0
                  (Nat.lt_succ_diag_r _)) as Hfuel.
    destruct (main_loop (S (length (stdin w0))) new_StoryMemory 0 w0)
      as [[[[m c]|]|e] w1]; simpl in Hfuel.
    + destruct (goodbye_returns m c w1) as (w2 & Hbye).
      unfold bind in Hmain. rewrite Hbye in Hmain. discriminate.
    + now apply Hfuel.
    + discriminate.
  - right. now exists w'.
Qed.

Lemma session_ends_witness :
  (exists memory story_count w',
      main (fresh_world [] ["quit"]) = (Ok (Some (memory, story_count)), w')
      /\ reachable (Break memory story_count))
  \/ (exists w', main (fresh_world [] ["quit"]) = (Raise EOFError, w')).
Proof.
  apply session_ends; [reflexivity|].
  repeat constructor.
Defined.

Example session_examples :
  fst (main (fresh_world [] ["quit"])) = Ok (Some (new_StoryMemory, 0))
  /\ fst (main (fresh_world [] [])) = Raise EOFError
  /\ fst (main (fresh_world [] [""; "   "; "Q"]))
     = Ok (Some (new_StoryMemory, 0)).
Proof. repeat split; vm_compute; reflexivity. Qed.



(** ** The requests of a generation *)

Lemma calls_of_after_call (prompt : string) (max_tokens : nat) (w : World) :
  calls (after_call prompt max_tokens w)
  = (calls w
     ++ (if Py.truthy_opt (api_key w) then [(prompt, max_tokens)] else []))%list.
Proof. reflexivity. Qed.

Lemma calls_of_after_write (pieces : list string) (w : World) :
  calls (after_write pieces w) = calls w.
Proof. reflexivity. Qed.

Lemma api_key_after_call (prompt : string) (max_tokens : nat) (w : World) :
  api_key (after_call prompt max_tokens w) = api_key w.
Proof. reflexivity. Qed.

Lemma api_key_after_write (pieces : list string) (w : World) :
  api_key (after_write pieces w) = api_key w.
Proof. reflexivity. Qed.

(** The requests of a world built from calls and writes. *)
Ltac norm_calls :=
  repeat first
    [ rewrite calls_of_after_call
    | rewrite calls_of_after_write
    | rewrite api_key_after_call
    | rewrite api_key_after_write ].

(** X18.  [generate_story] reads nothing from the console and sends at
    most four requests, three for an episode, in a fixed order with the
    token limits 3000 (draft), 1000 (evaluation), 3000 (refinement) and 500
    (extraction).  A generation that returns nothing has sent at most one
    request: a failed draft is not tried again. *)
Theorem generate_story_requests (user_input : string) (memory : StoryMemory)
  (is_episode : bool) (w : World) :
  let run := generate_story user_input memory is_episode w in
  stdin (snd run) = stdin w
  /\ exists new rest,
       calls (snd run) = (calls w ++ new)%list
       /\ (map snd new ++ rest)%list = [3000; 1000; 3000; 500]
       /\ (is_episode = true -> length new <= 3)
       /\ (story_of run = None -> length new <= 1).
Proof.
  cbv zeta. split; [apply generate_story_stdin|].
  rewrite generate_story_cases. cbv zeta.
  destruct (Py.truthy_opt (api_key w)) eqn:Hkey.
  - destruct (Py.usable (reply w 0)) as [d|];
      [destruct (Py.usable (reply w 1)) as [v|]; [destruct is_episode|]|];
      cbn [snd story_of]; unfold refined, judged, drafted, announced;
      norm_calls; rewrite ?Hkey; rewrite <- ?app_assoc; cbn [app].
    + eexists [_; _; _], [500].
      repeat split; intros; first [discriminate | cbn [length]; lia].
    + eexists [_; _; _; _], [].
      repeat split; intros; first [discriminate | cbn [length]; lia].
    + eexists [_; _], [3000; 500].
      repeat split; intros; first [discriminate | cbn [length]; lia].
    + eexists [_], [1000; 3000; 500].
      repeat split; intros; first [discriminate | cbn [length]; lia].
  - destruct (Py.usable (reply w 0)) as [d|] eqn:Hd.
    + apply reply_Some_key in Hd. congruence.
    + cbn [snd]. unfold drafted, announced. norm_calls. rewrite Hkey.
      exists [], [3000; 1000; 3000; 500].
      repeat split; intros; cbn [length]; lia.
Qed.

(** ** The menu *)

Lemma input_inv (prompt line : string) (w w' : World) :
  input prompt w = (Ok line, w') ->
  same_requests w w' /\ stdin w = line :: stdin w'.
Proof.
  unfold input. intros H. bind_inv_in H.
  apply write_inv in Hrun as (Hs & Hi & _).
  apply read_line_inv in H as (Hs' & Hi' & _).
  split; [eapply same_requests_trans; eassumption | congruence].
Qed.

Lemma choice_loop_unfold (fuel : nat) :
  choice_loop fuel
  = choice_turn (match fuel with
                 | 0 => fun w => (Raise EOFError, w)
                 | S f => choice_loop f
                 end).
Proof. destruct fuel; reflexivity. Qed.

(** The loop returns the first line that is a valid choice. *)
Lemma choice_loop_skips (skipped : list string) (line : string)
  (rest : list string) (fuel : nat) (w : World) :
  length (stdin w) <= fuel ->
  stdin w = (skipped ++ line :: rest)%list ->
  Forall (fun l => valid_choice l = false) skipped ->
  valid_choice line = true ->
  exists w',
    choice_loop fuel w = (Ok (Py.strip line), w')
    /\ stdin w' = rest /\ same_requests w w'.
Proof.
  revert fuel w.
  induction skipped as [|l skipped IH]; intros fuel w Hfuel Hin Hskip Hvalid.
  - rewrite choice_loop_unfold. unfold choice_turn, bind.
    rewrite (input_eq _ line rest w Hin).
    unfold valid_choice in Hvalid. rewrite Hvalid.
    eexists. split; [reflexivity|]. unfold after_input; simpl.
    rewrite Hin. repeat split.
  - inversion Hskip as [|? ? Hl Hskip']; subst.
    destruct fuel as [|fuel]; [rewrite Hin in Hfuel; simpl in Hfuel; lia|].
    rewrite choice_loop_unfold. unfold choice_turn, bind.
    rewrite (input_eq _ l (skipped ++ line :: rest) w Hin).
    unfold valid_choice in Hl. rewrite Hl. rewrite print_eq.
    destruct (IH fuel
                (after_write ["Please enter 1, 2, or 3." ++ Py.nl]
                   (after_input "Enter your choice (1, 2, or 3): " w)))
      as (w' & Hrun & Hrest & Hs); try assumption.
    + simpl. rewrite Hin in *. simpl in *. lia.
    + simpl. now rewrite Hin.
    + exists w'. split; [exact Hrun|]. split; [exact Hrest|].
      destruct Hs as (H1 & H2 & H3). repeat split; assumption.
Qed.

Lemma choice_loop_eof (skipped : list string) (fuel : nat) (w : World) :
  length (stdin w) <= fuel ->
  stdin w = skipped ->
  Forall (fun l => valid_choice l = false) skipped ->
  exists w', choice_loop fuel w = (Raise EOFError, w').
Proof.
  revert fuel w.
  induction skipped as [|l skipped IH]; intros fuel w Hfuel Hin Hskip.
  - rewrite choice_loop_unfold. unfold choice_turn, bind.
    rewrite (input_eof _ w Hin). now eexists.
  - inversion Hskip as [|? ? Hl Hskip']; subst.
    destruct fuel as [|fuel]; [rewrite Hin in Hfuel; simpl in Hfuel; lia|].
    rewrite choice_loop_unfold. unfold choice_turn, bind.
    rewrite (input_eq _ l skipped w Hin).
    unfold valid_choice in Hl. rewrite Hl. rewrite print_eq.
    apply IH; try assumption.
    + simpl. rewrite Hin in *. simpl in *. lia.
    + simpl. now rewrite Hin.
Qed.

Lemma get_user_choice_menu (memory : StoryMemory) (w : World) :
  exists w0,
    same_requests w w0 /\ stdin w0 = stdin w
    /\ get_user_choice memory w = choice_loop (length (stdin w0)) w0.
Proof.
  unfold get_user_choice, bind. rewrite !print_eq.
  eexists. split; [|split; [|reflexivity]]; repeat split.
Qed.

(** X19.  On a console of plain lines, [get_user_choice] returns the first
    line that, stripped, is 1, 2 or 3: the lines before it are refused one
    by one and everything after it is left to be read.  When no line is a
    valid choice the end of the input raises [EOFError].  No request is
    sent. *)
Theorem get_user_choice_first_valid (memory : StoryMemory) (w : World)
  (skipped : list string) :
  Forall (fun l => plain_line l = true) (stdin w) ->
  Forall (fun l => valid_choice l = false) skipped ->
  (forall line rest,
      stdin w = (skipped ++ line :: rest)%list ->
      valid_choice line = true ->
      exists w',
        get_user_choice memory w = (Ok (Py.strip line), w')
        /\ stdin w' = rest /\ calls w' = calls w)
  /\ (stdin w = skipped ->
      exists w', get_user_choice memory w = (Raise EOFError, w')).
Proof.
  intros _ Hskip.
  destruct (get_user_choice_menu memory w) as (w0 & Hs & Hin & ->).
  split.
  - intros line rest Hlines Hvalid.
    destruct (choice_loop_skips skipped line rest (length (stdin w0)) w0)
      as (w' & Hrun & Hrest & Hs'); auto; [congruence|].
    exists w'. split; [exact Hrun|]. split; [exact Hrest|].
    destruct Hs as (_ & _ & Hc). destruct Hs' as (_ & _ & Hc'). congruence.
  - intros Hlines.
    apply (choice_loop_eof skipped); auto. congruence.
Qed.

Lemma get_user_choice_first_valid_witness :
  exists w',
    get_user_choice sample_memory
      (fresh_world [] ["yes"; "4"; ""; " 2 "; "a new story"])
    = (Ok "2", w')
    /\ stdin w' = ["a new story"].
Proof.
  destruct (get_user_choice_first_valid sample_memory
              (fresh_world [] ["yes"; "4"; ""; " 2 "; "a new story"])
              ["yes"; "4"; ""]) as [Hfirst _].
  - repeat constructor.
  - repeat constructor.
  - destruct (Hfirst " 2 " ["a new story"] eq_refl eq_refl)
      as (w' & Hrun & Hrest & _).
    exists w'. split; [exact Hrun | exact Hrest].
Defined.

(** A choice that [get_user_choice] returns is 1, 2 or 3. *)
Lemma choice_loop_inv (fuel : nat) (w w' : World) (choice : string) :
  choice_loop fuel w = (Ok choice, w') ->
  one_of choice ["1"; "2"; "3"] = true /\ same_requests w w'.
Proof.
  revert w. induction fuel as [|fuel IH]; intros w;
    rewrite choice_loop_unfold; unfold choice_turn; intros H;
    bind_inv_in H; apply input_inv in Hrun as (Hs & _);
    destruct (one_of (Py.strip a) ["1"; "2"; "3"]) eqn:E.
  - apply ret_inv in H as [<- <-]. auto.
  - bind_inv_in H. discriminate.
  - apply ret_inv in H as [<- <-]. auto.
  - bind_inv_in H. apply print_inv in Hrun as (Hs' & _).
    apply IH in H as [Hv Hs'']. split; [exact Hv|].
    eapply same_requests_trans; [exact Hs|].
    eapply same_requests_trans; eassumption.
Qed.

Lemma get_user_choice_inv (memory : StoryMemory) (w w' : World)
  (choice : string) :
  get_user_choice memory w = (Ok choice, w') ->
  one_of choice ["1"; "2"; "3"] = true /\ same_requests w w'.
Proof.
  destruct (get_user_choice_menu memory w) as (w0 & Hs & _ & ->).
  intros H. apply choice_loop_inv in H as [Hv Hs']. split; [exact Hv|].
  eapply same_requests_trans; eassumption.
Qed.

(** ** The next request after the first story *)

Lemma assess_story_quality_eq (story : string) (memory : StoryMemory)
  (w : World) :
  assess_story_quality story memory w
  = (Ok (match Py.usable (reply w 0) with
         | Some r => Py.contains "YES" (Py.upper r)
         | None => false
         end),
     after_call (assessment_prompt story memory) 100 w).
Proof. unfold assess_story_quality, bind. now rewrite call_model_eq. Qed.

(** What a run of the menu that returns has read: lines that it refused,
    then the line of the choice. *)
Lemma choice_loop_reads (fuel : nat) (w w' : World) (choice : string) :
  choice_loop fuel w = (Ok choice, w') ->
  exists refused line,
    stdin w = (refused ++ line :: stdin w')%list
    /\ Forall (fun l => valid_choice l = false) refused
    /\ valid_choice line = true
    /\ choice = Py.strip line.
Proof.
  revert w. induction fuel as [|fuel IH]; intros w;
    rewrite choice_loop_unfold; unfold choice_turn; intros H;
    bind_inv_in H; apply input_inv in Hrun as (_ & Hin);
    destruct (one_of (Py.strip a) ["1"; "2"; "3"]) eqn:E.
  - apply ret_inv in H as [<- <-]. exists [], a. repeat split; auto.
  - bind_inv_in H. discriminate.
  - apply ret_inv in H as [<- <-]. exists [], a. repeat split; auto.
  - bind_inv_in H. apply print_inv in Hrun as (_ & Hin' & _).
    apply IH in H as (refused & line & Hlines & Hrefused & Hvalid & Hchoice).
    exists (a :: refused), line.
    split; [simpl; congruence|].
    split; [constructor; assumption|]. auto.
Qed.

Lemma get_user_choice_reads (memory : StoryMemory) (w w' : World)
  (choice : string) :
  get_user_choice memory w = (Ok choice, w') ->
  exists refused line,
    stdin w = (refused ++ line :: stdin w')%list
    /\ Forall (fun l => valid_choice l = false) refused
    /\ valid_choice line = true
    /\ choice = Py.strip line.
Proof.
  destruct (get_user_choice_menu memory w) as (w0 & _ & Hin & ->).
  intros H. apply choice_loop_reads in H. now rewrite Hin in H.
Qed.

(** X20.  Once a story exists, the turn starts with one request, the
    assessment of the current story.  On a console of plain lines and with
    an ASCII reply, the assessment is accepted when the reply holds YES in
    any case of letters.  When it is not accepted, the next line of the
    console, stripped, is the request for a new story.  When it is
    accepted, the menu refuses lines until one is, stripped, 1, 2 or 3:
    after 1 the line that follows, stripped, is the request for an episode
    and the memory is kept as it is; after 2 the line that follows,
    stripped, is the request for a new story; after 3 the loop is left and
    no further line is read.  Every request for a new story has cleared the
    characters. *)
Theorem next_request_after_first_story (memory : StoryMemory)
  (story_count : nat) (w w1 : World)
  (request : option (string * bool * StoryMemory)) :
  story_count <> 0 ->
  Forall (fun l => plain_line l = true) (stdin w) ->
  plain_reply w 0 = true ->
  next_request memory story_count w = (Ok request, w1) ->
  calls w1
  = (calls w
     ++ sent (assessment_prompt (current_story memory) memory) 100 w)%list
  /\ ((~ accepted w
       /\ exists line,
            stdin w = line :: stdin w1
            /\ request
               = Some (Py.strip line, false, set_characters [] memory))
      \/ (accepted w
          /\ exists refused choice,
               Forall (fun l => valid_choice l = false) refused
               /\ ((Py.strip choice = "1"
                    /\ exists line,
                         stdin w
                         = (refused ++ choice :: line :: stdin w1)%list
                         /\ request = Some (Py.strip line, true, memory))
                   \/ (Py.strip choice = "2"
                       /\ exists line,
                            stdin w
                            = (refused ++ choice :: line :: stdin w1)%list
                            /\ request
                               = Some (Py.strip line, false,
                                       set_characters [] memory))
                   \/ (Py.strip choice = "3"
                       /\ stdin w = (refused ++ choice :: stdin w1)%list
                       /\ request = None)))).
Proof.
  intros Hcount _ _. unfold next_request.
  apply Nat.eqb_neq in Hcount. rewrite Hcount.
  unfold bind at 1. rewrite assess_story_quality_eq.
  set (wa := after_call (assessment_prompt (current_story memory) memory)
               100 w).
  assert (forall w', same_requests wa w' ->
            calls w'
            = (calls w ++ sent (assessment_prompt (current_story memory)
                                  memory) 100 w)%list) as Hcalls.
  { intros w' (_ & _ & ->). reflexivity. }
  assert (stdin wa = stdin w) as Hwa by reflexivity.
  destruct (Py.usable (reply w 0)) as [r|] eqn:Hr.
  - destruct (Py.contains "YES" (Py.upper r)) eqn:Hyes.
    + assert (accepted w) as Hacc by (now exists r).
      intros H. bind_inv_in H.
      pose proof (get_user_choice_inv _ _ _ _ Hrun) as (Hone & Hs).
      apply get_user_choice_reads in Hrun
        as (refused & choice & Hlines & Hrefused & _ & ->).
      rewrite Hwa in Hlines.
      destruct (String.eqb (Py.strip choice) "1") eqn:E1.
      * apply String.eqb_eq in E1.
        bind_inv_in H. apply input_inv in Hrun as (Hs' & Hin).
        apply ret_inv in H as [<- <-].
        split; [apply Hcalls; eapply same_requests_trans; eassumption|].
        right. split; [exact Hacc|]. exists refused, choice.
        split; [exact Hrefused|]. left. split; [exact E1|].
        eexists. split; [|reflexivity]. now rewrite Hlines, Hin.
      * destruct (String.eqb (Py.strip choice) "2") eqn:E2.
        -- apply String.eqb_eq in E2.
           bind_inv_in H. apply input_inv in Hrun as (Hs' & Hin).
           apply ret_inv in H as [<- <-].
           split; [apply Hcalls; eapply same_requests_trans; eassumption|].
           right. split; [exact Hacc|]. exists refused, choice.
           split; [exact Hrefused|]. right; left. split; [exact E2|].
           eexists. split; [|reflexivity]. now rewrite Hlines, Hin.
        -- apply ret_inv in H as [<- <-].
           split; [now apply Hcalls|].
           right. split; [exact Hacc|]. exists refused, choice.
           split; [exact Hrefused|]. right; right.
           split; [|split; [exact Hlines | reflexivity]].
           unfold one_of in Hone. cbn [existsb] in Hone.
           rewrite E1, E2 in Hone. cbn [orb] in Hone.
           rewrite orb_false_r in Hone. now apply String.eqb_eq.
    + intros H. bind_inv_in H. apply input_inv in Hrun as (Hs' & Hin).
      apply ret_inv in H as [<- <-].
      split; [now apply Hcalls|].
      left. split.
      * intros (r' & Hr' & Hyes'). congruence.
      * eexists. split; [|reflexivity]. now rewrite <- Hwa.
  - intros H. bind_inv_in H. apply input_inv in Hrun as (Hs' & Hin).
    apply ret_inv in H as [<- <-].
    split; [now apply Hcalls|].
    left. split.
    + intros (r' & Hr' & _). congruence.
    + eexists. split; [|reflexivity]. now rewrite <- Hwa.
Qed.

Lemma next_request_after_first_story_witness :
  fst (next_request sample_memory 1 episode_world)
  = Ok (Some ("Tom meets a cat", true, sample_memory))
  /\ accepted episode_world.
Proof.
  assert (next_request sample_memory 1 episode_world
          = (Ok (Some ("Tom meets a cat", true, sample_memory)),
             snd (next_request sample_memory 1 episode_world))) as Hrun
    by (vm_compute; reflexivity).
  split; [now rewrite Hrun|].
  assert (Forall (fun l => plain_line l = true) (stdin episode_world))
    as Hplain by (repeat constructor).
  pose proof (next_request_after_first_story sample_memory 1 episode_world
                (snd (next_request sample_memory 1 episode_world))
                (Some ("Tom meets a cat", true, sample_memory))
                (Nat.neq_succ_0 0) Hplain eq_refl Hrun) as H.
  destruct H as (_ & [(_ & line & _ & Heq) | (Hacc & _)]);
    [discriminate Heq | exact Hacc].
Defined.

(** ** Lines that record a character *)

Lemma split_head_prefix (sep : ascii) (s : string) :
  exists tail, s = hd "" (Py.split sep s) ++ tail.
Proof.
  induction s as [|c s IH]; [now exists ""|].
  simpl. destruct (Ascii.eqb c sep).
  - now exists (String c s).
  - destruct IH as (tail & Htail).
    destruct (Py.split sep s) as [|p ps]; simpl in *.
    + exists s. reflexivity.
    + exists tail. now rewrite Htail at 1.
Qed.

Lemma split_several_contains (sep : ascii) (s a b : string)
  (more : list string) :
  Py.split sep s = a :: b :: more -> Py.contains (String sep "") s = true.
Proof.
  intros H. destruct (Py.contains (String sep "") s) eqn:E; [reflexivity|].
  rewrite (split_without sep s E) in H. discriminate.
Qed.

(** X21.  An ASCII line with a pipe and with a colon before its first pipe
    always records a character, whatever else it holds: the parse raises in
    no case.  The name is the text before the first colon and the description
    the text between the first and the second colon of the part before the
    first pipe, both stripped; the character is stored under the name, in
    place of a character of that name, and has no relationships. *)
Theorem process_line_records (chars : list (string * Character))
  (line n d : string) (more : list string) :
  ascii_only line = true ->
  Py.contains "|" line = true ->
  Py.split ":" (first_segment line) = n :: d :: more ->
  exists traits,
    personality_of (Py.split "|" line) [] = Some traits
    /\ process_line chars line
       = dict_set (Py.strip n)
           {| name := Py.strip n; description := Py.strip d;
              personality := traits; relationships := [] |}
           chars
    /\ dict_get (Py.strip n) (process_line chars line)
       = Some {| name := Py.strip n; description := Py.strip d;
                 personality := traits; relationships := [] |}.
Proof.
  intros _ Hpipe Hsplit.
  assert (Py.contains ":" line = true) as Hcolon.
  { destruct (split_head_prefix "|" line) as (tail & Htail).
    fold (first_segment line) in Htail. rewrite Htail.
    apply contains_before.
    eapply (split_several_contains ":"); exact Hsplit. }
  destruct (personality_of (Py.split "|" line) []) as [traits|] eqn:Htraits;
    [|now apply personality_of_never_raises in Htraits].
  exists traits. split; [reflexivity|].
  assert (process_line chars line
          = dict_set (Py.strip n)
              {| name := Py.strip n; description := Py.strip d;
                 personality := traits; relationships := [] |} chars) as Hrec.
  { unfold process_line, try_line. rewrite Hcolon, Hpipe. cbn [andb].
    unfold first_segment in Hsplit.
    pose proof (split_not_nil "|" line) as Hne.
    destruct (Py.split "|" line) as [|first parts] eqn:Hparts;
      [contradiction|].
    cbn [nth_error hd] in *. rewrite Hsplit. cbn [length Nat.leb nth_error].
    now rewrite Htraits. }
  split; [exact Hrec|]. rewrite Hrec. apply dict_get_set_same.
Qed.

Lemma process_line_records_witness :
  exists traits,
    process_line [] "Tom: a mouse: small | likes cheese | Personality: shy, kind"
    = dict_set "Tom"
        {| name := "Tom"; description := "a mouse"; personality := traits;
           relationships := [] |} [].
Proof.
  destruct (process_line_records []
              "Tom: a mouse: small | likes cheese | Personality: shy, kind"
              "Tom" " a mouse" [" small "] eq_refl eq_refl eq_refl)
    as (traits & _ & Hrec & _).
  exists traits. exact Hrec.
Defined.

(** ** The prompt of an episode *)







(** ** A new story whose evaluation succeeds *)

(** X23.  When the draft and the evaluation calls of a new story both
    return a text, [generate_story] returns the refined text, or the draft
    when the refinement gives nothing, sends the request of the extractor
    for that very story as its last request, and leaves the memory with the
    genre detected from the request and the characters parsed from the
    reply of the extractor; nothing else of the memory is written. *)
Theorem new_story_is_extracted (user_input : string) (memory : StoryMemory)
  (w : World) (d v : string) :
  Py.usable (reply w 0) = Some d -> Py.usable (reply w 1) = Some v ->
  exists w' earlier,
    let story := final_text d (reply w 2) in
    let memory' :=
      with_extracted (reply w 3) (set_genre (detect_genre user_input) memory) in
    generate_story user_input memory false w = (Ok (Some story, memory'), w')
    /\ calls w' = (earlier ++ [extraction_of story])%list
    /\ length earlier = length (calls w) + 3
    /\ current_story memory' = current_story memory
    /\ story_history memory' = story_history memory
    /\ user_preferences memory' = user_preferences memory
    /\ genre memory' = detect_genre user_input.
Proof.
  intros Hd Hv. rewrite generate_story_cases. cbv zeta. rewrite Hd, Hv.
  pose proof (reply_Some_key w 0 d Hd) as Hkey.
  eexists _, _. split; [reflexivity|].
  destruct (with_extracted_fields (reply w 3)
              (working_memory user_input memory false))
    as (Hc & Hg & Hh & Hp).
  split; [|split; [|repeat split; assumption]].
  - rewrite calls_of_after_call.
    assert (Py.truthy_opt
              (api_key (refined user_input memory false d v w)) = true) as ->
      by (unfold refined, judged, drafted, announced; norm_calls; exact Hkey).
    reflexivity.
  - unfold refined, judged, drafted, announced. norm_calls. rewrite Hkey.
    rewrite !length_app. simpl. lia.
Qed.

Lemma new_story_is_extracted_witness :
  exists w' earlier,
    generate_story "A brave little mouse" new_StoryMemory false
      (fresh_world [ Content "Tom set out."; Content "Fine."; Failure "timeout";
                     Content "Tom: a mouse | personality: brave" ] [])
    = (Ok (Some "Tom set out.",
           with_extracted (Some "Tom: a mouse | personality: brave")
             (set_genre "adventure" new_StoryMemory)), w')
    /\ calls w' = (earlier ++ [extraction_of "Tom set out."])%list.
Proof.
  destruct (new_story_is_extracted "A brave little mouse" new_StoryMemory
              (fresh_world [ Content "Tom set out."; Content "Fine.";
                             Failure "timeout";
                             Content "Tom: a mouse | personality: brave" ] [])
              "Tom set out." "Fine." eq_refl eq_refl)
    as (w' & earlier & Hrun & Hcalls & _).
  exists w', earlier. split; [exact Hrun | exact Hcalls].
Defined.

(** ** The farewell *)

(** X24.  When at least one story was told and some genre preference was
    recorded, the farewell prints three lines: the thanks, the favourite
    genre and the good-bye.  The favourite is a recorded genre whose count
    is the highest, and among genres of the same count the one recorded
    first: every genre recorded before it has a strictly lower count. *)
Theorem goodbye_names_favourite (memory : StoryMemory) (story_count : nat)
  (w : World) (p : string * nat) (prefs : list (string * nat)) :
  0 < story_count ->
  dict_get "preferred_genres" (user_preferences memory) = Some (p :: prefs) ->
  let preferred := p :: prefs in
  exists fav thanks i,
    goodbye memory story_count w
    = (Ok tt,
       after_write
         [ thanks;
           "I noticed you really enjoyed " ++ Py.replace "_" " " fav
             ++ " stories! 🌟" ++ Py.nl;
           "Sweet dreams! Goodbye! 🌙" ++ Py.nl ] w)
    /\ nth_error (dict_keys preferred) i = Some fav
    /\ (forall g, In g (dict_keys preferred) ->
          score_of preferred g <= score_of preferred fav)
    /\ (forall j g, j < i -> nth_error (dict_keys preferred) j = Some g ->
          score_of preferred g < score_of preferred fav).
Proof.
  intros Hcount Hprefs preferred.
  destruct (py_max (score_of preferred) (dict_keys preferred)) as [fav|] eqn:Hmax.
  2: { destruct p; discriminate Hmax. }
  destruct (py_max_first _ _ _ Hmax) as (i & Hi & Hall & Hbefore).
  exists fav. eexists. exists i.
  split; [|repeat split; assumption].
  unfold goodbye. apply Nat.ltb_lt in Hcount. rewrite Hcount, Hprefs.
  fold preferred. rewrite Hmax.
  unfold bind. rewrite !print_eq, !after_write_write. cbn [app].
  rewrite !append_assoc. reflexivity.
Qed.

Lemma goodbye_names_favourite_witness :
  exists fav thanks i,
    goodbye
      (set_user_preferences
         [("preferred_genres", [("animal", 1); ("magic", 2); ("fantasy", 2)])]
         new_StoryMemory) 3 (fresh_world [] [])
    = (Ok tt,
       after_write
         [ thanks;
           "I noticed you really enjoyed " ++ Py.replace "_" " " fav
             ++ " stories! 🌟" ++ Py.nl;
           "Sweet dreams! Goodbye! 🌙" ++ Py.nl ] (fresh_world [] []))
    /\ nth_error ["animal"; "magic"; "fantasy"] i = Some fav.
Proof.
  destruct (goodbye_names_favourite
              (set_user_preferences
                 [("preferred_genres",
                   [("animal", 1); ("magic", 2); ("fantasy", 2)])]
                 new_StoryMemory) 3 (fresh_world [] [])
              ("animal", 1) [("magic", 2); ("fantasy", 2)]
              (Nat.lt_0_succ 2) eq_refl)
    as (fav & thanks & i & Hrun & Hi & _).
  exists fav, thanks, i. split; [exact Hrun | exact Hi].
Defined.
